(** * Board repair tracker: status workflow, authorization and transfer lifecycle

    A shallow embedding of the TypeScript sources
      - [src/types]            (interfaces [User], [RepairTransfer], [StatusLog],
                                [NewTransferForm], [StatusUpdateForm]),
      - [src/utils/status.ts]  ([STATUS_ORDER], [getNextStatus], [canUpdateStatus]),
      - the auth module        ([hasPermission], [canUpdateStatus] keyed by user and
                                transfer),
      - [src/pages/NewTransfer.tsx]     ([validateForm], [handleSubmit]),
      - [src/pages/TransferDetail.tsx]  ([loadTransferData], [handleStatusUpdate]),
      - [src/pages/AllTransfers.tsx]    ([loadTransfers]),
    followed by the properties of the specification that concern them.

    Conventions.  A JavaScript string is a [string] (a sequence of code units
    below 256); an optional property ([f?: T], or a value that may be
    [null]/[undefined]) is an [option]; [number] is used for [repair_cost] only
    and is a rational [Q]; [Date.now()] is an [N].  Clock readings, random
    draws and the availability of the remote store are inputs, gathered in an
    environment record per handler, one field per call site. *)

From Stdlib Require Import String Ascii List Bool Arith NArith QArith Lia.
From Stdlib Require Import Decimal DecimalString DecimalN.
Import ListNotations.
Close Scope Q_scope.
Open Scope nat_scope.
Open Scope string_scope.
Open Scope list_scope.

Set Implicit Arguments.

(* ------------------------------------------------------------------ *)
(** ** JavaScript primitives used by the sources *)

Module JS.

(** Truthiness of a string: only the empty string is falsy. *)
Definition truthy (s : string) : bool :=
  match s with EmptyString => false | String _ _ => true end.

(** Truthiness of an optional string ([undefined] and [null] are falsy). *)
Definition truthyO (o : option string) : bool :=
  match o with Some s => truthy s | None => false end.

(** [a || b] on strings. *)
Definition or_else (a b : string) : string := if truthy a then a else b.

(** [a || b] where [a] is an optional string and [b] a string. *)
Definition orO_else (a : option string) (b : string) : string :=
  match a with Some s => or_else s b | None => b end.

(** [a || b] where [a] is a string and [b] may be undefined. *)
Definition or_elseO (a : string) (b : option string) : option string :=
  if truthy a then Some a else b.

(** White space in the sense of [String.prototype.trim], among the code
    units below 256: TAB, LF, VT, FF, CR, SPACE and NBSP. *)
Definition isWhiteSpace (c : ascii) : bool :=
  let n := nat_of_ascii c in
  (Nat.leb 9 n && Nat.leb n 13) || Nat.eqb n 32 || Nat.eqb n 160.

Fixpoint trimStart (s : string) : string :=
  match s with
  | EmptyString => EmptyString
  | String c s' => if isWhiteSpace c then trimStart s' else s
  end.

Fixpoint trimEnd (s : string) : string :=
  match s with
  | EmptyString => EmptyString
  | String c s' =>
      match trimEnd s' with
      | EmptyString => if isWhiteSpace c then EmptyString else String c EmptyString
      | r => String c r
      end
  end.

Definition trim (s : string) : string := trimEnd (trimStart s).

(** [Array.prototype.indexOf] on an array of strings; [None] stands for -1. *)
Fixpoint indexOf (arr : list string) (x : string) : option nat :=
  match arr with
  | [] => None
  | y :: ys =>
      if String.eqb y x then Some 0
      else match indexOf ys x with Some i => Some (S i) | None => None end
  end.

(** [s.split(sep)[0]] for a one-character separator: the part of [s] before
    the first occurrence of [sep], or [s] itself. *)
Fixpoint split_head (sep : ascii) (s : string) : string :=
  match s with
  | EmptyString => EmptyString
  | String c s' => if Ascii.eqb c sep then EmptyString else String c (split_head sep s')
  end.

(** [s.substr(start, len)]. *)
Definition substr (start len : nat) (s : string) : string := String.substring start len s.

(** Template-literal rendering of a non-negative integer. *)
Definition showN (n : N) : string := NilEmpty.string_of_uint (N.to_uint n).

End JS.

(* ------------------------------------------------------------------ *)
(** ** src/types: the data model *)

Module User.
Record t := mk {
  id : string;
  email : string;
  name : string;
  role : string;      (* 'Admin' | 'HQ Staff' | 'Technician' *)
  branch : string;
  created_at : string;
  updated_at : string
}.
End User.

Module RepairTransfer.
Record t := mk {
  id : string;
  branch_from : string;
  branch_to : string;
  customer_name : string;
  phone_model : string;
  imei : string;
  passcode : option string;
  problem_description : string;
  staff_receive_name : string;
  date_from_branch : string;
  staff_send_name : option string;
  date_sent_to_branch : option string;
  technician_receive_name : option string;
  date_received_by_tech : option string;
  date_repair_done : option string;
  repair_cost : option Q;
  status : string;    (* 'Pending' | 'Received' | 'In Repair' | 'Done' | 'Returned' *)
  remarks : option string;
  updated_by : string;
  updated_at : string;
  created_at : string;
  user_id : string
}.
End RepairTransfer.

(** [Partial<RepairTransfer>]: every property optional. *)
Module PartialTransfer.
Record t := mk {
  id : option string;
  branch_from : option string;
  branch_to : option string;
  customer_name : option string;
  phone_model : option string;
  imei : option string;
  passcode : option string;
  problem_description : option string;
  staff_receive_name : option string;
  date_from_branch : option string;
  staff_send_name : option string;
  date_sent_to_branch : option string;
  technician_receive_name : option string;
  date_received_by_tech : option string;
  date_repair_done : option string;
  repair_cost : option Q;
  status : option string;
  remarks : option string;
  updated_by : option string;
  updated_at : option string;
  created_at : option string;
  user_id : option string
}.

(** The object literal [{ status, remarks, updated_by, updated_at }]. *)
Definition literal (st : string) (rm : option string) (by_ at_ : string) : t :=
  mk None None None None None None None None None None None None
     None None None None (Some st) rm (Some by_) (Some at_) None None.

Definition set_technician_receive_name (v : string) (p : t) : t :=
  mk (id p) (branch_from p) (branch_to p) (customer_name p) (phone_model p)
     (imei p) (passcode p) (problem_description p) (staff_receive_name p)
     (date_from_branch p) (staff_send_name p) (date_sent_to_branch p)
     (Some v) (date_received_by_tech p) (date_repair_done p) (repair_cost p)
     (status p) (remarks p) (updated_by p) (updated_at p) (created_at p) (user_id p).

Definition set_date_received_by_tech (v : string) (p : t) : t :=
  mk (id p) (branch_from p) (branch_to p) (customer_name p) (phone_model p)
     (imei p) (passcode p) (problem_description p) (staff_receive_name p)
     (date_from_branch p) (staff_send_name p) (date_sent_to_branch p)
     (technician_receive_name p) (Some v) (date_repair_done p) (repair_cost p)
     (status p) (remarks p) (updated_by p) (updated_at p) (created_at p) (user_id p).

Definition set_date_repair_done (v : string) (p : t) : t :=
  mk (id p) (branch_from p) (branch_to p) (customer_name p) (phone_model p)
     (imei p) (passcode p) (problem_description p) (staff_receive_name p)
     (date_from_branch p) (staff_send_name p) (date_sent_to_branch p)
     (technician_receive_name p) (date_received_by_tech p) (Some v) (repair_cost p)
     (status p) (remarks p) (updated_by p) (updated_at p) (created_at p) (user_id p).

Definition set_repair_cost (v : Q) (p : t) : t :=
  mk (id p) (branch_from p) (branch_to p) (customer_name p) (phone_model p)
     (imei p) (passcode p) (problem_description p) (staff_receive_name p)
     (date_from_branch p) (staff_send_name p) (date_sent_to_branch p)
     (technician_receive_name p) (date_received_by_tech p) (date_repair_done p) (Some v)
     (status p) (remarks p) (updated_by p) (updated_at p) (created_at p) (user_id p).
End PartialTransfer.

Module StatusLog.
Record t := mk {
  id : string;
  transfer_id : string;
  old_status : option string;
  new_status : string;
  remarks : option string;
  updated_by : string;
  updated_at : string;
  user_id : string
}.
End StatusLog.

Module NewTransferForm.
Record t := mk {
  customer_name : string;
  phone_model : string;
  imei : string;
  passcode : string;
  problem_description : string;
  staff_receive_name : string;
  date_from_branch : string
}.
End NewTransferForm.

(** [Partial<NewTransferForm>], the type of the [errors] object. *)
Module FormErrors.
Record t := mk {
  customer_name : option string;
  phone_model : option string;
  imei : option string;
  passcode : option string;
  problem_description : option string;
  staff_receive_name : option string;
  date_from_branch : option string
}.

Definition key {A} (o : option A) : nat := match o with Some _ => 1 | None => 0 end.

(** [Object.keys(e).length]. *)
Definition keys_length (e : t) : nat :=
  key (customer_name e) + key (phone_model e) + key (imei e) + key (passcode e)
  + key (problem_description e) + key (staff_receive_name e) + key (date_from_branch e).
End FormErrors.

Module StatusUpdateForm.
Record t := mk {
  status : string;
  remarks : string;
  technician_receive_name : option string;
  date_received_by_tech : option string;
  date_repair_done : option string;
  repair_cost : option Q
}.
End StatusUpdateForm.

(* ------------------------------------------------------------------ *)
(** ** src/utils/status.ts *)

Module Status.

Definition STATUS_ORDER : list string :=
  ["Pending"; "Received"; "In Repair"; "Done"; "Returned"].

Definition getNextStatus (currentStatus : string) : option string :=
  match JS.indexOf STATUS_ORDER currentStatus with
  | None => None                                   (* currentIndex === -1 *)
  | Some currentIndex =>
      if Nat.eqb currentIndex (List.length STATUS_ORDER - 1) then None
      else nth_error STATUS_ORDER (currentIndex + 1)
  end.

Definition canUpdateStatus (userRole : string) (currentStatus : string) : bool :=
  if String.eqb userRole "HQ Staff" then false
  else if String.eqb userRole "Technician" then negb (String.eqb currentStatus "Pending")
  else if String.eqb userRole "Admin" then true
  else false.

End Status.

(* ------------------------------------------------------------------ *)
(** ** The auth module *)

Module Auth.

Definition hasPermission (user : option User.t) (requiredRoles : list string) : bool :=
  match user with
  | None => false
  | Some u => existsb (String.eqb (User.role u)) requiredRoles
  end.

Definition canUpdateStatus (user : option User.t) (transfer : RepairTransfer.t) : bool :=
  match user with
  | None => false
  | Some u =>
      if String.eqb (User.role u) "Admin" then true
      else if String.eqb (User.role u) "HQ Staff"
              && String.eqb (RepairTransfer.branch_from transfer) "HQ" then true
      else if String.eqb (User.role u) "Technician"
              && String.eqb (RepairTransfer.branch_to transfer) (User.branch u) then true
      else false
  end.

End Auth.

(* ------------------------------------------------------------------ *)
(** ** The persistence store ([blink.db])

    The client object [blink.db] is an external collaborator: the sources
    only call [create], [update] and [list] on its two collections. *)

(** The object literal passed to [blink.db.repairTransfers.create]. *)
Module TransferInsert.
Record t := mk {
  id : string;
  branch_from : string;
  branch_to : string;
  customer_name : string;
  phone_model : string;
  imei : string;
  passcode : option string;          (* [formData.passcode || null] *)
  problem_description : string;
  staff_receive_name : string;
  date_from_branch : string;
  staff_send_name : string;
  date_sent_to_branch : string;
  status : string;
  updated_by : string;
  user_id : string
}.
End TransferInsert.

(** The object literal passed to [blink.db.statusLogs.create]. *)
Module LogInsert.
Record t := mk {
  id : string;
  transfer_id : string;
  old_status : option string;        (* [null] for the creation entry *)
  new_status : string;
  remarks : string;
  updated_by : string;
  user_id : string
}.
End LogInsert.

Module Store.

Record DB := mkDB {
  repairTransfers : list RepairTransfer.t;
  statusLogs : list StatusLog.t
}.

Definition empty : DB := mkDB [] [].

(** A call on the store either answers or throws; it may change the store.
    [None] is a thrown exception. *)
Definition Call (A : Type) : Type := DB -> option A * DB.

Definition ret {A} (a : A) : Call A := fun db => (Some a, db).

Definition bind {A B} (c : Call A) (k : A -> Call B) : Call B :=
  fun db =>
    match c db with
    | (Some a, db') => k a db'
    | (None, db') => (None, db')
    end.

(** A request that is answered only when the store is available. *)
Definition request {A} (available : bool) (f : DB -> A * DB) : Call A :=
  fun db => if available then let (a, db') := f db in (Some a, db') else (None, db).

(** [where] clauses used by the sources. *)
Inductive Where :=
| Any
| WhereId (v : string)
| WhereBranchFrom (v : string)
| WhereBranchTo (v : string).

Definition matches (w : Where) (r : RepairTransfer.t) : bool :=
  match w with
  | Any => true
  | WhereId v => String.eqb (RepairTransfer.id r) v
  | WhereBranchFrom v => String.eqb (RepairTransfer.branch_from r) v
  | WhereBranchTo v => String.eqb (RepairTransfer.branch_to r) v
  end.

(** [orderBy: { key: 'desc' }]: a stable insertion sort, greatest key first. *)
Fixpoint insert_desc {A} (key : A -> string) (x : A) (l : list A) : list A :=
  match l with
  | [] => [x]
  | y :: ys =>
      if String.leb (key y) (key x) then x :: l else y :: insert_desc key x ys
  end.

Definition sort_desc {A} (key : A -> string) (l : list A) : list A :=
  fold_right (insert_desc key) [] l.

Definition order {A} (orderBy : option (A -> string)) (l : list A) : list A :=
  match orderBy with Some key => sort_desc key l | None => l end.

Definition limited {A} (limit : option nat) (l : list A) : list A :=
  match limit with Some n => firstn n l | None => l end.

(** Modelled from the spec: the Persistence Store of section 6, whose client
    is not among the sources.  [create] appends the record, the store
    supplying the two time-stamp columns the caller leaves out. *)
Definition create_transfer (stamp : string) (p : TransferInsert.t) (db : DB) : DB :=
  let row :=
    RepairTransfer.mk
      (TransferInsert.id p) (TransferInsert.branch_from p) (TransferInsert.branch_to p)
      (TransferInsert.customer_name p) (TransferInsert.phone_model p)
      (TransferInsert.imei p) (TransferInsert.passcode p)
      (TransferInsert.problem_description p) (TransferInsert.staff_receive_name p)
      (TransferInsert.date_from_branch p)
      (Some (TransferInsert.staff_send_name p))
      (Some (TransferInsert.date_sent_to_branch p))
      None None None None
      (TransferInsert.status p) None
      (TransferInsert.updated_by p) stamp stamp (TransferInsert.user_id p) in
  mkDB (repairTransfers db ++ [row]) (statusLogs db).

Definition pick {A} (new : option A) (old : A) : A :=
  match new with Some v => v | None => old end.

Definition pickO {A} (new : option A) (old : option A) : option A :=
  match new with Some v => Some v | None => old end.

(** The row [r] with the properties present in [p] overwritten. *)
Definition merge (r : RepairTransfer.t) (p : PartialTransfer.t) : RepairTransfer.t :=
  RepairTransfer.mk
    (pick (PartialTransfer.id p) (RepairTransfer.id r))
    (pick (PartialTransfer.branch_from p) (RepairTransfer.branch_from r))
    (pick (PartialTransfer.branch_to p) (RepairTransfer.branch_to r))
    (pick (PartialTransfer.customer_name p) (RepairTransfer.customer_name r))
    (pick (PartialTransfer.phone_model p) (RepairTransfer.phone_model r))
    (pick (PartialTransfer.imei p) (RepairTransfer.imei r))
    (pickO (PartialTransfer.passcode p) (RepairTransfer.passcode r))
    (pick (PartialTransfer.problem_description p) (RepairTransfer.problem_description r))
    (pick (PartialTransfer.staff_receive_name p) (RepairTransfer.staff_receive_name r))
    (pick (PartialTransfer.date_from_branch p) (RepairTransfer.date_from_branch r))
    (pickO (PartialTransfer.staff_send_name p) (RepairTransfer.staff_send_name r))
    (pickO (PartialTransfer.date_sent_to_branch p) (RepairTransfer.date_sent_to_branch r))
    (pickO (PartialTransfer.technician_receive_name p) (RepairTransfer.technician_receive_name r))
    (pickO (PartialTransfer.date_received_by_tech p) (RepairTransfer.date_received_by_tech r))
    (pickO (PartialTransfer.date_repair_done p) (RepairTransfer.date_repair_done r))
    (pickO (PartialTransfer.repair_cost p) (RepairTransfer.repair_cost r))
    (pick (PartialTransfer.status p) (RepairTransfer.status r))
    (pickO (PartialTransfer.remarks p) (RepairTransfer.remarks r))
    (pick (PartialTransfer.updated_by p) (RepairTransfer.updated_by r))
    (pick (PartialTransfer.updated_at p) (RepairTransfer.updated_at r))
    (pick (PartialTransfer.created_at p) (RepairTransfer.created_at r))
    (pick (PartialTransfer.user_id p) (RepairTransfer.user_id r)).

(** Modelled from the spec: [update(id, partialFields)] of section 6.  The
    rows whose id is [id] take the given properties; a property that is
    absent (or [undefined]) leaves the column as it is. *)
Definition update_transfer (id : string) (p : PartialTransfer.t) (db : DB) : DB :=
  mkDB
    (map (fun r => if String.eqb (RepairTransfer.id r) id then merge r p else r)
         (repairTransfers db))
    (statusLogs db).

(** Modelled from the spec: [list(filter, orderBy)] of section 6. *)
Definition list_transfers (w : Where) (orderBy : option (RepairTransfer.t -> string))
  (limit : option nat) (db : DB) : list RepairTransfer.t :=
  limited limit (order orderBy (filter (matches w) (repairTransfers db))).

(** Modelled from the spec: [create] on the StatusLogEntry collection. *)
Definition create_log (stamp : string) (p : LogInsert.t) (db : DB) : DB :=
  let row :=
    StatusLog.mk (LogInsert.id p) (LogInsert.transfer_id p) (LogInsert.old_status p)
      (LogInsert.new_status p) (Some (LogInsert.remarks p)) (LogInsert.updated_by p)
      stamp (LogInsert.user_id p) in
  mkDB (repairTransfers db) (statusLogs db ++ [row]).

(** Modelled from the spec: [list] on the StatusLogEntry collection, with
    [where: { transfer_id }] and [orderBy: { updated_at: 'desc' }]. *)
Definition list_logs (transfer_id : string) (db : DB) : list StatusLog.t :=
  sort_desc StatusLog.updated_at
    (filter (fun l => String.eqb (StatusLog.transfer_id l) transfer_id) (statusLogs db)).

(** The first stored row with the given id. *)
Definition find (id : string) (db : DB) : option RepairTransfer.t :=
  List.find (matches (WhereId id)) (repairTransfers db).

End Store.

Notation "x <- c ;; k" := (Store.bind c (fun x => k))
  (at level 61, c at next level, right associativity).

(** The read-scoping rule: an Admin may receive any record, HQ Staff only
    records sent from their branch, a Technician only records sent to their
    branch. *)
Definition inScope (u : User.t) (r : RepairTransfer.t) : Prop :=
  (User.role u = "HQ Staff" -> RepairTransfer.branch_from r = User.branch u) /\
  (User.role u = "Technician" -> RepairTransfer.branch_to r = User.branch u).

Definition inScopeb (u : User.t) (r : RepairTransfer.t) : bool :=
  (negb (String.eqb (User.role u) "HQ Staff")
   || String.eqb (RepairTransfer.branch_from r) (User.branch u))
  && (negb (String.eqb (User.role u) "Technician")
      || String.eqb (RepairTransfer.branch_to r) (User.branch u)).

(** [`${prefix}_${Date.now()}_${Math.random().toString(36).substr(2, 9)}`],
    where [random36] is the text [Math.random().toString(36)]. *)
Definition generated_id (prefix : string) (now : N) (random36 : string) : string :=
  prefix ++ "_" ++ JS.showN now ++ "_" ++ JS.substr 2 9 random36.

(** [new Date().toISOString().split('T')[0]], from the ISO text of the clock. *)
Definition iso_date (iso : string) : string := JS.split_head "T"%char iso.

(* ------------------------------------------------------------------ *)
(** ** src/pages/NewTransfer.tsx *)

Module NewTransfer.

(** The object [newErrors] built by [validateForm]. *)
Definition newErrors (formData : NewTransferForm.t) : FormErrors.t :=
  FormErrors.mk
    (if JS.truthy (JS.trim (NewTransferForm.customer_name formData)) then None
     else Some "Customer name is required")
    (if JS.truthy (JS.trim (NewTransferForm.phone_model formData)) then None
     else Some "Phone model is required")
    (if negb (JS.truthy (JS.trim (NewTransferForm.imei formData)))
     then Some "IMEI is required"
     else if Nat.ltb (String.length (NewTransferForm.imei formData)) 15
     then Some "IMEI must be at least 15 characters"
     else None)
    None
    (if JS.truthy (JS.trim (NewTransferForm.problem_description formData)) then None
     else Some "Problem description is required")
    (if JS.truthy (JS.trim (NewTransferForm.staff_receive_name formData)) then None
     else Some "Staff name is required")
    (if JS.truthy (NewTransferForm.date_from_branch formData) then None
     else Some "Date is required").

(** The value returned by [validateForm]. *)
Definition validateForm (formData : NewTransferForm.t) : bool :=
  Nat.eqb (FormErrors.keys_length (newErrors formData)) 0.

(** What [handleSubmit] reads from outside the component. *)
Record Env := mkEnv {
  transfer_now : N;            (* [Date.now()] for the transfer id *)
  transfer_random : string;    (* [Math.random().toString(36)] for the transfer id *)
  sent_iso : string;           (* [new Date().toISOString()] for [date_sent_to_branch] *)
  transfer_available : bool;   (* does [repairTransfers.create] answer? *)
  transfer_stamp : string;     (* the store's clock at that call *)
  log_now : N;                 (* [Date.now()] for the log id *)
  log_random : string;         (* [Math.random().toString(36)] for the log id *)
  log_available : bool;        (* does [statusLogs.create] answer? *)
  log_stamp : string           (* the store's clock at that call *)
}.

(** How a call of [handleSubmit] ends. *)
Inductive Outcome :=
| NoUser                                (* [if (!user) return] *)
| Rejected (errors : FormErrors.t)      (* [if (!validateForm()) return] *)
| Redirected (transferId : string)      (* [window.location.hash = ...] *)
| Alerted.                              (* the [catch] branch *)

Definition transferId (env : Env) : string :=
  generated_id "transfer" (transfer_now env) (transfer_random env).

Definition transferRow (user : User.t) (formData : NewTransferForm.t) (env : Env)
  : TransferInsert.t :=
  TransferInsert.mk
    (transferId env)
    (User.branch user)
    "Kluang"
    (NewTransferForm.customer_name formData)
    (NewTransferForm.phone_model formData)
    (NewTransferForm.imei formData)
    (if JS.truthy (NewTransferForm.passcode formData)
     then Some (NewTransferForm.passcode formData) else None)
    (NewTransferForm.problem_description formData)
    (NewTransferForm.staff_receive_name formData)
    (NewTransferForm.date_from_branch formData)
    (User.name user)
    (iso_date (sent_iso env))
    "Pending"
    (User.name user)
    (User.id user).

Definition logRow (user : User.t) (env : Env) : LogInsert.t :=
  LogInsert.mk
    (generated_id "log" (log_now env) (log_random env))
    (transferId env)
    None
    "Pending"
    "Transfer created"
    (User.name user)
    (User.id user).

(** The [try] block of [handleSubmit]. *)
Definition submit (user : User.t) (formData : NewTransferForm.t) (env : Env)
  : Store.Call Outcome :=
  _ <- Store.request (transfer_available env)
         (fun db => (tt, Store.create_transfer (transfer_stamp env)
                           (transferRow user formData env) db)) ;;
  _ <- Store.request (log_available env)
         (fun db => (tt, Store.create_log (log_stamp env) (logRow user env) db)) ;;
  Store.ret (Redirected (transferId env)).

Definition handleSubmit (user : option User.t) (formData : NewTransferForm.t)
  (env : Env) (db : Store.DB) : Outcome * Store.DB :=
  match user with
  | None => (NoUser, db)
  | Some user =>
      if negb (validateForm formData) then (Rejected (newErrors formData), db)
      else
        match submit user formData env db with
        | (Some o, db') => (o, db')
        | (None, db') => (Alerted, db')
        end
  end.

End NewTransfer.

(* ------------------------------------------------------------------ *)
(** ** src/pages/TransferDetail.tsx *)

Module TransferDetail.

(** The component state read and written by the two handlers (the
    [loading] and [updating] flags only drive the spinner). *)
Record Page := mkPage {
  user : option User.t;
  transfer : option RepairTransfer.t;
  statusLogs : list StatusLog.t;
  updateForm : StatusUpdateForm.t;
  showUpdateForm : bool
}.

(** The state of a freshly mounted component. *)
Definition initial : Page :=
  mkPage None None []
    (StatusUpdateForm.mk "Pending" EmptyString (Some EmptyString) (Some EmptyString) (Some EmptyString) None) false.

(** Availability of the store for the two reads of [loadTransferData]. *)
Record LoadEnv := mkLoadEnv {
  transfers_available : bool;
  logs_available : bool
}.

Definition setTransfer (t : RepairTransfer.t) (pg : Page) : Page :=
  mkPage (user pg) (Some t) (statusLogs pg) (updateForm pg) (showUpdateForm pg).

Definition setStatusLogs (l : list StatusLog.t) (pg : Page) : Page :=
  mkPage (user pg) (transfer pg) l (updateForm pg) (showUpdateForm pg).

Definition setUpdateForm (f : StatusUpdateForm.t -> StatusUpdateForm.t) (pg : Page) : Page :=
  mkPage (user pg) (transfer pg) (statusLogs pg) (f (updateForm pg)) (showUpdateForm pg).

Definition setShowUpdateForm (b : bool) (pg : Page) : Page :=
  mkPage (user pg) (transfer pg) (statusLogs pg) (updateForm pg) b.

Definition loadTransferData (transferId : string) (currentUser : User.t)
  (env : LoadEnv) (db : Store.DB) (pg : Page) : Page :=
  if negb (transfers_available env) then pg
  else
    match Store.list_transfers (Store.WhereId transferId) None None db with
    | [] => pg                                         (* 'Transfer not found' *)
    | transferData :: _ =>
        if String.eqb (User.role currentUser) "HQ Staff"
           && negb (String.eqb (RepairTransfer.branch_from transferData)
                               (User.branch currentUser))
        then pg                                        (* 'Access denied ...' *)
        else if String.eqb (User.role currentUser) "Technician"
                && negb (String.eqb (RepairTransfer.branch_to transferData)
                                    (User.branch currentUser))
        then pg                                        (* 'Access denied ...' *)
        else
          let pg1 := setTransfer transferData pg in
          if negb (logs_available env) then pg1
          else
            let logs := Store.list_logs transferId db in
            setUpdateForm
              (fun prev =>
                 StatusUpdateForm.mk
                   (RepairTransfer.status transferData)
                   (StatusUpdateForm.remarks prev)
                   (Some (JS.orO_else (RepairTransfer.technician_receive_name transferData) EmptyString))
                   (Some (JS.orO_else (RepairTransfer.date_received_by_tech transferData) EmptyString))
                   (Some (JS.orO_else (RepairTransfer.date_repair_done transferData) EmptyString))
                   (RepairTransfer.repair_cost transferData))
              (setStatusLogs logs pg1)
    end.

(** What [handleStatusUpdate] reads from outside the component. *)
Record Env := mkEnv {
  updated_at_iso : string;     (* [new Date().toISOString()] for [updated_at] *)
  received_iso : string;       (* [new Date().toISOString()] for the default date *)
  update_available : bool;     (* does [repairTransfers.update] answer? *)
  log_now : N;
  log_random : string;
  log_available : bool;        (* does [statusLogs.create] answer? *)
  log_stamp : string;
  reload : LoadEnv
}.

Inductive Outcome :=
| NotReady        (* [if (!user || !transfer) return] *)
| Updated         (* the [try] block ran to its end *)
| Alerted.        (* the [catch] branch *)

(** The object [updateData] once the status-specific fields are added. *)
Definition updateData (user : User.t) (transfer : RepairTransfer.t)
  (updateForm : StatusUpdateForm.t) (env : Env) : PartialTransfer.t :=
  let d0 :=
    PartialTransfer.literal
      (StatusUpdateForm.status updateForm)
      (JS.or_elseO (StatusUpdateForm.remarks updateForm) (RepairTransfer.remarks transfer))
      (User.name user)
      (updated_at_iso env) in
  let d1 :=
    if String.eqb (StatusUpdateForm.status updateForm) "Received"
    then match StatusUpdateForm.technician_receive_name updateForm with
         | Some name =>
             if JS.truthy name
             then PartialTransfer.set_date_received_by_tech
                    (JS.orO_else (StatusUpdateForm.date_received_by_tech updateForm)
                                 (iso_date (received_iso env)))
                    (PartialTransfer.set_technician_receive_name name d0)
             else d0
         | None => d0
         end
    else d0 in
  if String.eqb (StatusUpdateForm.status updateForm) "Done"
  then match StatusUpdateForm.date_repair_done updateForm with
       | Some done =>
           if JS.truthy done
           then let d2 := PartialTransfer.set_date_repair_done done d1 in
                match StatusUpdateForm.repair_cost updateForm with
                | Some cost => PartialTransfer.set_repair_cost cost d2
                | None => d2
                end
           else d1
       | None => d1
       end
  else d1.

Definition logRow (transferId : string) (user : User.t) (transfer : RepairTransfer.t)
  (updateForm : StatusUpdateForm.t) (env : Env) : LogInsert.t :=
  LogInsert.mk
    (generated_id "log" (log_now env) (log_random env))
    transferId
    (Some (RepairTransfer.status transfer))
    (StatusUpdateForm.status updateForm)
    (StatusUpdateForm.remarks updateForm)
    (User.name user)
    (User.id user).

(** The two writes of the [try] block. *)
Definition writes (transferId : string) (user : User.t) (transfer : RepairTransfer.t)
  (updateForm : StatusUpdateForm.t) (env : Env) : Store.Call unit :=
  _ <- Store.request (update_available env)
         (fun db => (tt, Store.update_transfer transferId
                           (updateData user transfer updateForm env) db)) ;;
  Store.request (log_available env)
    (fun db => (tt, Store.create_log (log_stamp env)
                      (logRow transferId user transfer updateForm env) db)).

Definition clearRemarks (prev : StatusUpdateForm.t) : StatusUpdateForm.t :=
  StatusUpdateForm.mk
    (StatusUpdateForm.status prev) EmptyString
    (StatusUpdateForm.technician_receive_name prev)
    (StatusUpdateForm.date_received_by_tech prev)
    (StatusUpdateForm.date_repair_done prev)
    (StatusUpdateForm.repair_cost prev).

Definition handleStatusUpdate (transferId : string) (env : Env)
  (pg : Page) (db : Store.DB) : Outcome * Page * Store.DB :=
  match user pg, transfer pg with
  | Some u, Some t =>
      match writes transferId u t (updateForm pg) env db with
      | (Some _, db') =>
          let pg1 := loadTransferData transferId u (reload env) db' pg in
          (Updated, setUpdateForm clearRemarks (setShowUpdateForm false pg1), db')
      | (None, db') => (Alerted, pg, db')
      end
  | _, _ => (NotReady, pg, db)
  end.

(** The subscription callback of the mounting effect. *)
Definition setUser (u : User.t) (pg : Page) : Page :=
  mkPage (Some u) (transfer pg) (statusLogs pg) (updateForm pg) (showUpdateForm pg).

Definition onAuthStateChanged (transferId : string) (stateUser : option User.t)
  (env : LoadEnv) (db : Store.DB) (pg : Page) : Page :=
  match stateUser with
  | Some u => loadTransferData transferId u env db (setUser u pg)
  | None => pg
  end.

(** The [onChange] handlers of the update form. *)
Definition changeStatus (value : string) (pg : Page) : Page :=
  setUpdateForm
    (fun prev =>
       StatusUpdateForm.mk value (StatusUpdateForm.remarks prev)
         (StatusUpdateForm.technician_receive_name prev)
         (StatusUpdateForm.date_received_by_tech prev)
         (StatusUpdateForm.date_repair_done prev)
         (StatusUpdateForm.repair_cost prev))
    pg.

Definition changeTechnicianName (value : string) (pg : Page) : Page :=
  setUpdateForm
    (fun prev =>
       StatusUpdateForm.mk (StatusUpdateForm.status prev) (StatusUpdateForm.remarks prev)
         (Some value)
         (StatusUpdateForm.date_received_by_tech prev)
         (StatusUpdateForm.date_repair_done prev)
         (StatusUpdateForm.repair_cost prev))
    pg.

Definition changeRemarks (value : string) (pg : Page) : Page :=
  setUpdateForm
    (fun prev =>
       StatusUpdateForm.mk (StatusUpdateForm.status prev) value
         (StatusUpdateForm.technician_receive_name prev)
         (StatusUpdateForm.date_received_by_tech prev)
         (StatusUpdateForm.date_repair_done prev)
         (StatusUpdateForm.repair_cost prev))
    pg.

(** [canUpdate], which gates the "Update Status" button and the form. *)
Definition canUpdate (pg : Page) : bool :=
  match user pg, transfer pg with
  | Some u, Some t => Status.canUpdateStatus (User.role u) (RepairTransfer.status t)
  | _, _ => false
  end.

End TransferDetail.

(* ------------------------------------------------------------------ *)
(** ** src/pages/AllTransfers.tsx and src/pages/Dashboard.tsx: the list queries *)

Module AllTransfers.

(** The [transfers] state after [loadTransfers]; [transfers] is the state
    before, kept when the store throws. *)
Definition loadTransfers (currentUser : User.t) (available : bool) (db : Store.DB)
  (transfers : list RepairTransfer.t) : list RepairTransfer.t :=
  let by_created := Some RepairTransfer.created_at in
  if String.eqb (User.role currentUser) "Admin" then
    if available then Store.list_transfers Store.Any by_created None db else transfers
  else if String.eqb (User.role currentUser) "HQ Staff" then
    if available
    then Store.list_transfers (Store.WhereBranchFrom (User.branch currentUser)) by_created None db
    else transfers
  else if String.eqb (User.role currentUser) "Technician" then
    if available
    then Store.list_transfers (Store.WhereBranchTo (User.branch currentUser)) by_created None db
    else transfers
  else [].

End AllTransfers.

Module Dashboard.

(** The [recentTransfers] state after [loadDashboardData]. *)
Definition loadDashboardData (currentUser : User.t) (available : bool) (db : Store.DB)
  (recentTransfers : list RepairTransfer.t) : list RepairTransfer.t :=
  let by_created := Some RepairTransfer.created_at in
  if String.eqb (User.role currentUser) "Admin" then
    if available then Store.list_transfers Store.Any by_created (Some 10) db
    else recentTransfers
  else if String.eqb (User.role currentUser) "HQ Staff" then
    if available
    then Store.list_transfers (Store.WhereBranchFrom (User.branch currentUser))
           by_created (Some 10) db
    else recentTransfers
  else if String.eqb (User.role currentUser) "Technician" then
    if available
    then Store.list_transfers (Store.WhereBranchTo (User.branch currentUser))
           by_created (Some 10) db
    else recentTransfers
  else [].

End Dashboard.

(* ------------------------------------------------------------------ *)
(** ** Predicates of the specification *)

(** When the two [canUpdateStatus] implementations agree. *)
Definition policies_agree_when (u : User.t) (t : RepairTransfer.t) : Prop :=
  User.role u = "Admin" \/
  (User.role u = "HQ Staff" /\ RepairTransfer.branch_from t <> "HQ") \/
  (User.role u = "Technician" /\
   (RepairTransfer.status t <> "Pending" <->
    RepairTransfer.branch_to t = User.branch u)).

(** A form that [createTransfer] must refuse: a required text empty after
    trimming, no date, or an IMEI that is empty after trimming or shorter
    than 15 characters. *)
Definition invalid (f : NewTransferForm.t) : Prop :=
  JS.trim (NewTransferForm.customer_name f) = EmptyString \/
  JS.trim (NewTransferForm.phone_model f) = EmptyString \/
  JS.trim (NewTransferForm.problem_description f) = EmptyString \/
  JS.trim (NewTransferForm.staff_receive_name f) = EmptyString \/
  NewTransferForm.date_from_branch f = EmptyString \/
  JS.trim (NewTransferForm.imei f) = EmptyString \/
  String.length (NewTransferForm.imei f) < 15.

(** The ids of the stored transfer records. *)
Definition ids (db : Store.DB) : list string :=
  map RepairTransfer.id (Store.repairTransfers db).

(** Two versions of a record that carry the same creation-time fields. *)
Definition same_creation_fields (r r' : RepairTransfer.t) : Prop :=
  RepairTransfer.id r' = RepairTransfer.id r /\
  RepairTransfer.branch_from r' = RepairTransfer.branch_from r /\
  RepairTransfer.branch_to r' = RepairTransfer.branch_to r /\
  RepairTransfer.customer_name r' = RepairTransfer.customer_name r /\
  RepairTransfer.phone_model r' = RepairTransfer.phone_model r /\
  RepairTransfer.imei r' = RepairTransfer.imei r /\
  RepairTransfer.passcode r' = RepairTransfer.passcode r /\
  RepairTransfer.problem_description r' = RepairTransfer.problem_description r /\
  RepairTransfer.staff_receive_name r' = RepairTransfer.staff_receive_name r /\
  RepairTransfer.date_from_branch r' = RepairTransfer.date_from_branch r /\
  RepairTransfer.staff_send_name r' = RepairTransfer.staff_send_name r /\
  RepairTransfer.date_sent_to_branch r' = RepairTransfer.date_sent_to_branch r /\
  RepairTransfer.created_at r' = RepairTransfer.created_at r /\
  RepairTransfer.user_id r' = RepairTransfer.user_id r.

(* ------------------------------------------------------------------ *)
(** ** Sample data used by the closed examples *)

Definition admin : User.t :=
  User.mk "u1" "root@example.com" "Root" "Admin" "HQ" "2024-01-01" "2024-01-01".

Definition hq_staff : User.t :=
  User.mk "u2" "alice@example.com" "Alice" "HQ Staff" "HQ" "2024-01-01" "2024-01-01".

Definition technician : User.t :=
  User.mk "u3" "bob@example.com" "Bob" "Technician" "Kluang" "2024-01-01" "2024-01-01".

(** A record as [handleSubmit] leaves it: from HQ to Kluang, still Pending. *)
Definition pending_row : RepairTransfer.t :=
  RepairTransfer.mk "transfer_1709280000000_4fzyo82mv" "HQ" "Kluang" "Carol" "X1" "123456789012345"
    None "broken screen" "Alice" "2024-03-01" (Some "Alice") (Some "2024-03-01")
    None None None None "Pending" None "Alice"
    "2024-03-01T08:00:00.000Z" "2024-03-01T08:00:00.000Z" "u2".

(** A form that passes [validateForm], and one whose IMEI has 14 characters. *)
Definition good_form : NewTransferForm.t :=
  NewTransferForm.mk "Carol" "X1" "123456789012345" EmptyString "broken screen" "Alice" "2024-03-01".

Definition short_imei_form : NewTransferForm.t :=
  NewTransferForm.mk "Carol" "X1" "12345678901234" EmptyString "broken screen" "Alice" "2024-03-01".

(** A run of [handleSubmit] at 2024-03-01T08:00:00Z with the store available. *)
Definition submit_env : NewTransfer.Env :=
  NewTransfer.mkEnv 1709280000000 "0.4fzyo82mvyr" "2024-03-01T08:00:00.000Z" true
    "2024-03-01T08:00:00.100Z" 1709280000200 "0.k2j9x1q0c7a" true
    "2024-03-01T08:00:00.300Z".

(** The creation entry of [pending_row] and a store that holds both. *)
Definition pending_log : StatusLog.t :=
  StatusLog.mk "log_1709280000200_k2j9x1q0c" "transfer_1709280000000_4fzyo82mv"
    None "Pending" (Some "Transfer created") "Alice" "2024-03-01T08:00:00.300Z" "u2".

Definition one_row_db : Store.DB := Store.mkDB [pending_row] [pending_log].

(** The detail page of [pending_row] as an Admin sees it once it is loaded. *)
Definition always_available : TransferDetail.LoadEnv := TransferDetail.mkLoadEnv true true.

Definition admin_page : TransferDetail.Page :=
  TransferDetail.onAuthStateChanged "transfer_1709280000000_4fzyo82mv" (Some admin)
    always_available one_row_db TransferDetail.initial.

(** A run of [handleStatusUpdate] on 2024-03-02 with the store available. *)
Definition update_env : TransferDetail.Env :=
  TransferDetail.mkEnv "2024-03-02T09:30:00.000Z" "2024-03-02T09:30:00.001Z" true
    1709371800050 "0.9q8w7e6r5t4" true "2024-03-02T09:30:00.200Z" always_available.

(** The same record once received, with remarks, and its detail page. *)
Definition noted_row : RepairTransfer.t :=
  RepairTransfer.mk "transfer_1709280000000_4fzyo82mv" "HQ" "Kluang" "Carol" "X1"
    "123456789012345" None "broken screen" "Alice" "2024-03-01" (Some "Alice")
    (Some "2024-03-01") (Some "Bob") (Some "2024-03-02") None None "Received"
    (Some "arrived") "Bob" "2024-03-02T09:30:00.000Z" "2024-03-01T08:00:00.000Z" "u2".

Definition noted_db : Store.DB := Store.mkDB [noted_row] [pending_log].

Definition noted_page : TransferDetail.Page :=
  TransferDetail.onAuthStateChanged "transfer_1709280000000_4fzyo82mv" (Some admin)
    always_available noted_db TransferDetail.initial.

(** An HQ Staff user of another branch. *)
Definition outsider : User.t :=
  User.mk "u4" "dan@example.com" "Dan" "HQ Staff" "Muar" "2024-01-01" "2024-01-01".

(* ------------------------------------------------------------------ *)
(** ** Further predicates and helpers used by the properties *)

(** Following [getNextStatus] [n] times, as a page that always offers
    [nextStatus] would; [None] once there is no next status. *)
Fixpoint advance (n : nat) (s : option string) : option string :=
  match n with
  | 0 => s
  | S n' =>
      match s with
      | Some x => advance n' (Status.getNextStatus x)
      | None => None
      end
  end.

(** When the auth module lets a user update a record. *)
Definition auth_allows (u : User.t) (t : RepairTransfer.t) : Prop :=
  User.role u = "Admin" \/
  (User.role u = "HQ Staff" /\ RepairTransfer.branch_from t = "HQ") \/
  (User.role u = "Technician" /\ RepairTransfer.branch_to t = User.branch u).

(* ------------------------------------------------------------------ *)
(** ** src/pages/NewTransfer.tsx: the form around [handleSubmit] *)

Module NewTransferPage.

(** [keyof NewTransferForm]. *)
Inductive Field :=
| customer_name | phone_model | imei | passcode
| problem_description | staff_receive_name | date_from_branch.

(** [{ ...prev, [field]: value }] on the form data. *)
Definition setField (field : Field) (value : string) (prev : NewTransferForm.t)
  : NewTransferForm.t :=
  NewTransferForm.mk
    (match field with customer_name => value | _ => NewTransferForm.customer_name prev end)
    (match field with phone_model => value | _ => NewTransferForm.phone_model prev end)
    (match field with imei => value | _ => NewTransferForm.imei prev end)
    (match field with passcode => value | _ => NewTransferForm.passcode prev end)
    (match field with
     | problem_description => value | _ => NewTransferForm.problem_description prev end)
    (match field with
     | staff_receive_name => value | _ => NewTransferForm.staff_receive_name prev end)
    (match field with
     | date_from_branch => value | _ => NewTransferForm.date_from_branch prev end).

(** [formData[field]]. *)
Definition getField (field : Field) (formData : NewTransferForm.t) : string :=
  match field with
  | customer_name => NewTransferForm.customer_name formData
  | phone_model => NewTransferForm.phone_model formData
  | imei => NewTransferForm.imei formData
  | passcode => NewTransferForm.passcode formData
  | problem_description => NewTransferForm.problem_description formData
  | staff_receive_name => NewTransferForm.staff_receive_name formData
  | date_from_branch => NewTransferForm.date_from_branch formData
  end.

(** [errors[field]]. *)
Definition getError (field : Field) (errors : FormErrors.t) : option string :=
  match field with
  | customer_name => FormErrors.customer_name errors
  | phone_model => FormErrors.phone_model errors
  | imei => FormErrors.imei errors
  | passcode => FormErrors.passcode errors
  | problem_description => FormErrors.problem_description errors
  | staff_receive_name => FormErrors.staff_receive_name errors
  | date_from_branch => FormErrors.date_from_branch errors
  end.

(** [{ ...prev, [field]: undefined }] on the errors. *)
Definition clearError (field : Field) (prev : FormErrors.t) : FormErrors.t :=
  FormErrors.mk
    (match field with customer_name => None | _ => FormErrors.customer_name prev end)
    (match field with phone_model => None | _ => FormErrors.phone_model prev end)
    (match field with imei => None | _ => FormErrors.imei prev end)
    (match field with passcode => None | _ => FormErrors.passcode prev end)
    (match field with
     | problem_description => None | _ => FormErrors.problem_description prev end)
    (match field with
     | staff_receive_name => None | _ => FormErrors.staff_receive_name prev end)
    (match field with
     | date_from_branch => None | _ => FormErrors.date_from_branch prev end).

(** [handleInputChange]: the form data and the errors after the change. *)
Definition handleInputChange (field : Field) (value : string)
  (formData : NewTransferForm.t) (errors : FormErrors.t)
  : NewTransferForm.t * FormErrors.t :=
  (setField field value formData,
   if JS.truthyO (getError field errors) then clearError field errors else errors).

(** The form is rendered unless [!user || user.role !== 'HQ Staff']. *)
Definition formRendered (user : option User.t) : bool :=
  match user with
  | None => false
  | Some u => String.eqb (User.role u) "HQ Staff"
  end.

End NewTransferPage.

(** Field by field, what [validateForm] objects to. *)
Definition field_invalid (field : NewTransferPage.Field) (f : NewTransferForm.t) : Prop :=
  match field with
  | NewTransferPage.customer_name => JS.trim (NewTransferForm.customer_name f) = EmptyString
  | NewTransferPage.phone_model => JS.trim (NewTransferForm.phone_model f) = EmptyString
  | NewTransferPage.imei =>
      JS.trim (NewTransferForm.imei f) = EmptyString \/
      String.length (NewTransferForm.imei f) < 15
  | NewTransferPage.passcode => False
  | NewTransferPage.problem_description =>
      JS.trim (NewTransferForm.problem_description f) = EmptyString
  | NewTransferPage.staff_receive_name =>
      JS.trim (NewTransferForm.staff_receive_name f) = EmptyString
  | NewTransferPage.date_from_branch => NewTransferForm.date_from_branch f = EmptyString
  end.

(** A run of [handleSubmit] in which the store stops answering after the
    record is stored. *)
Definition log_fails_env : NewTransfer.Env :=
  NewTransfer.mkEnv 1709280000000 "0.4fzyo82mvyr" "2024-03-01T08:00:00.000Z" true
    "2024-03-01T08:00:00.100Z" 1709280000200 "0.k2j9x1q0c7a" false
    "2024-03-01T08:00:00.300Z".

(** The detail page of [noted_row] as the Technician of Kluang sees it. *)
Definition technician_page : TransferDetail.Page :=
  TransferDetail.onAuthStateChanged "transfer_1709280000000_4fzyo82mv" (Some technician)
    always_available noted_db TransferDetail.initial.

(** A run of [handleStatusUpdate] in which the store stops answering after
    the record is updated. *)
Definition update_log_fails_env : TransferDetail.Env :=
  TransferDetail.mkEnv "2024-03-02T09:30:00.000Z" "2024-03-02T09:30:00.001Z" true
    1709371800050 "0.9q8w7e6r5t4" false "2024-03-02T09:30:00.200Z" always_available.

(** The four fields filled in during the repair. *)
Definition same_repair_fields (r r' : RepairTransfer.t) : Prop :=
  RepairTransfer.technician_receive_name r' = RepairTransfer.technician_receive_name r /\
  RepairTransfer.date_received_by_tech r' = RepairTransfer.date_received_by_tech r /\
  RepairTransfer.date_repair_done r' = RepairTransfer.date_repair_done r /\
  RepairTransfer.repair_cost r' = RepairTransfer.repair_cost r.

(* ------------------------------------------------------------------ *)
(** ** String methods used by the list page and the router *)

Module JSString.

(** [toLowerCase] on a code unit below 256: the ASCII capitals and the
    Latin-1 capitals U+00C0 to U+00DE, U+00D7 (the times sign) apart. *)
Definition lowerChar (c : ascii) : ascii :=
  let n := nat_of_ascii c in
  if (Nat.leb 65 n && Nat.leb n 90)
     || (Nat.leb 192 n && Nat.leb n 222 && negb (Nat.eqb n 215))
  then ascii_of_nat (n + 32)
  else c.

Fixpoint toLowerCase (s : string) : string :=
  match s with
  | EmptyString => EmptyString
  | String c s' => String (lowerChar c) (toLowerCase s')
  end.

(** [s.startsWith(p)]. *)
Definition startsWith (s p : string) : bool := String.prefix p s.

(** [s.includes(sub)]. *)
Fixpoint includes (s sub : string) : bool :=
  String.prefix sub s
  || match s with
     | EmptyString => false
     | String _ s' => includes s' sub
     end.

(** [s.slice(1)]. *)
Definition slice1 (s : string) : string :=
  match s with EmptyString => EmptyString | String _ s' => s' end.

Fixpoint drop (n : nat) (s : string) : string :=
  match n, s with
  | S n', String _ s' => drop n' s'
  | _, _ => s
  end.

(** [s.replace(pattern, replacement)] with a string pattern: the first
    occurrence only. *)
Fixpoint replace (pattern replacement s : string) : string :=
  if String.prefix pattern s
  then (replacement ++ drop (String.length pattern) s)%string
  else match s with
       | EmptyString => EmptyString
       | String c s' => String c (replace pattern replacement s')
       end.

End JSString.

(* ------------------------------------------------------------------ *)
(** ** src/pages/AllTransfers.tsx: the filters *)

Module TransferFilters.

Record FilterState := mkFilterState {
  search : string;
  status : string;
  branch : string;
  dateFrom : string;
  dateTo : string
}.

(** [clearFilters]. *)
Definition clearFilters : FilterState :=
  mkFilterState EmptyString EmptyString EmptyString EmptyString EmptyString.

Section WithDates.

(** [new Date(s).getTime()]: the time value of the parsed text, [None] for
    an invalid date (NaN). *)
Variable getTime : string -> option Z.

(** [new Date(a) >= new Date(b)]; a comparison with NaN is false. *)
Definition date_ge (a b : string) : bool :=
  match getTime a, getTime b with
  | Some x, Some y => Z.leb y x
  | _, _ => false
  end.

(** [new Date(a) <= new Date(b)]. *)
Definition date_le (a b : string) : bool :=
  match getTime a, getTime b with
  | Some x, Some y => Z.leb x y
  | _, _ => false
  end.

(** The [filteredTransfers] computed by [applyFilters]. *)
Definition applyFilters (transfers : list RepairTransfer.t) (filters : FilterState)
  : list RepairTransfer.t :=
  let filtered := transfers in
  let filtered :=
    if JS.truthy (search filters) then
      let searchLower := JSString.toLowerCase (search filters) in
      filter (fun transfer =>
                JSString.includes
                  (JSString.toLowerCase (RepairTransfer.customer_name transfer)) searchLower
                || JSString.includes
                     (JSString.toLowerCase (RepairTransfer.phone_model transfer)) searchLower
                || JSString.includes
                     (JSString.toLowerCase (RepairTransfer.imei transfer)) searchLower)
             filtered
    else filtered in
  let filtered :=
    if JS.truthy (status filters)
    then filter (fun transfer => String.eqb (RepairTransfer.status transfer) (status filters))
                filtered
    else filtered in
  let filtered :=
    if JS.truthy (branch filters)
    then filter (fun transfer =>
                   String.eqb (RepairTransfer.branch_from transfer) (branch filters)
                   || String.eqb (RepairTransfer.branch_to transfer) (branch filters))
                filtered
    else filtered in
  let filtered :=
    if JS.truthy (dateFrom filters)
    then filter (fun transfer =>
                   date_ge (RepairTransfer.created_at transfer) (dateFrom filters))
                filtered
    else filtered in
  if JS.truthy (dateTo filters)
  then filter (fun transfer =>
                 date_le (RepairTransfer.created_at transfer)
                         (dateTo filters ++ "T23:59:59")%string)
              filtered
  else filtered.

End WithDates.

End TransferFilters.

(** The declarative reading of the filters: a record is shown when it
    passes every filter that is set. *)
Definition shown (getTime : string -> option Z) (filters : TransferFilters.FilterState)
  (r : RepairTransfer.t) : Prop :=
  (TransferFilters.search filters <> EmptyString ->
   let q := JSString.toLowerCase (TransferFilters.search filters) in
   JSString.includes (JSString.toLowerCase (RepairTransfer.customer_name r)) q = true \/
   JSString.includes (JSString.toLowerCase (RepairTransfer.phone_model r)) q = true \/
   JSString.includes (JSString.toLowerCase (RepairTransfer.imei r)) q = true) /\
  (TransferFilters.status filters <> EmptyString ->
   RepairTransfer.status r = TransferFilters.status filters) /\
  (TransferFilters.branch filters <> EmptyString ->
   RepairTransfer.branch_from r = TransferFilters.branch filters \/
   RepairTransfer.branch_to r = TransferFilters.branch filters) /\
  (TransferFilters.dateFrom filters <> EmptyString ->
   exists created from,
     getTime (RepairTransfer.created_at r) = Some created /\
     getTime (TransferFilters.dateFrom filters) = Some from /\
     (from <= created)%Z) /\
  (TransferFilters.dateTo filters <> EmptyString ->
   exists created to,
     getTime (RepairTransfer.created_at r) = Some created /\
     getTime (TransferFilters.dateTo filters ++ "T23:59:59")%string = Some to /\
     (created <= to)%Z).

(* ------------------------------------------------------------------ *)
(** ** src/pages/Dashboard.tsx: the counters of [loadDashboardData] *)

Module DashboardStats.

Definition totalTransfers (transfers : list RepairTransfer.t) : nat :=
  List.length transfers.

Definition pendingCount (transfers : list RepairTransfer.t) : nat :=
  List.length (filter (fun t => String.eqb (RepairTransfer.status t) "Pending") transfers).

(** [['Received', 'In Repair'].includes(t.status)]. *)
Definition inRepairCount (transfers : list RepairTransfer.t) : nat :=
  List.length
    (filter (fun t => existsb (fun s => String.eqb s (RepairTransfer.status t))
                        ["Received"; "In Repair"])
            transfers).

(** [['Done', 'Returned'].includes(t.status)]. *)
Definition completedCount (transfers : list RepairTransfer.t) : nat :=
  List.length
    (filter (fun t => existsb (fun s => String.eqb s (RepairTransfer.status t))
                        ["Done"; "Returned"])
            transfers).

End DashboardStats.

(** A second stored record, from Muar, already in repair, and a store with
    both. *)
Definition muar_row : RepairTransfer.t :=
  RepairTransfer.mk "transfer_1709290000000_zzzzzzzzz" "Muar" "Kluang" "Dave" "iPhone 12"
    "490154203237518" None "no sound" "Dan" "2024-03-01" (Some "Dan") (Some "2024-03-01")
    (Some "Bob") (Some "2024-03-02") None None "In Repair" None "Bob"
    "2024-03-02T10:00:00.000Z" "2024-03-01T11:00:00.000Z" "u4".

Definition two_row_db : Store.DB := Store.mkDB [pending_row; muar_row] [pending_log].

(* ------------------------------------------------------------------ *)
(** ** src/App.tsx: the hash router *)

Module App.

(** The state set by [handleHashChange]. *)
Record Route := mkRoute {
  currentPage : string;
  transferId : option string
}.

(** [handleHashChange], from the text of [window.location.hash]. *)
Definition handleHashChange (location_hash : string) : Route :=
  let hash := JSString.slice1 location_hash in
  if String.eqb hash EmptyString || String.eqb hash "/dashboard"
  then mkRoute "dashboard" None
  else if String.eqb hash "/new-transfer" then mkRoute "new-transfer" None
  else if String.eqb hash "/transfers" then mkRoute "transfers" None
  else if JSString.startsWith hash "/transfer/"
  then mkRoute "transfer-detail" (Some (JSString.replace "/transfer/" EmptyString hash))
  else mkRoute "dashboard" None.

(** The page component chosen by [renderPage]. *)
Inductive View :=
| DashboardView
| NewTransferView
| AllTransfersView
| TransferDetailView (transferId : string).

Definition renderPage (r : Route) : View :=
  if String.eqb (currentPage r) "dashboard" then DashboardView
  else if String.eqb (currentPage r) "new-transfer" then NewTransferView
  else if String.eqb (currentPage r) "transfers" then AllTransfersView
  else if String.eqb (currentPage r) "transfer-detail"
  then if JS.truthyO (transferId r)
       then match transferId r with
            | Some id => TransferDetailView id
            | None => DashboardView
            end
       else DashboardView
  else DashboardView.

(** [navigateToTransferDetail(id)], and the redirection of [handleSubmit]:
    the text assigned to [window.location.hash]. *)
Definition navigateToTransferDetail (id : string) : string :=
  ("#/transfer/" ++ id)%string.

End App.

(* ------------------------------------------------------------------ *)
(** ** src/components/layout/Navbar.tsx: the highlighted item *)

Module Navbar.

(** The [href]s of [navigation]. *)
Definition navigation : list string :=
  ["#/dashboard"; "#/new-transfer"; "#/transfers"].

(** [updatePath]: the [currentPath] state, from [window.location.hash]. *)
Definition updatePath (location_hash : string) : string :=
  JS.or_else (JSString.slice1 location_hash) "/".

Definition isActive (currentPath path : string) : bool :=
  let hashPath := JSString.replace "#" EmptyString path in
  if String.eqb hashPath "/dashboard"
  then String.eqb currentPath "/dashboard" || String.eqb currentPath "/"
  else JSString.startsWith currentPath hashPath.

End Navbar.


(* ------------------------------------------------------------------ *)
(** ** The auth module: [getCurrentUser] *)

Module CurrentUser.

(** What [blink.auth.me()] answers. *)
Record AuthUser := mkAuthUser {
  id : string;
  email : string;
  displayName : option string
}.

(** What [getCurrentUser] reads from outside. *)
Record Env := mkEnv {
  me : option (option AuthUser);   (* [None]: the call throws; [Some None]: null *)
  list_available : bool;           (* does [users.list] answer? *)
  create_available : bool;         (* does [users.create] answer? *)
  stamp : string;                  (* the store's clock at the create *)
  created_iso : string;            (* [new Date().toISOString()] for [created_at] *)
  updated_iso : string             (* [new Date().toISOString()] for [updated_at] *)
}.

(** [Omit<User, 'created_at' | 'updated_at'>] built for a first sign-in. *)
Definition newUser (authUser : AuthUser) (created updated : string) : User.t :=
  User.mk
    (id authUser)
    (email authUser)
    (JS.orO_else (displayName authUser) (JS.split_head "@"%char (email authUser)))
    "Admin"
    "HQ"
    created updated.

(** Modelled from the spec: the Persistence Store of section 6 on the User
    collection; [list] with [where: { email }] and [limit: 1]. *)
Definition list_users (email : string) (users : list User.t) : list User.t :=
  firstn 1 (filter (fun u => String.eqb (User.email u) email) users).

(** The value [getCurrentUser] resolves to, and the User collection after
    the call. *)
Definition getCurrentUser (env : Env) (users : list User.t)
  : option User.t * list User.t :=
  match me env with
  | None => (None, users)                            (* [catch] *)
  | Some None => (None, users)                       (* [if (!authUser) return null] *)
  | Some (Some authUser) =>
      if negb (list_available env) then (None, users)
      else
        match list_users (email authUser) users with
        | u :: _ => (Some u, users)
        | [] =>
            if negb (create_available env) then (None, users)
            else (Some (newUser authUser (created_iso env) (updated_iso env)),
                  users ++ [newUser authUser (stamp env) (stamp env)])
        end
  end.

End CurrentUser.

(** Two users that differ at most in their time stamps. *)
Definition same_identity (u u' : User.t) : Prop :=
  User.id u' = User.id u /\ User.email u' = User.email u /\
  User.name u' = User.name u /\ User.role u' = User.role u /\
  User.branch u' = User.branch u.

(** A first sign-in, and a sign-in with the address of [technician]. *)
Definition first_sign_in : CurrentUser.Env :=
  CurrentUser.mkEnv (Some (Some (CurrentUser.mkAuthUser "u9" "eve@example.com" None)))
    true true "2024-03-03T07:00:00.100Z" "2024-03-03T07:00:00.200Z"
    "2024-03-03T07:00:00.201Z".

Definition known_sign_in : CurrentUser.Env :=
  CurrentUser.mkEnv
    (Some (Some (CurrentUser.mkAuthUser "u3" "bob@example.com" (Some "Robert"))))
    true true "2024-03-03T07:00:00.100Z" "2024-03-03T07:00:00.200Z"
    "2024-03-03T07:00:00.201Z".


(* ------------------------------------------------------------------ *)
(** ** A page left behind by the store *)

(** A run of [handleStatusUpdate] in which both writes are answered and
    the reload of the record is not: [loadTransferData] then keeps the page's
    copy of the record, without an alert. *)
Definition reload_fails_env : TransferDetail.Env :=
  TransferDetail.mkEnv "2024-03-02T09:30:00.000Z" "2024-03-02T09:30:00.001Z" true
    1709371800050 "0.9q8w7e6r5t4" true "2024-03-02T09:30:00.200Z"
    (TransferDetail.mkLoadEnv false true).

(** A later run, with the store answering throughout. *)
Definition later_update_env : TransferDetail.Env :=
  TransferDetail.mkEnv "2024-03-03T10:00:00.000Z" "2024-03-03T10:00:00.001Z" true
    1709460000050 "0.1a2b3c4d5e6" true "2024-03-03T10:00:00.200Z" always_available.

(** The "Update Status" button: [setShowUpdateForm(!showUpdateForm)]. *)
Definition toggleUpdateForm (pg : TransferDetail.Page) : TransferDetail.Page :=
  TransferDetail.setShowUpdateForm (negb (TransferDetail.showUpdateForm pg)) pg.

(** An Admin moves [pending_row] to 'Received' and the reload is not
    answered: the store holds the record as 'Received', the page still shows
    it as 'Pending'.  The Admin opens the form again. *)
Definition stale_status_db : Store.DB :=
  snd (TransferDetail.handleStatusUpdate "transfer_1709280000000_4fzyo82mv" reload_fails_env
         (TransferDetail.changeStatus "Received" (toggleUpdateForm admin_page)) one_row_db).

Definition stale_status_page : TransferDetail.Page :=
  toggleUpdateForm
    (snd (fst (TransferDetail.handleStatusUpdate "transfer_1709280000000_4fzyo82mv"
                 reload_fails_env
                 (TransferDetail.changeStatus "Received" (toggleUpdateForm admin_page))
                 one_row_db))).

(** An Admin moves [noted_row] to 'In Repair' with the remarks "in progress"
    and the reload is not answered: the store holds these remarks, the page
    still shows "arrived"; the form's remarks are cleared by the handler.  The
    Admin opens the form again. *)
Definition stale_remarks_db : Store.DB :=
  snd (TransferDetail.handleStatusUpdate "transfer_1709280000000_4fzyo82mv" reload_fails_env
         (TransferDetail.changeRemarks "in progress"
            (TransferDetail.changeStatus "In Repair" (toggleUpdateForm noted_page)))
         noted_db).

Definition stale_remarks_page : TransferDetail.Page :=
  toggleUpdateForm
    (snd (fst (TransferDetail.handleStatusUpdate "transfer_1709280000000_4fzyo82mv"
                 reload_fails_env
                 (TransferDetail.changeRemarks "in progress"
                    (TransferDetail.changeStatus "In Repair" (toggleUpdateForm noted_page)))
                 noted_db))).

(* ================================================================== *)
(** * Properties *)


(** ** Strings and arrays *)

Lemma eqb_false_of_neq (a b : string) : a <> b -> String.eqb a b = false.
Proof. intro H. apply String.eqb_neq. exact H. Qed.

Lemma indexOf_absent (arr : list string) (x : string) :
  ~ In x arr -> JS.indexOf arr x = None.
Proof.
  induction arr as [|y ys IH]; intro Hnot; simpl.
  - reflexivity.
  - destruct (String.eqb_spec y x) as [Heq|Hne].
    + exfalso. apply Hnot. left. exact Heq.
    + rewrite IH; [reflexivity|]. intro Hin. apply Hnot. right. exact Hin.
Qed.

(** ** The status model and the authorization policy *)

(** C1.  [canUpdateStatus(role, s)] of utils/status.ts is true for 'Admin',
    false for 'HQ Staff', equal to [s !== 'Pending'] for 'Technician' and
    false for every other role, whatever the current status [s] (in
    particular for the five statuses). *)
Theorem canUpdateStatus_by_role :
  (forall s, Status.canUpdateStatus "Admin" s = true) /\
  (forall s, Status.canUpdateStatus "HQ Staff" s = false) /\
  (forall s, Status.canUpdateStatus "Technician" s = negb (String.eqb s "Pending")) /\
  (forall role s,
      role <> "Admin" -> role <> "HQ Staff" -> role <> "Technician" ->
      Status.canUpdateStatus role s = false).
Proof.
  repeat split; try reflexivity.
  intros role s HA HH HT. unfold Status.canUpdateStatus.
  rewrite !eqb_false_of_neq by assumption.
  reflexivity.
Qed.

Lemma canUpdateStatus_by_role_witness :
  Status.canUpdateStatus "Manager" "Done" = false.
Proof.
  apply (proj2 (proj2 (proj2 canUpdateStatus_by_role))); discriminate.
Defined.

(** C9.  [getNextStatus] maps each of Pending, Received, In Repair and Done
    to the status that follows it in [STATUS_ORDER], and maps Returned and
    every string outside the five statuses to [null]. *)
Theorem getNextStatus_successor :
  Status.getNextStatus "Pending" = Some "Received" /\
  Status.getNextStatus "Received" = Some "In Repair" /\
  Status.getNextStatus "In Repair" = Some "Done" /\
  Status.getNextStatus "Done" = Some "Returned" /\
  Status.getNextStatus "Returned" = None /\
  (forall s, ~ In s Status.STATUS_ORDER -> Status.getNextStatus s = None).
Proof.
  repeat split; try reflexivity.
  intros s Hs. unfold Status.getNextStatus.
  rewrite indexOf_absent by exact Hs. reflexivity.
Qed.

Lemma getNextStatus_successor_witness :
  Status.getNextStatus "Cancelled" = None.
Proof.
  apply (proj2 (proj2 (proj2 (proj2 (proj2 getNextStatus_successor))))).
  simpl. intros [H|[H|[H|[H|[H|[]]]]]]; discriminate H.
Defined.

(** The successor reading of [getNextStatus]: the entry at index [i] is sent
    to the entry at index [i + 1] as long as [i] is not the last index. *)
Lemma getNextStatus_index (i : nat) (s : string) :
  i < 4 -> nth_error Status.STATUS_ORDER i = Some s ->
  Status.getNextStatus s = nth_error Status.STATUS_ORDER (S i).
Proof.
  intros Hi Hs.
  destruct i as [|[|[|[|i]]]]; try lia;
    simpl in Hs; injection Hs as <-; reflexivity.
Qed.

(** C6, as stated, fails: an HQ Staff user and a record sent from 'HQ' are
    refused by utils/status.ts and accepted by the auth module. *)
Lemma canUpdateStatus_implementations_differ :
  ~ (forall (u : User.t) (t : RepairTransfer.t),
        In (User.role u) ["Admin"; "HQ Staff"; "Technician"] ->
        Status.canUpdateStatus (User.role u) (RepairTransfer.status t)
        = Auth.canUpdateStatus (Some u) t).
Proof.
  intro H. specialize (H hq_staff pending_row).
  assert (Hin : In (User.role hq_staff) ["Admin"; "HQ Staff"; "Technician"])
    by (simpl; auto).
  specialize (H Hin). vm_compute in H. discriminate H.
Qed.


(** C6, amended.  For a user of one of the three roles the two
    implementations return the same boolean exactly when the user is an
    Admin (both true), or HQ Staff and the record does not come from 'HQ'
    (both false), or a Technician for whom "the status is not Pending" and
    "the record goes to my branch" are both true or both false. *)
Theorem canUpdateStatus_implementations_agree_iff (u : User.t) (t : RepairTransfer.t) :
  In (User.role u) ["Admin"; "HQ Staff"; "Technician"] ->
  (Status.canUpdateStatus (User.role u) (RepairTransfer.status t)
   = Auth.canUpdateStatus (Some u) t
   <-> policies_agree_when u t).
Proof.
  unfold policies_agree_when, Status.canUpdateStatus, Auth.canUpdateStatus.
  simpl. intros [Hr|[Hr|[Hr|[]]]]; rewrite <- Hr; simpl.
  - split; [left; reflexivity | reflexivity].
  - destruct (String.eqb_spec (RepairTransfer.branch_from t) "HQ") as [Hb|Hb]; simpl.
    + split; [discriminate|].
      intros [H|[[_ H]|[H _]]]; [discriminate H | contradiction | discriminate H].
    + split; [|reflexivity]. intros _. right. left. split; [reflexivity|exact Hb].
  - destruct (String.eqb_spec (RepairTransfer.status t) "Pending") as [Hs|Hs];
      destruct (String.eqb_spec (RepairTransfer.branch_to t) (User.branch u)) as [Hb|Hb];
      simpl; split; try discriminate; try reflexivity.
    + intros [H|[[H _]|[_ H]]]; try discriminate H.
      exfalso. apply (proj2 H); assumption.
    + intros _. right. right. split; [reflexivity|]. split; intro; contradiction.
    + intros _. right. right. split; [reflexivity|]. split; intro; assumption.
    + intros [H|[[H _]|[_ H]]]; try discriminate H.
      exfalso. apply Hb. apply (proj1 H). exact Hs.
Qed.

Lemma canUpdateStatus_implementations_agree_iff_witness :
  Status.canUpdateStatus (User.role technician) (RepairTransfer.status pending_row)
  = Auth.canUpdateStatus (Some technician) pending_row
  <-> policies_agree_when technician pending_row.
Proof.
  apply (canUpdateStatus_implementations_agree_iff technician pending_row).
  simpl. right. right. left. reflexivity.
Defined.

(** ** Creating a transfer: validation *)

Lemma truthy_false_iff (s : string) : JS.truthy s = false <-> s = EmptyString.
Proof. destruct s; simpl; split; intro H; try reflexivity; discriminate H. Qed.

Lemma truthy_true_iff (s : string) : JS.truthy s = true <-> s <> EmptyString.
Proof.
  destruct s; simpl; split; intro H.
  - discriminate H.
  - exfalso. apply H. reflexivity.
  - discriminate.
  - reflexivity.
Qed.

(** [validateForm] answers false exactly on the forms the specification
    calls invalid. *)
Lemma validateForm_false_iff (f : NewTransferForm.t) :
  NewTransfer.validateForm f = false <-> invalid f.
Proof.
  unfold NewTransfer.validateForm, NewTransfer.newErrors, FormErrors.keys_length, invalid.
  destruct f as [cn pm im pc pd sr dt]; simpl.
  rewrite <- !truthy_false_iff.
  destruct (JS.truthy (JS.trim cn)); destruct (JS.truthy (JS.trim pm));
    destruct (JS.truthy (JS.trim pd)); destruct (JS.truthy (JS.trim sr));
    destruct (JS.truthy dt); destruct (JS.truthy (JS.trim im));
    destruct (Nat.ltb_spec (String.length im) 15) as [Hlt|Hge];
    simpl; split; intro H; try reflexivity; try discriminate H;
    try (intuition (discriminate || lia)).
Qed.

Lemma validateForm_true_iff (f : NewTransferForm.t) :
  NewTransfer.validateForm f = true <-> ~ invalid f.
Proof.
  rewrite <- validateForm_false_iff.
  destruct (NewTransfer.validateForm f); split; intro H;
    try reflexivity; try discriminate H.
  - intro H'. discriminate H'.
  - exfalso. apply H. reflexivity.
Qed.

(** The [try] block of [handleSubmit] ends in the redirection or in the
    exception handler, never in a rejection. *)
Lemma submit_outcome (u : User.t) (f : NewTransferForm.t) (env : NewTransfer.Env)
  (db : Store.DB) (o : NewTransfer.Outcome) (db' : Store.DB) :
  NewTransfer.submit u f env db = (Some o, db') ->
  o = NewTransfer.Redirected (NewTransfer.transferId env) /\
  NewTransfer.transfer_available env = true /\
  NewTransfer.log_available env = true /\
  db' = Store.create_log (NewTransfer.log_stamp env) (NewTransfer.logRow u env)
          (Store.create_transfer (NewTransfer.transfer_stamp env)
             (NewTransfer.transferRow u f env) db).
Proof.
  unfold NewTransfer.submit, Store.bind, Store.request, Store.ret.
  destruct (NewTransfer.transfer_available env); [|discriminate].
  destruct (NewTransfer.log_available env); [|discriminate].
  intro H. injection H as <- <-. repeat split.
Qed.

(** C4.  With a signed-in user, [handleSubmit] ends in the validation
    rejection exactly when a required field is invalid (a required text empty
    after trimming, the date absent, the IMEI empty after trimming or shorter
    than 15 characters), and a rejection leaves the store as it was: no
    record and no log entry.  As long as the store answers, the store is
    left as it was only for such a form.  At the boundary, an IMEI of 14 characters gets
    an error and a non-blank IMEI of 15 characters gets none. *)
Theorem handleSubmit_rejects_iff_invalid
  (u : User.t) (f : NewTransferForm.t) (env : NewTransfer.Env)
  (db : Store.DB) :
  ((exists errors, NewTransfer.handleSubmit (Some u) f env db
                   = (NewTransfer.Rejected errors, db))
   <-> invalid f) /\
  (forall errors db',
      NewTransfer.handleSubmit (Some u) f env db
      = (NewTransfer.Rejected errors, db') ->
      invalid f /\ db' = db) /\
  (NewTransfer.transfer_available env = true ->
   (snd (NewTransfer.handleSubmit (Some u) f env db) = db <-> invalid f)) /\
  (String.length (NewTransferForm.imei f) = 14 ->
   FormErrors.imei (NewTransfer.newErrors f) <> None) /\
  (String.length (NewTransferForm.imei f) = 15 ->
   JS.trim (NewTransferForm.imei f) <> EmptyString ->
   FormErrors.imei (NewTransfer.newErrors f) = None).
Proof.
  assert (Hrej : forall errors db',
             NewTransfer.handleSubmit (Some u) f env db
             = (NewTransfer.Rejected errors, db') -> invalid f /\ db' = db).
  { intros errors db'. unfold NewTransfer.handleSubmit.
    destruct (NewTransfer.validateForm f) eqn:Hv; simpl.
    - destruct (NewTransfer.submit u f env db) as [[o|] db1] eqn:Hs.
      + apply submit_outcome in Hs. destruct Hs as [-> _]. discriminate.
      + discriminate.
    - intro H. injection H as _ <-. split; [|reflexivity].
      apply validateForm_false_iff. exact Hv. }
  split; [split|split; [exact Hrej|split; [|split]]].
  - intros [errors H]. apply (Hrej _ _ H).
  - intro Hinv. exists (NewTransfer.newErrors f).
    unfold NewTransfer.handleSubmit.
    apply validateForm_false_iff in Hinv. rewrite Hinv. reflexivity.
  - intro Ha. rewrite <- validateForm_false_iff.
    unfold NewTransfer.handleSubmit, NewTransfer.submit, Store.bind, Store.request.
    rewrite Ha.
    destruct (NewTransfer.validateForm f); simpl; [|split; reflexivity].
    split; [|discriminate]. intro H. exfalso.
    assert (Hlen : List.length (Store.repairTransfers db)
                   = S (List.length (Store.repairTransfers db))); [|lia].
    rewrite <- H at 1.
    destruct (NewTransfer.log_available env); simpl;
      rewrite length_app; simpl; lia.
  - intro Hlen. unfold NewTransfer.newErrors; simpl.
    destruct (JS.truthy (JS.trim (NewTransferForm.imei f))); simpl; [|discriminate].
    rewrite Hlen. simpl. discriminate.
  - intros Hlen Htrim. unfold NewTransfer.newErrors; simpl.
    apply truthy_true_iff in Htrim. rewrite Htrim, Hlen. reflexivity.
Qed.

Lemma handleSubmit_rejects_iff_invalid_witness :
  (exists errors,
      NewTransfer.handleSubmit (Some hq_staff) short_imei_form submit_env Store.empty
      = (NewTransfer.Rejected errors, Store.empty)) /\
  FormErrors.imei (NewTransfer.newErrors short_imei_form) <> None /\
  FormErrors.imei (NewTransfer.newErrors good_form) = None.
Proof.
  split; [|split].
  - apply (proj1 (handleSubmit_rejects_iff_invalid hq_staff short_imei_form
                    submit_env Store.empty)).
    unfold invalid. do 6 right. simpl. lia.
  - apply (proj1 (proj2 (proj2 (proj2 (handleSubmit_rejects_iff_invalid hq_staff
                    short_imei_form submit_env Store.empty))))).
    reflexivity.
  - apply (proj2 (proj2 (proj2 (proj2 (handleSubmit_rejects_iff_invalid hq_staff
                    good_form submit_env Store.empty))))).
    + reflexivity.
    + simpl. discriminate.
Defined.

(** ** Creating a transfer: the record and its first log entry *)

(** A valid form, a signed-in user and an available store: [handleSubmit]
    stores the record, then the log entry, and redirects. *)
Lemma handleSubmit_succeeds (u : User.t) (f : NewTransferForm.t)
  (env : NewTransfer.Env) (db : Store.DB) :
  NewTransfer.validateForm f = true ->
  NewTransfer.transfer_available env = true ->
  NewTransfer.log_available env = true ->
  NewTransfer.handleSubmit (Some u) f env db
  = (NewTransfer.Redirected (NewTransfer.transferId env),
     Store.create_log (NewTransfer.log_stamp env) (NewTransfer.logRow u env)
       (Store.create_transfer (NewTransfer.transfer_stamp env)
          (NewTransfer.transferRow u f env) db)).
Proof.
  intros Hv Ht Hl.
  unfold NewTransfer.handleSubmit, NewTransfer.submit, Store.bind, Store.request, Store.ret.
  rewrite Hv, Ht, Hl. reflexivity.
Qed.

Lemma handleSubmit_redirected (u : User.t) (f : NewTransferForm.t)
  (env : NewTransfer.Env) (db : Store.DB) (tid : string) (db' : Store.DB) :
  NewTransfer.handleSubmit (Some u) f env db = (NewTransfer.Redirected tid, db') ->
  tid = NewTransfer.transferId env /\
  db' = Store.create_log (NewTransfer.log_stamp env) (NewTransfer.logRow u env)
          (Store.create_transfer (NewTransfer.transfer_stamp env)
             (NewTransfer.transferRow u f env) db).
Proof.
  unfold NewTransfer.handleSubmit.
  destruct (NewTransfer.validateForm f); simpl; [|discriminate].
  destruct (NewTransfer.submit u f env db) as [[o|] db1] eqn:Hs; [|discriminate].
  apply submit_outcome in Hs. destruct Hs as (-> & _ & _ & ->).
  intro H. injection H as <- <-. split; reflexivity.
Qed.

Lemma NoDup_snoc {A} (l : list A) (x : A) :
  NoDup l -> ~ In x l -> NoDup (l ++ [x]).
Proof.
  induction l as [|y ys IH]; simpl; intros Hnd Hx.
  - constructor; [intros []|constructor].
  - inversion Hnd as [|? ? Hy Hys]; subst. constructor.
    + rewrite in_app_iff. simpl. intros [H|[H|[]]]; [contradiction|].
      apply Hx. left. symmetry. exact H.
    + apply IH; [exact Hys|]. intro H. apply Hx. right. exact H.
Qed.

(** The decimal digits of a clock reading end where the separator starts. *)
Lemma digits_then_separator (d d' : Decimal.uint) (r r' : string) :
  (NilEmpty.string_of_uint d ++ String "_" r
   = NilEmpty.string_of_uint d' ++ String "_" r')%string ->
  d = d' /\ r = r'.
Proof.
  revert d'. induction d as [|d IH|d IH|d IH|d IH|d IH|d IH|d IH|d IH|d IH|d IH];
    intros [|d'|d'|d'|d'|d'|d'|d'|d'|d'|d']; simpl; intro H;
    try discriminate H;
    try (injection H as H; destruct (IH _ H) as [-> ->]; split; reflexivity).
  injection H as ->. split; reflexivity.
Qed.

Lemma append_cancel_l (p x y : string) : (p ++ x = p ++ y)%string -> x = y.
Proof.
  induction p as [|c p IH]; simpl; intro H; [exact H|].
  injection H as H. apply IH. exact H.
Qed.

(** Two generated ids are equal only if they come from the same clock
    reading and the same nine random characters. *)
Lemma generated_id_inj (prefix : string) (now now' : N) (random36 random36' : string) :
  generated_id prefix now random36 = generated_id prefix now' random36' ->
  now = now' /\ JS.substr 2 9 random36 = JS.substr 2 9 random36'.
Proof.
  unfold generated_id, JS.showN. intro H.
  apply append_cancel_l in H. simpl in H. injection H as H.
  apply digits_then_separator in H. destruct H as [Hd Hr].
  split; [apply Unsigned.to_uint_inj; exact Hd|exact Hr].
Qed.

(** In a store that takes whatever record it is sent, the id of the new
    record may be the id of a record that exists already: the id is built
    from the clock and a random draw and is never compared with the stored
    ids. *)
Lemma created_id_not_always_fresh :
  ~ (forall u f env db tid db',
        NewTransfer.handleSubmit (Some u) f env db = (NewTransfer.Redirected tid, db') ->
        ~ In tid (ids db)).
Proof.
  intro H.
  apply (H hq_staff good_form submit_env one_row_db
           (NewTransfer.transferId submit_env)
           (snd (NewTransfer.handleSubmit (Some hq_staff) good_form submit_env one_row_db))).
  - vm_compute. reflexivity.
  - vm_compute. left. reflexivity.
Qed.

(** Every [handleSubmit] that ends in the redirection appends one record
    with status 'Pending', [branch_from] the user's branch, [branch_to]
    'Kluang', [staff_send_name] and [updated_by] the user's name,
    [date_sent_to_branch] the current date and the id
    [transfer_<Date.now()>_<random suffix>], and appends exactly one log entry
    for that id with [old_status] null, [new_status] 'Pending' and remarks
    'Transfer created'. *)
Theorem handleSubmit_creates_pending_transfer
  (u : User.t) (f : NewTransferForm.t) (env : NewTransfer.Env)
  (db : Store.DB) (tid : string) (db' : Store.DB) :
  NewTransfer.handleSubmit (Some u) f env db = (NewTransfer.Redirected tid, db') ->
  exists r l,
    Store.repairTransfers db' = Store.repairTransfers db ++ [r] /\
    Store.statusLogs db' = Store.statusLogs db ++ [l] /\
    RepairTransfer.id r = tid /\
    tid = generated_id "transfer" (NewTransfer.transfer_now env)
            (NewTransfer.transfer_random env) /\
    RepairTransfer.status r = "Pending" /\
    RepairTransfer.branch_from r = User.branch u /\
    RepairTransfer.branch_to r = "Kluang" /\
    RepairTransfer.staff_send_name r = Some (User.name u) /\
    RepairTransfer.date_sent_to_branch r = Some (iso_date (NewTransfer.sent_iso env)) /\
    RepairTransfer.updated_by r = User.name u /\
    StatusLog.transfer_id l = tid /\
    StatusLog.old_status l = None /\
    StatusLog.new_status l = "Pending" /\
    StatusLog.remarks l = Some "Transfer created" /\
    (~ In tid (ids db) -> NoDup (ids db) -> NoDup (ids db')).
Proof.
  intro H. apply handleSubmit_redirected in H. destruct H as [-> ->].
  eexists. eexists. simpl.
  repeat (split; [reflexivity|]).
  intros Hfresh Hnd. unfold ids. simpl. rewrite map_app. simpl.
  apply NoDup_snoc; assumption.
Qed.

Lemma handleSubmit_creates_pending_transfer_witness :
  exists r l,
    Store.repairTransfers
      (snd (NewTransfer.handleSubmit (Some hq_staff) good_form submit_env Store.empty))
    = [r] /\
    Store.statusLogs
      (snd (NewTransfer.handleSubmit (Some hq_staff) good_form submit_env Store.empty))
    = [l] /\
    RepairTransfer.id r = "transfer_1709280000000_4fzyo82mv" /\
    RepairTransfer.status r = "Pending" /\
    RepairTransfer.branch_from r = "HQ" /\
    RepairTransfer.date_sent_to_branch r = Some "2024-03-01" /\
    StatusLog.old_status l = None.
Proof.
  destruct (handleSubmit_creates_pending_transfer hq_staff good_form submit_env
              Store.empty (tid := NewTransfer.transferId submit_env)
              (db' := snd (NewTransfer.handleSubmit (Some hq_staff) good_form
                             submit_env Store.empty)))
    as (r & l & Hr & Hl & Hid & _ & Hst & Hbf & _ & _ & Hdt & _ & _ & Hold & _).
  - vm_compute. reflexivity.
  - exists r, l. repeat split; assumption.
Defined.


(** ** Updating the status *)

Lemma find_head_filter {A} (p : A -> bool) (l : list A) :
  match filter p l with [] => None | x :: _ => Some x end = List.find p l.
Proof.
  induction l as [|y ys IH]; simpl; [reflexivity|].
  destruct (p y); [reflexivity|exact IH].
Qed.

(** A log entry is stored without touching the transfer records. *)
Lemma find_create_log (tid stamp : string) (l : LogInsert.t) (db : Store.DB) :
  Store.find tid (Store.create_log stamp l db) = Store.find tid db.
Proof. reflexivity. Qed.

(** An update that leaves the id alone is seen through [find] as a merge. *)
Lemma find_update_transfer (tid : string) (p : PartialTransfer.t) (db : Store.DB) :
  PartialTransfer.id p = None ->
  Store.find tid (Store.update_transfer tid p db)
  = option_map (fun r => Store.merge r p) (Store.find tid db).
Proof.
  intro Hid. unfold Store.find, Store.update_transfer. simpl.
  induction (Store.repairTransfers db) as [|r rs IH]; simpl; [reflexivity|].
  destruct (String.eqb (RepairTransfer.id r) tid) eqn:E; simpl.
  - rewrite Hid. simpl. rewrite E. reflexivity.
  - rewrite E. exact IH.
Qed.

(** [updateData] never names a field that is fixed at creation. *)
Lemma updateData_creation_fields (u : User.t) (t : RepairTransfer.t)
  (form : StatusUpdateForm.t) (env : TransferDetail.Env) :
  let d := TransferDetail.updateData u t form env in
  PartialTransfer.id d = None /\
  PartialTransfer.branch_from d = None /\
  PartialTransfer.branch_to d = None /\
  PartialTransfer.customer_name d = None /\
  PartialTransfer.phone_model d = None /\
  PartialTransfer.imei d = None /\
  PartialTransfer.passcode d = None /\
  PartialTransfer.problem_description d = None /\
  PartialTransfer.staff_receive_name d = None /\
  PartialTransfer.date_from_branch d = None /\
  PartialTransfer.staff_send_name d = None /\
  PartialTransfer.date_sent_to_branch d = None /\
  PartialTransfer.created_at d = None /\
  PartialTransfer.user_id d = None.
Proof.
  unfold TransferDetail.updateData.
  destruct (String.eqb (StatusUpdateForm.status form) "Received");
    destruct (StatusUpdateForm.technician_receive_name form) as [name|];
    try destruct (JS.truthy name);
    destruct (String.eqb (StatusUpdateForm.status form) "Done");
    destruct (StatusUpdateForm.date_repair_done form) as [done|];
    try destruct (JS.truthy done);
    destruct (StatusUpdateForm.repair_cost form);
    simpl; repeat split.
Qed.

(** The fields [updateData] always carries. *)
Lemma updateData_common_fields (u : User.t) (t : RepairTransfer.t)
  (form : StatusUpdateForm.t) (env : TransferDetail.Env) :
  let d := TransferDetail.updateData u t form env in
  PartialTransfer.status d = Some (StatusUpdateForm.status form) /\
  PartialTransfer.remarks d
  = JS.or_elseO (StatusUpdateForm.remarks form) (RepairTransfer.remarks t) /\
  PartialTransfer.updated_by d = Some (User.name u) /\
  PartialTransfer.updated_at d = Some (TransferDetail.updated_at_iso env).
Proof.
  unfold TransferDetail.updateData.
  destruct (String.eqb (StatusUpdateForm.status form) "Received");
    destruct (StatusUpdateForm.technician_receive_name form) as [name|];
    try destruct (JS.truthy name);
    destruct (String.eqb (StatusUpdateForm.status form) "Done");
    destruct (StatusUpdateForm.date_repair_done form) as [done|];
    try destruct (JS.truthy done);
    destruct (StatusUpdateForm.repair_cost form);
    simpl; repeat split.
Qed.

(** The two fields [updateData] carries for 'Received', guarded by the
    technician's name. *)
Lemma updateData_received_fields (u : User.t) (t : RepairTransfer.t)
  (form : StatusUpdateForm.t) (env : TransferDetail.Env) :
  StatusUpdateForm.status form = "Received" ->
  let d := TransferDetail.updateData u t form env in
  if JS.truthyO (StatusUpdateForm.technician_receive_name form)
  then PartialTransfer.technician_receive_name d
       = StatusUpdateForm.technician_receive_name form /\
       PartialTransfer.date_received_by_tech d
       = Some (JS.orO_else (StatusUpdateForm.date_received_by_tech form)
                 (iso_date (TransferDetail.received_iso env)))
  else PartialTransfer.technician_receive_name d = None /\
       PartialTransfer.date_received_by_tech d = None.
Proof.
  intro Hst. unfold TransferDetail.updateData. rewrite Hst. simpl.
  destruct (StatusUpdateForm.technician_receive_name form) as [name|]; simpl.
  - destruct (JS.truthy name); simpl; split; reflexivity.
  - split; reflexivity.
Qed.

Lemma writes_done (tid : string) (u : User.t) (t : RepairTransfer.t)
  (form : StatusUpdateForm.t) (env : TransferDetail.Env) (db db' : Store.DB) (x : unit) :
  TransferDetail.writes tid u t form env db = (Some x, db') ->
  db' = Store.create_log (TransferDetail.log_stamp env)
          (TransferDetail.logRow tid u t form env)
          (Store.update_transfer tid (TransferDetail.updateData u t form env) db).
Proof.
  unfold TransferDetail.writes, Store.bind, Store.request.
  destruct (TransferDetail.update_available env); [|discriminate].
  destruct (TransferDetail.log_available env); [|discriminate].
  intro H. injection H as _ <-. reflexivity.
Qed.

(** What a call of [handleStatusUpdate] that ran to its end did to the store. *)
Lemma handleStatusUpdate_updated (tid : string) (env : TransferDetail.Env)
  (pg pg' : TransferDetail.Page) (db db' : Store.DB) (u : User.t) (t : RepairTransfer.t) :
  TransferDetail.user pg = Some u ->
  TransferDetail.transfer pg = Some t ->
  TransferDetail.handleStatusUpdate tid env pg db = (TransferDetail.Updated, pg', db') ->
  db' = Store.create_log (TransferDetail.log_stamp env)
          (TransferDetail.logRow tid u t (TransferDetail.updateForm pg) env)
          (Store.update_transfer tid
             (TransferDetail.updateData u t (TransferDetail.updateForm pg) env) db).
Proof.
  intros Hu Ht. unfold TransferDetail.handleStatusUpdate. rewrite Hu, Ht.
  destruct (TransferDetail.writes tid u t (TransferDetail.updateForm pg) env db)
    as [[x|] db1] eqn:Hw; [|discriminate].
  intro H. injection H as _ <-. apply (writes_done _ _ _ _ _ _ Hw).
Qed.

(** With a loaded page and an available store the update runs to its end. *)
Lemma handleStatusUpdate_succeeds (tid : string) (env : TransferDetail.Env)
  (pg : TransferDetail.Page) (db : Store.DB) (u : User.t) (t : RepairTransfer.t) :
  TransferDetail.user pg = Some u ->
  TransferDetail.transfer pg = Some t ->
  TransferDetail.update_available env = true ->
  TransferDetail.log_available env = true ->
  fst (fst (TransferDetail.handleStatusUpdate tid env pg db)) = TransferDetail.Updated.
Proof.
  intros Hu Ht Ha Hl.
  unfold TransferDetail.handleStatusUpdate, TransferDetail.writes,
    Store.bind, Store.request.
  rewrite Hu, Ht, Ha, Hl. reflexivity.
Qed.

(** ** Read scoping: what the queries return *)

Lemma In_insert_desc {A} (key : A -> string) (x y : A) (l : list A) :
  In x (Store.insert_desc key y l) <-> x = y \/ In x l.
Proof.
  induction l as [|z zs IH]; simpl.
  - intuition congruence.
  - destruct (String.leb (key z) (key y)); simpl; [intuition congruence|].
    rewrite IH. intuition congruence.
Qed.

Lemma In_sort_desc {A} (key : A -> string) (x : A) (l : list A) :
  In x (Store.sort_desc key l) <-> In x l.
Proof.
  unfold Store.sort_desc. induction l as [|y ys IH]; simpl; [reflexivity|].
  rewrite In_insert_desc, IH. intuition congruence.
Qed.

Lemma In_limited {A} (limit : option nat) (x : A) (l : list A) :
  In x (Store.limited limit l) -> In x l.
Proof.
  destruct limit as [n|]; simpl; [|exact (fun H => H)].
  revert l. induction n as [|n IH]; intros [|y ys]; simpl; try contradiction.
  intros [H|H]; [left; exact H|right; apply IH; exact H].
Qed.

(** A listed record is a stored record that satisfies the [where] clause. *)
Lemma list_transfers_In (w : Store.Where) (orderBy : option (RepairTransfer.t -> string))
  (limit : option nat) (db : Store.DB) (r : RepairTransfer.t) :
  In r (Store.list_transfers w orderBy limit db) ->
  In r (Store.repairTransfers db) /\ Store.matches w r = true.
Proof.
  unfold Store.list_transfers. intro H. apply In_limited in H.
  apply filter_In. destruct orderBy as [key|]; simpl in H; [|exact H].
  apply In_sort_desc in H. exact H.
Qed.

(** Without a limit every stored record that satisfies the clause is listed. *)
Lemma list_transfers_all (w : Store.Where) (orderBy : option (RepairTransfer.t -> string))
  (db : Store.DB) (r : RepairTransfer.t) :
  In r (Store.repairTransfers db) -> Store.matches w r = true ->
  In r (Store.list_transfers w orderBy None db).
Proof.
  unfold Store.list_transfers. simpl. intros Hin Hm.
  assert (H : In r (filter (Store.matches w) (Store.repairTransfers db)))
    by (apply filter_In; split; assumption).
  destruct orderBy as [key|]; simpl; [apply In_sort_desc|]; exact H.
Qed.

Lemma inScopeb_iff (u : User.t) (r : RepairTransfer.t) :
  inScopeb u r = true <-> inScope u r.
Proof.
  unfold inScopeb, inScope.
  destruct (String.eqb_spec (User.role u) "HQ Staff") as [Hh|Hh];
    destruct (String.eqb_spec (User.role u) "Technician") as [Ht|Ht];
    destruct (String.eqb_spec (RepairTransfer.branch_from r) (User.branch u)) as [Hf|Hf];
    destruct (String.eqb_spec (RepairTransfer.branch_to r) (User.branch u)) as [Hb|Hb];
    simpl; split; intro H; try reflexivity; try discriminate H;
    try (split; intro; (assumption || contradiction));
    exfalso; destruct H as [H1 H2]; auto.
Qed.

(** What [loadTransferData] does on an available store, in terms of the
    first stored record with the requested id. *)
Lemma loadTransferData_transfer (tid : string) (u : User.t)
  (env : TransferDetail.LoadEnv) (db : Store.DB) (pg : TransferDetail.Page) :
  TransferDetail.transfers_available env = true ->
  TransferDetail.transfer (TransferDetail.loadTransferData tid u env db pg)
  = match Store.find tid db with
    | Some r => if inScopeb u r then Some r else TransferDetail.transfer pg
    | None => TransferDetail.transfer pg
    end.
Proof.
  intro Ha. unfold TransferDetail.loadTransferData, Store.find. rewrite Ha. simpl.
  rewrite <- find_head_filter.
  unfold Store.list_transfers. simpl.
  destruct (filter (Store.matches (Store.WhereId tid))
              (Store.repairTransfers db)) as [|r rs]; [reflexivity|].
  unfold inScopeb.
  destruct (String.eqb (User.role u) "HQ Staff");
    destruct (String.eqb (User.role u) "Technician");
    destruct (String.eqb (RepairTransfer.branch_from r) (User.branch u));
    destruct (String.eqb (RepairTransfer.branch_to r) (User.branch u));
    simpl; try reflexivity;
    destruct (TransferDetail.logs_available env); reflexivity.
Qed.

Lemma loadTransfers_scoped (u : User.t) (available : bool) (db : Store.DB)
  (r : RepairTransfer.t) :
  In r (AllTransfers.loadTransfers u available db []) ->
  inScope u r /\ In r (Store.repairTransfers db).
Proof.
  unfold AllTransfers.loadTransfers, inScope.
  destruct (String.eqb_spec (User.role u) "Admin") as [Ha|Ha].
  - destruct available; [|intros []]. intro H. apply list_transfers_In in H.
    rewrite Ha. split; [split; discriminate|apply H].
  - destruct (String.eqb_spec (User.role u) "HQ Staff") as [Hh|Hh].
    + destruct available; [|intros []]. intro H. apply list_transfers_In in H.
      destruct H as [Hin Hm]. simpl in Hm. apply String.eqb_eq in Hm.
      rewrite Hh. split; [split; [intros _; exact Hm|discriminate]|exact Hin].
    + destruct (String.eqb_spec (User.role u) "Technician") as [Ht|Ht]; [|intros []].
      destruct available; [|intros []]. intro H. apply list_transfers_In in H.
      destruct H as [Hin Hm]. simpl in Hm. apply String.eqb_eq in Hm.
      split; [split; [contradiction|intros _; exact Hm]|exact Hin].
Qed.

Lemma loadDashboardData_scoped (u : User.t) (available : bool) (db : Store.DB)
  (r : RepairTransfer.t) :
  In r (Dashboard.loadDashboardData u available db []) ->
  inScope u r /\ In r (Store.repairTransfers db).
Proof.
  unfold Dashboard.loadDashboardData, inScope.
  destruct (String.eqb_spec (User.role u) "Admin") as [Ha|Ha].
  - destruct available; [|intros []]. intro H. apply list_transfers_In in H.
    rewrite Ha. split; [split; discriminate|apply H].
  - destruct (String.eqb_spec (User.role u) "HQ Staff") as [Hh|Hh].
    + destruct available; [|intros []]. intro H. apply list_transfers_In in H.
      destruct H as [Hin Hm]. simpl in Hm. apply String.eqb_eq in Hm.
      rewrite Hh. split; [split; [intros _; exact Hm|discriminate]|exact Hin].
    + destruct (String.eqb_spec (User.role u) "Technician") as [Ht|Ht]; [|intros []].
      destruct available; [|intros []]. intro H. apply list_transfers_In in H.
      destruct H as [Hin Hm]. simpl in Hm. apply String.eqb_eq in Hm.
      split; [split; [contradiction|intros _; exact Hm]|exact Hin].
Qed.

(** C2, as stated, fails: an Admin opens the Pending record, selects
    'Received' and submits without a technician name; the update runs to its
    end and the stored record still has no [date_received_by_tech]. *)
Lemma received_update_may_leave_date_unset :
  ~ (forall tid env pg db pg' db' r',
        TransferDetail.canUpdate pg = true ->
        StatusUpdateForm.status (TransferDetail.updateForm pg) = "Received" ->
        TransferDetail.handleStatusUpdate tid env pg db = (TransferDetail.Updated, pg', db') ->
        Store.find tid db' = Some r' ->
        RepairTransfer.date_received_by_tech r' <> None).
Proof.
  intro H.
  pose (pg := TransferDetail.changeStatus "Received" admin_page).
  pose (res := TransferDetail.handleStatusUpdate "transfer_1709280000000_4fzyo82mv"
                 update_env pg one_row_db).
  apply (H "transfer_1709280000000_4fzyo82mv" update_env pg one_row_db
           (snd (fst res)) (snd res)
           (Store.merge pending_row
              (TransferDetail.updateData admin pending_row
                 (TransferDetail.updateForm pg) update_env))).
  - vm_compute. reflexivity.
  - vm_compute. reflexivity.
  - vm_compute. reflexivity.
  - vm_compute. reflexivity.
  - vm_compute. reflexivity.
Qed.

(** C2, amended.  A status update to 'Received' that runs to its end sets
    the status; when a non-empty technician name is supplied it stores that
    name and stores [date_received_by_tech], the supplied date or else the
    current date; when the name is empty or missing it leaves both fields of
    the record as they were. *)
Theorem received_update_sets_technician_and_date
  (tid : string) (env : TransferDetail.Env) (pg pg' : TransferDetail.Page)
  (db db' : Store.DB) (u : User.t) (t r : RepairTransfer.t) :
  TransferDetail.user pg = Some u ->
  TransferDetail.transfer pg = Some t ->
  Store.find tid db = Some r ->
  StatusUpdateForm.status (TransferDetail.updateForm pg) = "Received" ->
  TransferDetail.handleStatusUpdate tid env pg db = (TransferDetail.Updated, pg', db') ->
  exists r',
    Store.find tid db' = Some r' /\
    RepairTransfer.status r' = "Received" /\
    (forall name,
        StatusUpdateForm.technician_receive_name (TransferDetail.updateForm pg) = Some name ->
        name <> EmptyString ->
        RepairTransfer.technician_receive_name r' = Some name /\
        (forall d,
            StatusUpdateForm.date_received_by_tech (TransferDetail.updateForm pg) = Some d ->
            d <> EmptyString ->
            RepairTransfer.date_received_by_tech r' = Some d) /\
        (JS.truthyO (StatusUpdateForm.date_received_by_tech (TransferDetail.updateForm pg))
         = false ->
         RepairTransfer.date_received_by_tech r'
         = Some (iso_date (TransferDetail.received_iso env)))) /\
    (JS.truthyO (StatusUpdateForm.technician_receive_name (TransferDetail.updateForm pg))
     = false ->
     RepairTransfer.technician_receive_name r' = RepairTransfer.technician_receive_name r /\
     RepairTransfer.date_received_by_tech r' = RepairTransfer.date_received_by_tech r).
Proof.
  intros Hu Ht Hr Hst Hrun.
  rewrite (handleStatusUpdate_updated _ _ _ _ Hu Ht Hrun).
  set (form := TransferDetail.updateForm pg) in *.
  set (d := TransferDetail.updateData u t form env).
  destruct (updateData_creation_fields u t form env) as [Hid _].
  destruct (updateData_common_fields u t form env) as [Hs _].
  pose proof (updateData_received_fields u t form env Hst) as Hrec.
  fold d in Hid, Hs, Hrec. cbv zeta in Hrec.
  exists (Store.merge r d).
  rewrite find_create_log, find_update_transfer by exact Hid. rewrite Hr. simpl.
  split; [reflexivity|]. split; [rewrite Hs; simpl; exact Hst|]. split.
  - intros name Hname Hne. rewrite Hname in Hrec. simpl in Hrec.
    apply truthy_true_iff in Hne. rewrite Hne in Hrec.
    destruct Hrec as [Htech Hdate]. rewrite Htech, Hdate. simpl.
    split; [reflexivity|]. split.
    + intros d0 Hd0 Hd0ne. rewrite Hd0. simpl. unfold JS.or_else.
      apply truthy_true_iff in Hd0ne. rewrite Hd0ne. reflexivity.
    + intro Hno.
      destruct (StatusUpdateForm.date_received_by_tech form) as [d0|]; simpl in *;
        [unfold JS.or_else; rewrite Hno|]; reflexivity.
  - intro Hno. rewrite Hno in Hrec. destruct Hrec as [Htech Hdate].
    rewrite Htech, Hdate. simpl. split; reflexivity.
Qed.

Lemma received_update_sets_technician_and_date_witness :
  exists r',
    Store.find "transfer_1709280000000_4fzyo82mv"
      (snd (TransferDetail.handleStatusUpdate "transfer_1709280000000_4fzyo82mv" update_env
              (TransferDetail.changeTechnicianName "Bob"
                 (TransferDetail.changeStatus "Received" admin_page))
              one_row_db))
    = Some r' /\
    RepairTransfer.status r' = "Received" /\
    RepairTransfer.technician_receive_name r' = Some "Bob" /\
    RepairTransfer.date_received_by_tech r' = Some "2024-03-02".
Proof.
  pose (pg := TransferDetail.changeTechnicianName "Bob"
                (TransferDetail.changeStatus "Received" admin_page)).
  pose (res := TransferDetail.handleStatusUpdate "transfer_1709280000000_4fzyo82mv"
                 update_env pg one_row_db).
  destruct (received_update_sets_technician_and_date
              "transfer_1709280000000_4fzyo82mv" update_env pg one_row_db
              (pg' := snd (fst res)) (db' := snd res)
              (u := admin) (t := pending_row) (r := pending_row))
    as (r' & Hfind & Hst & Hset & _).
  - reflexivity.
  - reflexivity.
  - reflexivity.
  - reflexivity.
  - vm_compute. reflexivity.
  - exists r'. split; [exact Hfind|]. split; [exact Hst|].
    destruct (Hset "Bob") as (Htech & _ & Hdate).
    + reflexivity.
    + discriminate.
    + split; [exact Htech|]. apply Hdate. reflexivity.
Defined.

(** The page stays in step with the store: after an update that ran to its
    end and a reload that was answered, the page shows the stored record
    again. *)
Lemma handleStatusUpdate_page_shows_stored
  (tid : string) (env : TransferDetail.Env) (pg pg' : TransferDetail.Page)
  (db db' : Store.DB) (u : User.t) (t : RepairTransfer.t) :
  TransferDetail.user pg = Some u ->
  TransferDetail.transfer pg = Some t ->
  Store.find tid db = Some t ->
  inScope u t ->
  TransferDetail.transfers_available (TransferDetail.reload env) = true ->
  TransferDetail.handleStatusUpdate tid env pg db = (TransferDetail.Updated, pg', db') ->
  TransferDetail.transfer pg' = Store.find tid db' /\ Store.find tid db' <> None.
Proof.
  intros Hu Ht Hfind Hscope Ha Hrun.
  pose proof (handleStatusUpdate_updated _ _ _ _ Hu Ht Hrun) as Hdb.
  unfold TransferDetail.handleStatusUpdate in Hrun. rewrite Hu, Ht in Hrun.
  destruct (TransferDetail.writes tid u t (TransferDetail.updateForm pg) env db)
    as [[x|] db1] eqn:Hw; [|discriminate].
  injection Hrun as <- Hdb1. subst db1. simpl.
  rewrite loadTransferData_transfer by exact Ha.
  destruct (updateData_creation_fields u t (TransferDetail.updateForm pg) env)
    as (Hid & Hbf & Hbt & _).
  assert (Hnew : Store.find tid db'
                 = Some (Store.merge t (TransferDetail.updateData u t
                                          (TransferDetail.updateForm pg) env))).
  { rewrite Hdb, find_create_log, find_update_transfer by exact Hid.
    rewrite Hfind. reflexivity. }
  rewrite Hnew.
  apply inScopeb_iff in Hscope. unfold inScopeb in *. simpl.
  rewrite Hbf, Hbt. simpl. rewrite Hscope. split; [reflexivity|discriminate].
Qed.

(** C7, as stated, fails: the logged [old_status] is the status of the
    page's copy of the record.  After an update whose reload was not
    answered the page shows 'Pending' while the store holds 'Received'; the
    next update logs 'Pending' as the old status. *)
Lemma logged_old_status_may_be_stale :
  ~ (forall tid env pg db pg' db' r,
        TransferDetail.canUpdate pg = true ->
        Store.find tid db = Some r ->
        TransferDetail.handleStatusUpdate tid env pg db = (TransferDetail.Updated, pg', db') ->
        exists l,
          Store.statusLogs db' = Store.statusLogs db ++ [l] /\
          StatusLog.old_status l = Some (RepairTransfer.status r)).
Proof.
  intro H.
  pose (pg := TransferDetail.changeStatus "In Repair" stale_status_page).
  pose (res := TransferDetail.handleStatusUpdate "transfer_1709280000000_4fzyo82mv"
                 later_update_env pg stale_status_db).
  destruct (H "transfer_1709280000000_4fzyo82mv" later_update_env pg stale_status_db
              (snd (fst res)) (snd res)
              (Store.merge pending_row
                 (TransferDetail.updateData admin pending_row
                    (TransferDetail.updateForm
                       (TransferDetail.changeStatus "Received"
                          (toggleUpdateForm admin_page)))
                    reload_fails_env)))
    as (l & Hlogs & Hold).
  - vm_compute. reflexivity.
  - vm_compute. reflexivity.
  - vm_compute. reflexivity.
  - vm_compute in Hlogs. injection Hlogs as <-.
    vm_compute in Hold. discriminate Hold.
Qed.

(** C7, amended.  A status update that runs to its end appends exactly one
    log entry, for that transfer: its [old_status] is the status of the
    record as the page holds it ([transfer.status]), its [new_status] the
    status chosen in the form, its remarks the remarks of the form and its
    [updated_by] the name of the acting user.  When the page shows the
    stored record, [old_status] is the status the stored record had before
    the update and [new_status] the status it has after. *)
Theorem handleStatusUpdate_logs_page_status
  (tid : string) (env : TransferDetail.Env) (pg pg' : TransferDetail.Page)
  (db db' : Store.DB) (u : User.t) (t : RepairTransfer.t) :
  TransferDetail.user pg = Some u ->
  TransferDetail.transfer pg = Some t ->
  TransferDetail.handleStatusUpdate tid env pg db = (TransferDetail.Updated, pg', db') ->
  exists l,
    Store.statusLogs db' = Store.statusLogs db ++ [l] /\
    StatusLog.transfer_id l = tid /\
    StatusLog.old_status l = Some (RepairTransfer.status t) /\
    StatusLog.new_status l = StatusUpdateForm.status (TransferDetail.updateForm pg) /\
    StatusLog.remarks l = Some (StatusUpdateForm.remarks (TransferDetail.updateForm pg)) /\
    StatusLog.updated_by l = User.name u /\
    StatusLog.user_id l = User.id u /\
    (Store.find tid db = Some t ->
     StatusLog.old_status l = option_map RepairTransfer.status (Store.find tid db) /\
     option_map RepairTransfer.status (Store.find tid db')
     = Some (StatusLog.new_status l)).
Proof.
  intros Hu Ht Hrun.
  rewrite (handleStatusUpdate_updated _ _ _ _ Hu Ht Hrun).
  destruct (updateData_creation_fields u t (TransferDetail.updateForm pg) env) as [Hid _].
  destruct (updateData_common_fields u t (TransferDetail.updateForm pg) env) as [Hs _].
  eexists. split; [reflexivity|]. simpl.
  do 6 (split; [reflexivity|]).
  intro Hfind.
  rewrite find_create_log, find_update_transfer by exact Hid.
  rewrite Hfind. simpl. rewrite Hs. split; reflexivity.
Qed.

Lemma handleStatusUpdate_logs_page_status_witness :
  exists l,
    Store.statusLogs
      (snd (TransferDetail.handleStatusUpdate "transfer_1709280000000_4fzyo82mv" update_env
              (TransferDetail.changeRemarks "arrived"
                 (TransferDetail.changeStatus "Received" admin_page))
              one_row_db))
    = [pending_log; l] /\
    StatusLog.transfer_id l = "transfer_1709280000000_4fzyo82mv" /\
    StatusLog.old_status l = Some "Pending" /\
    StatusLog.new_status l = "Received" /\
    StatusLog.remarks l = Some "arrived" /\
    StatusLog.updated_by l = "Root".
Proof.
  pose (pg := TransferDetail.changeRemarks "arrived"
                (TransferDetail.changeStatus "Received" admin_page)).
  pose (res := TransferDetail.handleStatusUpdate "transfer_1709280000000_4fzyo82mv"
                 update_env pg one_row_db).
  destruct (@handleStatusUpdate_logs_page_status
              "transfer_1709280000000_4fzyo82mv" update_env pg (snd (fst res))
              one_row_db (snd res) admin pending_row)
    as (l & Hlogs & Htid & Hold & Hnew & Hrem & Hby & _).
  - reflexivity.
  - reflexivity.
  - vm_compute. reflexivity.
  - exists l. repeat split; assumption.
Defined.

Lemma same_creation_fields_refl (r : RepairTransfer.t) : same_creation_fields r r.
Proof. unfold same_creation_fields. repeat split. Qed.

(** Merging an object that names no creation-time field keeps those fields. *)
Lemma merge_same_creation_fields (r : RepairTransfer.t) (p : PartialTransfer.t) :
  PartialTransfer.id p = None /\
  PartialTransfer.branch_from p = None /\
  PartialTransfer.branch_to p = None /\
  PartialTransfer.customer_name p = None /\
  PartialTransfer.phone_model p = None /\
  PartialTransfer.imei p = None /\
  PartialTransfer.passcode p = None /\
  PartialTransfer.problem_description p = None /\
  PartialTransfer.staff_receive_name p = None /\
  PartialTransfer.date_from_branch p = None /\
  PartialTransfer.staff_send_name p = None /\
  PartialTransfer.date_sent_to_branch p = None /\
  PartialTransfer.created_at p = None /\
  PartialTransfer.user_id p = None ->
  same_creation_fields r (Store.merge r p).
Proof.
  intros (H1 & H2 & H3 & H4 & H5 & H6 & H7 & H8 & H9 & H10 & H11 & H12 & H13 & H14).
  unfold same_creation_fields, Store.merge. simpl.
  rewrite H1, H2, H3, H4, H5, H6, H7, H8, H9, H10, H11, H12, H13, H14.
  simpl. repeat split.
Qed.

Lemma Forall2_map_self {A} (R : A -> A -> Prop) (f : A -> A) (l : list A) :
  (forall x, R x (f x)) -> Forall2 R l (map f l).
Proof.
  intro H. induction l as [|x xs IH]; simpl; constructor; [apply H|exact IH].
Qed.

Lemma update_transfer_same_creation_fields
  (tid : string) (u : User.t) (t : RepairTransfer.t) (form : StatusUpdateForm.t)
  (env : TransferDetail.Env) (db : Store.DB) :
  Forall2 same_creation_fields (Store.repairTransfers db)
    (Store.repairTransfers
       (Store.update_transfer tid (TransferDetail.updateData u t form env) db)).
Proof.
  unfold Store.update_transfer. simpl. apply Forall2_map_self. intro r.
  destruct (String.eqb (RepairTransfer.id r) tid).
  - apply merge_same_creation_fields. apply updateData_creation_fields.
  - apply same_creation_fields_refl.
Qed.

(** C8.  Whatever the page, the form, the environment and the way the call
    ends, [handleStatusUpdate] leaves the stored records in place, each with
    the id, route, customer, device, intake and dispatch fields, [created_at]
    and [user_id] it had before; only the other eight fields (status,
    remarks, [updated_by], [updated_at] and the four repair fields) can
    differ. *)
Theorem handleStatusUpdate_keeps_creation_fields
  (tid : string) (env : TransferDetail.Env) (pg : TransferDetail.Page) (db : Store.DB) :
  Forall2 same_creation_fields
    (Store.repairTransfers db)
    (Store.repairTransfers (snd (TransferDetail.handleStatusUpdate tid env pg db))).
Proof.
  assert (Hsame : Forall2 same_creation_fields
                    (Store.repairTransfers db) (Store.repairTransfers db)).
  { induction (Store.repairTransfers db) as [|r rs IH]; constructor;
      [apply same_creation_fields_refl|exact IH]. }
  unfold TransferDetail.handleStatusUpdate.
  destruct (TransferDetail.user pg) as [u|]; [|exact Hsame].
  destruct (TransferDetail.transfer pg) as [t|]; [|exact Hsame].
  unfold TransferDetail.writes, Store.bind, Store.request.
  destruct (TransferDetail.update_available env); simpl; [|exact Hsame].
  destruct (TransferDetail.log_available env); simpl;
    apply update_transfer_same_creation_fields.
Qed.

(** C10, as stated, fails: with empty remarks in the form the handler writes
    the remarks of the page's copy of the record.  After an update whose
    reload was not answered the store holds "in progress" and the page still
    shows "arrived"; the next update, with empty remarks, puts "arrived" back
    into the record. *)
Lemma empty_remarks_may_change_record_remarks :
  ~ (forall tid env pg db pg' db' r r',
        TransferDetail.canUpdate pg = true ->
        StatusUpdateForm.remarks (TransferDetail.updateForm pg) = EmptyString ->
        Store.find tid db = Some r ->
        TransferDetail.handleStatusUpdate tid env pg db = (TransferDetail.Updated, pg', db') ->
        Store.find tid db' = Some r' ->
        RepairTransfer.remarks r' = RepairTransfer.remarks r).
Proof.
  intro H.
  pose (res := TransferDetail.handleStatusUpdate "transfer_1709280000000_4fzyo82mv"
                 later_update_env stale_remarks_page stale_remarks_db).
  pose (r := Store.merge noted_row
               (TransferDetail.updateData admin noted_row
                  (TransferDetail.updateForm
                     (TransferDetail.changeRemarks "in progress"
                        (TransferDetail.changeStatus "In Repair"
                           (toggleUpdateForm noted_page))))
                  reload_fails_env)).
  pose (r' := Store.merge r
                (TransferDetail.updateData admin noted_row
                   (TransferDetail.updateForm stale_remarks_page) later_update_env)).
  assert (Hsame : RepairTransfer.remarks r' = RepairTransfer.remarks r).
  { apply (H "transfer_1709280000000_4fzyo82mv" later_update_env stale_remarks_page
             stale_remarks_db (snd (fst res)) (snd res) r r');
      vm_compute; reflexivity. }
  vm_compute in Hsame. discriminate Hsame.
Qed.

(** C10, amended.  When the form's remarks are empty, an update that runs to
    its end does not write the empty string into the record: it writes the
    remarks of the record as the page holds it ([transfer.remarks]), and
    leaves the stored remarks alone when the page's copy has none; the log
    entry appended for that transfer stores the empty remarks.  So the
    record keeps its remarks when the page shows the stored record, and the
    record's remarks differ from the new log entry's as soon as the page's
    copy had non-empty remarks. *)
Theorem empty_remarks_write_page_remarks
  (tid : string) (env : TransferDetail.Env) (pg pg' : TransferDetail.Page)
  (db db' : Store.DB) (u : User.t) (t r : RepairTransfer.t) :
  TransferDetail.user pg = Some u ->
  TransferDetail.transfer pg = Some t ->
  Store.find tid db = Some r ->
  StatusUpdateForm.remarks (TransferDetail.updateForm pg) = EmptyString ->
  TransferDetail.handleStatusUpdate tid env pg db = (TransferDetail.Updated, pg', db') ->
  exists r' l,
    Store.find tid db' = Some r' /\
    Store.statusLogs db' = Store.statusLogs db ++ [l] /\
    StatusLog.transfer_id l = tid /\
    StatusLog.remarks l = Some EmptyString /\
    RepairTransfer.remarks r'
    = match RepairTransfer.remarks t with
      | Some shown => Some shown
      | None => RepairTransfer.remarks r
      end /\
    (r = t -> RepairTransfer.remarks r' = RepairTransfer.remarks r) /\
    (forall previous,
        RepairTransfer.remarks t = Some previous -> previous <> EmptyString ->
        RepairTransfer.remarks r' <> StatusLog.remarks l).
Proof.
  intros Hu Ht Hfind Hrem Hrun.
  rewrite (handleStatusUpdate_updated _ _ _ _ Hu Ht Hrun).
  destruct (updateData_creation_fields u t (TransferDetail.updateForm pg) env) as [Hid _].
  destruct (updateData_common_fields u t (TransferDetail.updateForm pg) env)
    as (_ & Hr & _).
  rewrite Hrem in Hr. simpl in Hr.
  exists (Store.merge r (TransferDetail.updateData u t (TransferDetail.updateForm pg) env)).
  eexists.
  rewrite find_create_log, find_update_transfer by exact Hid.
  rewrite Hfind.
  split; [reflexivity|]. split; [reflexivity|]. split; [reflexivity|].
  simpl. rewrite Hr, Hrem.
  change (JS.or_elseO EmptyString (RepairTransfer.remarks t))
    with (RepairTransfer.remarks t).
  split; [reflexivity|]. split; [reflexivity|]. split.
  - intros ->. destruct (RepairTransfer.remarks t); reflexivity.
  - intros previous Hprev Hne Heq. rewrite Hprev in Heq. simpl in Heq.
    injection Heq as Heq. contradiction.
Qed.

Lemma empty_remarks_write_page_remarks_witness :
  exists r' l,
    Store.find "transfer_1709280000000_4fzyo82mv"
      (snd (TransferDetail.handleStatusUpdate "transfer_1709280000000_4fzyo82mv" update_env
              (TransferDetail.changeStatus "In Repair" noted_page) noted_db))
    = Some r' /\
    Store.statusLogs
      (snd (TransferDetail.handleStatusUpdate "transfer_1709280000000_4fzyo82mv" update_env
              (TransferDetail.changeStatus "In Repair" noted_page) noted_db))
    = [pending_log; l] /\
    StatusLog.transfer_id l = "transfer_1709280000000_4fzyo82mv" /\
    RepairTransfer.remarks r' = Some "arrived" /\
    StatusLog.remarks l = Some EmptyString /\
    RepairTransfer.remarks r' <> StatusLog.remarks l.
Proof.
  pose (pg := TransferDetail.changeStatus "In Repair" noted_page).
  pose (res := TransferDetail.handleStatusUpdate "transfer_1709280000000_4fzyo82mv"
                 update_env pg noted_db).
  destruct (@empty_remarks_write_page_remarks
              "transfer_1709280000000_4fzyo82mv" update_env pg (snd (fst res))
              noted_db (snd res) admin noted_row noted_row)
    as (r' & l & Hfind & Hlogs & Htid & Hlog & Hkeep & _ & Hdiff).
  - reflexivity.
  - reflexivity.
  - reflexivity.
  - reflexivity.
  - vm_compute. reflexivity.
  - exists r', l. split; [exact Hfind|]. split; [exact Hlogs|].
    split; [exact Htid|]. split; [exact Hkeep|]. split; [exact Hlog|].
    apply (Hdiff "arrived"); [reflexivity|discriminate].
Defined.

(** ** Read scoping: the claim *)

(** The list of AllTransfers misses no record in scope, for the three roles. *)
Lemma loadTransfers_complete (u : User.t) (db : Store.DB) (r : RepairTransfer.t)
  (previous : list RepairTransfer.t) :
  In (User.role u) ["Admin"; "HQ Staff"; "Technician"] ->
  In r (Store.repairTransfers db) -> inScope u r ->
  In r (AllTransfers.loadTransfers u true db previous).
Proof.
  intros Hrole Hin [Hh Ht]. unfold AllTransfers.loadTransfers.
  destruct (String.eqb_spec (User.role u) "Admin") as [Ea|Ea];
    [apply list_transfers_all; [exact Hin|reflexivity]|].
  destruct (String.eqb_spec (User.role u) "HQ Staff") as [Eh|Eh];
    [apply list_transfers_all; [exact Hin|apply String.eqb_eq, Hh, Eh]|].
  destruct (String.eqb_spec (User.role u) "Technician") as [Et|Et];
    [apply list_transfers_all; [exact Hin|apply String.eqb_eq, Ht, Et]|].
  exfalso. simpl in Hrole. intuition congruence.
Qed.

(** C5.  Every record handed to a caller is in the caller's scope: the
    records listed by AllTransfers and by the Dashboard, and the record the
    detail page loads by id (a record found on the page after a load is
    either the stored record with that id, in scope, or the one the page
    held before).  The detail page loads nothing when the stored record with
    that id is out of scope: the page is left as it was. *)
Theorem records_returned_are_in_scope (u : User.t) :
  (forall available db r,
      In r (AllTransfers.loadTransfers u available db []) -> inScope u r) /\
  (forall available db r,
      In r (Dashboard.loadDashboardData u available db []) -> inScope u r) /\
  (forall tid env db pg r,
      TransferDetail.transfer (TransferDetail.loadTransferData tid u env db pg) = Some r ->
      (inScope u r /\ Store.find tid db = Some r) \/ TransferDetail.transfer pg = Some r) /\
  (forall tid env db pg r,
      Store.find tid db = Some r -> ~ inScope u r ->
      TransferDetail.loadTransferData tid u env db pg = pg).
Proof.
  split; [|split; [|split]].
  - intros available db r H. apply (loadTransfers_scoped _ _ _ _ H).
  - intros available db r H. apply (loadDashboardData_scoped _ _ _ _ H).
  - intros tid env db pg r.
    destruct (TransferDetail.transfers_available env) eqn:Ha.
    + rewrite loadTransferData_transfer by exact Ha.
      destruct (Store.find tid db) as [r0|]; [|intro H; right; exact H].
      destruct (inScopeb u r0) eqn:Hs; [|intro H; right; exact H].
      intro H. injection H as <-. left.
      split; [apply inScopeb_iff; exact Hs|reflexivity].
    + unfold TransferDetail.loadTransferData. rewrite Ha. simpl.
      intro H. right. exact H.
  - intros tid env db pg r Hfind Hout.
    unfold TransferDetail.loadTransferData.
    destruct (TransferDetail.transfers_available env); simpl; [|reflexivity].
    unfold Store.find in Hfind. rewrite <- find_head_filter in Hfind.
    unfold Store.list_transfers. simpl.
    destruct (filter (Store.matches (Store.WhereId tid))
                (Store.repairTransfers db)) as [|r0 rs]; [reflexivity|].
    injection Hfind as ->.
    rewrite <- inScopeb_iff in Hout. unfold inScopeb in Hout.
    destruct (String.eqb (User.role u) "HQ Staff");
      destruct (String.eqb (User.role u) "Technician");
      destruct (String.eqb (RepairTransfer.branch_from r) (User.branch u));
      destruct (String.eqb (RepairTransfer.branch_to r) (User.branch u));
      simpl in *; try reflexivity; exfalso; apply Hout; reflexivity.
Qed.

Lemma records_returned_are_in_scope_witness :
  (forall r, In r (AllTransfers.loadTransfers technician true one_row_db []) ->
             inScope technician r) /\
  TransferDetail.loadTransferData "transfer_1709280000000_4fzyo82mv" outsider
    always_available one_row_db (TransferDetail.setUser outsider TransferDetail.initial)
  = TransferDetail.setUser outsider TransferDetail.initial.
Proof.
  split.
  - apply (proj1 (records_returned_are_in_scope technician)).
  - apply (proj2 (proj2 (proj2 (records_returned_are_in_scope outsider)))
             "transfer_1709280000000_4fzyo82mv" always_available one_row_db
             (TransferDetail.setUser outsider TransferDetail.initial) pending_row).
    + reflexivity.
    + unfold inScope. simpl. intros [H _]. specialize (H eq_refl). discriminate H.
Defined.

(* ================================================================== *)
(** * Further properties of the sources *)

(** ** utils/status.ts and the auth module *)

(** The six ways [getNextStatus] can answer. *)
Lemma getNextStatus_cases (s : string) :
  (s = "Pending" /\ Status.getNextStatus s = Some "Received") \/
  (s = "Received" /\ Status.getNextStatus s = Some "In Repair") \/
  (s = "In Repair" /\ Status.getNextStatus s = Some "Done") \/
  (s = "Done" /\ Status.getNextStatus s = Some "Returned") \/
  (s = "Returned" /\ Status.getNextStatus s = None) \/
  (~ In s Status.STATUS_ORDER /\ Status.getNextStatus s = None).
Proof.
  destruct (String.eqb_spec s "Pending") as [->|H1]; [left; split; reflexivity|].
  destruct (String.eqb_spec s "Received") as [->|H2];
    [right; left; split; reflexivity|].
  destruct (String.eqb_spec s "In Repair") as [->|H3];
    [right; right; left; split; reflexivity|].
  destruct (String.eqb_spec s "Done") as [->|H4];
    [right; right; right; left; split; reflexivity|].
  destruct (String.eqb_spec s "Returned") as [->|H5];
    [right; right; right; right; left; split; reflexivity|].
  do 5 right.
  assert (Hout : ~ In s Status.STATUS_ORDER).
  { simpl. intros [H|[H|[H|[H|[H|[]]]]]]; symmetry in H; contradiction. }
  split; [exact Hout|].
  unfold Status.getNextStatus. rewrite indexOf_absent by exact Hout. reflexivity.
Qed.

(** X1.  The lifecycle has no cycle: from any string at all, following
    [getNextStatus] reaches [null] within five steps. *)
Theorem getNextStatus_runs_out (s : string) : advance 5 (Some s) = None.
Proof.
  destruct (getNextStatus_cases s) as [[-> _]|[[-> _]|[[-> _]|[[-> _]|[[-> _]|[_ H]]]]]];
    try reflexivity.
  simpl. rewrite H. reflexivity.
Qed.

(** X2.  A status produced by [getNextStatus] is one of the five, is never
    'Pending', differs from the status it follows, and is a status on which a
    Technician may update. *)
Theorem getNextStatus_result (s s' : string) :
  Status.getNextStatus s = Some s' ->
  In s Status.STATUS_ORDER /\ In s' Status.STATUS_ORDER /\
  s' <> "Pending" /\ s' <> s /\
  Status.canUpdateStatus "Technician" s' = true.
Proof.
  intro H.
  destruct (getNextStatus_cases s)
    as [[-> E]|[[-> E]|[[-> E]|[[-> E]|[[-> E]|[_ E]]]]]];
    rewrite E in H; try discriminate H; injection H as <-;
    (split; [simpl; tauto|]); (split; [simpl; tauto|]);
    (split; [discriminate|]); (split; [discriminate|reflexivity]).
Qed.

Lemma getNextStatus_result_witness :
  In "Done" Status.STATUS_ORDER /\ In "Returned" Status.STATUS_ORDER /\
  "Returned" <> "Pending" /\ "Returned" <> "Done" /\
  Status.canUpdateStatus "Technician" "Returned" = true.
Proof. apply (@getNextStatus_result "Done" "Returned"). reflexivity. Defined.

(** X3.  [hasPermission] is true exactly for a signed-in user whose role is
    one of the required roles; in particular nobody passes an empty list. *)
Theorem hasPermission_iff (user : option User.t) (requiredRoles : list string) :
  Auth.hasPermission user requiredRoles = true
  <-> exists u, user = Some u /\ In (User.role u) requiredRoles.
Proof.
  unfold Auth.hasPermission. destruct user as [u|].
  - rewrite existsb_exists. split.
    + intros (x & Hin & Heq). apply String.eqb_eq in Heq. subst x.
      exists u. split; [reflexivity|exact Hin].
    + intros (u' & Hu & Hin). injection Hu as <-.
      exists (User.role u). split; [exact Hin|apply String.eqb_refl].
  - split; [discriminate|]. intros (u & Hu & _). discriminate Hu.
Qed.

(** X4.  The auth module's [canUpdateStatus] is true exactly for a signed-in
    Admin, for HQ Staff on a record sent from the branch named 'HQ', and for
    a Technician on a record sent to the Technician's own branch. *)
Theorem auth_canUpdateStatus_iff (user : option User.t) (t : RepairTransfer.t) :
  Auth.canUpdateStatus user t = true
  <-> exists u, user = Some u /\ auth_allows u t.
Proof.
  unfold Auth.canUpdateStatus, auth_allows. destruct user as [u|].
  - destruct (String.eqb_spec (User.role u) "Admin") as [Ha|Ha].
    { split; [intros _; exists u; split; [reflexivity|left; exact Ha]|reflexivity]. }
    destruct (String.eqb_spec (User.role u) "HQ Staff") as [Hh|Hh];
      destruct (String.eqb_spec (RepairTransfer.branch_from t) "HQ") as [Hf|Hf];
      destruct (String.eqb_spec (User.role u) "Technician") as [Ht|Ht];
      destruct (String.eqb_spec (RepairTransfer.branch_to t) (User.branch u)) as [Hb|Hb];
      simpl; split; intro H; try reflexivity; try discriminate H;
      try (exists u; split; [reflexivity|tauto]);
      destruct H as (u' & Hu & H); injection Hu as <-;
      try (rewrite Hh in Ht; discriminate Ht); tauto.
  - split; [discriminate|]. intros (u & Hu & _). discriminate Hu.
Qed.

(** X5.  What the auth module lets a user update, the user may also read,
    except for HQ Staff of a branch other than 'HQ': the HQ Staff rule tests
    the literal 'HQ' and not the user's branch. *)
Theorem auth_canUpdateStatus_in_scope (u : User.t) (t : RepairTransfer.t) :
  Auth.canUpdateStatus (Some u) t = true ->
  (User.role u = "HQ Staff" -> User.branch u = "HQ") ->
  inScope u t.
Proof.
  unfold Auth.canUpdateStatus, inScope. intros H Hq.
  destruct (String.eqb_spec (User.role u) "Admin") as [Ha|Ha];
    [rewrite Ha; split; discriminate|].
  destruct (String.eqb_spec (User.role u) "HQ Staff") as [Hh|Hh];
    destruct (String.eqb_spec (RepairTransfer.branch_from t) "HQ") as [Hf|Hf];
    destruct (String.eqb_spec (User.role u) "Technician") as [Ht|Ht];
    destruct (String.eqb_spec (RepairTransfer.branch_to t) (User.branch u)) as [Hb|Hb];
    simpl in H; try discriminate H;
    try (rewrite Hh in Ht; discriminate Ht);
    split; intro E; try contradiction; try assumption;
    rewrite Hf; symmetry; apply Hq; exact Hh.
Qed.

Lemma auth_canUpdateStatus_in_scope_witness : inScope technician pending_row.
Proof.
  apply auth_canUpdateStatus_in_scope.
  - reflexivity.
  - discriminate.
Defined.

(** The side condition is needed: HQ Staff of 'Muar' may update a
    record from 'HQ' that the read scoping hides from them. *)
Lemma auth_canUpdateStatus_outside_scope :
  Auth.canUpdateStatus (Some outsider) pending_row = true /\
  ~ inScope outsider pending_row.
Proof.
  split; [reflexivity|]. unfold inScope. simpl.
  intros [H _]. specialize (H eq_refl). discriminate H.
Qed.

(** ** NewTransfer: validation, the form and the two writes *)

(** X6.  [validateForm] reports every invalid field at once and nothing
    else: after it ran, a field carries an error message exactly when that
    field is invalid, and the optional passcode never carries one. *)
Theorem newErrors_per_field (field : NewTransferPage.Field) (f : NewTransferForm.t) :
  NewTransferPage.getError field (NewTransfer.newErrors f) <> None
  <-> field_invalid field f.
Proof.
  destruct f as [cn pm im pc pd sr dt].
  destruct field; unfold NewTransfer.newErrors; simpl;
    rewrite <- ?truthy_false_iff.
  - destruct (JS.truthy (JS.trim cn)); split; intro H;
      try discriminate; try reflexivity; contradiction.
  - destruct (JS.truthy (JS.trim pm)); split; intro H;
      try discriminate; try reflexivity; contradiction.
  - destruct (JS.truthy (JS.trim im)); simpl;
      destruct (Nat.ltb_spec (String.length im) 15) as [Hlt|Hge];
      split; intro H; try discriminate; try contradiction;
      try (left; reflexivity); try (right; exact Hlt).
    destruct H as [H|H]; [discriminate H|lia].
  - split; intro H; contradiction.
  - destruct (JS.truthy (JS.trim pd)); split; intro H;
      try discriminate; try reflexivity; contradiction.
  - destruct (JS.truthy (JS.trim sr)); split; intro H;
      try discriminate; try reflexivity; contradiction.
  - destruct (JS.truthy dt); split; intro H;
      try discriminate; try reflexivity; contradiction.
Qed.

(** X7.  Typing into a field stores the typed value in that field and
    removes the message shown for it; it changes no other field and no other
    field's message. *)
Theorem handleInputChange_local
  (field other : NewTransferPage.Field) (value : string)
  (formData : NewTransferForm.t) (errors : FormErrors.t) :
  let after := NewTransferPage.handleInputChange field value formData errors in
  NewTransferPage.getField field (fst after) = value /\
  JS.truthyO (NewTransferPage.getError field (snd after)) = false /\
  (other <> field ->
   NewTransferPage.getField other (fst after) = NewTransferPage.getField other formData /\
   NewTransferPage.getError other (snd after) = NewTransferPage.getError other errors).
Proof.
  unfold NewTransferPage.handleInputChange. simpl.
  split; [destruct field; reflexivity|]. split.
  - destruct (JS.truthyO (NewTransferPage.getError field errors)) eqn:E;
      [destruct field; reflexivity|exact E].
  - intro Hne.
    destruct (JS.truthyO (NewTransferPage.getError field errors));
      destruct field, other; try (exfalso; apply Hne; reflexivity);
      split; reflexivity.
Qed.

Lemma handleInputChange_local_witness :
  let after :=
    NewTransferPage.handleInputChange NewTransferPage.imei "123456789012345"
      short_imei_form (NewTransfer.newErrors short_imei_form) in
  NewTransferPage.getField NewTransferPage.phone_model (fst after) = "X1" /\
  NewTransferPage.getError NewTransferPage.phone_model (snd after) = None.
Proof.
  apply (proj2 (proj2 (handleInputChange_local NewTransferPage.imei
                         NewTransferPage.phone_model "123456789012345" short_imei_form
                         (NewTransfer.newErrors short_imei_form)))).
  discriminate.
Defined.

(** The five ways a call of [handleSubmit] can end. *)
Lemma handleSubmit_cases (user : option User.t) (f : NewTransferForm.t)
  (env : NewTransfer.Env) (db : Store.DB) :
  let res := NewTransfer.handleSubmit user f env db in
  (user = None /\ res = (NewTransfer.NoUser, db)) \/
  (NewTransfer.validateForm f = false /\
   res = (NewTransfer.Rejected (NewTransfer.newErrors f), db)) \/
  (NewTransfer.transfer_available env = false /\ res = (NewTransfer.Alerted, db)) \/
  (exists u, user = Some u /\
     NewTransfer.transfer_available env = true /\
     NewTransfer.log_available env = false /\
     res = (NewTransfer.Alerted,
            Store.create_transfer (NewTransfer.transfer_stamp env)
              (NewTransfer.transferRow u f env) db)) \/
  (exists u, user = Some u /\
     res = (NewTransfer.Redirected (NewTransfer.transferId env),
            Store.create_log (NewTransfer.log_stamp env) (NewTransfer.logRow u env)
              (Store.create_transfer (NewTransfer.transfer_stamp env)
                 (NewTransfer.transferRow u f env) db))).
Proof.
  unfold NewTransfer.handleSubmit, NewTransfer.submit, Store.bind, Store.request, Store.ret.
  destruct user as [u|]; [|left; split; reflexivity].
  destruct (NewTransfer.validateForm f); simpl;
    [|right; left; split; reflexivity].
  destruct (NewTransfer.transfer_available env); simpl;
    [|right; right; left; split; reflexivity].
  destruct (NewTransfer.log_available env); simpl.
  - do 4 right. exists u. split; reflexivity.
  - do 3 right. left. exists u. repeat split.
Qed.

(** X8.  When [handleSubmit] ends in the alert, no log entry was written.
    Either the store refused the record and is unchanged, or it stored the
    record and then refused the log entry: the new record then stays in the
    store, Pending, without its creation entry. *)
Theorem handleSubmit_alerted (user : option User.t) (f : NewTransferForm.t)
  (env : NewTransfer.Env) (db db' : Store.DB) :
  NewTransfer.handleSubmit user f env db = (NewTransfer.Alerted, db') ->
  Store.statusLogs db' = Store.statusLogs db /\
  ((NewTransfer.transfer_available env = false /\ db' = db) \/
   (NewTransfer.transfer_available env = true /\
    NewTransfer.log_available env = false /\
    exists r,
      Store.repairTransfers db' = Store.repairTransfers db ++ [r] /\
      RepairTransfer.id r = NewTransfer.transferId env /\
      RepairTransfer.status r = "Pending")).
Proof.
  intro H.
  destruct (handleSubmit_cases user f env db)
    as [[_ E]|[[_ E]|[[Ha E]|[(u & _ & Ha & Hl & E)|(u & _ & E)]]]];
    cbv zeta in E; rewrite E in H; try discriminate H; injection H as <-.
  - split; [reflexivity|]. left. split; [exact Ha|reflexivity].
  - split; [reflexivity|]. right. split; [exact Ha|]. split; [exact Hl|].
    eexists. simpl. repeat split.
Qed.

Lemma handleSubmit_alerted_witness :
  exists r,
    Store.repairTransfers
      (snd (NewTransfer.handleSubmit (Some hq_staff) good_form log_fails_env Store.empty))
    = [r] /\
    RepairTransfer.status r = "Pending" /\
    Store.statusLogs
      (snd (NewTransfer.handleSubmit (Some hq_staff) good_form log_fails_env Store.empty))
    = [].
Proof.
  destruct (@handleSubmit_alerted (Some hq_staff) good_form log_fails_env Store.empty
              (snd (NewTransfer.handleSubmit (Some hq_staff) good_form
                      log_fails_env Store.empty)))
    as [Hlogs [[Ha _]|(_ & _ & r & Hr & _ & Hst)]].
  - vm_compute. reflexivity.
  - discriminate Ha.
  - exists r. split; [exact Hr|]. split; [exact Hst|exact Hlogs].
Defined.

(** X9.  However it ends, [handleSubmit] only appends: the stored records
    and log entries are kept, in order, at most one record is added, and a
    log entry is added only together with a record. *)
Theorem handleSubmit_append_only (user : option User.t) (f : NewTransferForm.t)
  (env : NewTransfer.Env) (db : Store.DB) :
  exists rs ls,
    Store.repairTransfers (snd (NewTransfer.handleSubmit user f env db))
    = Store.repairTransfers db ++ rs /\
    Store.statusLogs (snd (NewTransfer.handleSubmit user f env db))
    = Store.statusLogs db ++ ls /\
    List.length ls <= List.length rs <= 1.
Proof.
  destruct (handleSubmit_cases user f env db)
    as [[_ E]|[[_ E]|[[_ E]|[(u & _ & _ & _ & E)|(u & _ & E)]]]];
    cbv zeta in E; rewrite E; simpl.
  - exists [], []. rewrite !app_nil_r. simpl. repeat split; lia.
  - exists [], []. rewrite !app_nil_r. simpl. repeat split; lia.
  - exists [], []. rewrite !app_nil_r. simpl. repeat split; lia.
  - eexists. exists [].
    split; [reflexivity|]. split; [symmetry; apply app_nil_r|]. simpl. lia.
  - eexists. eexists. split; [reflexivity|]. split; [reflexivity|]. simpl. lia.
Qed.

(** X10.  Who can create cannot update: the form of NewTransfer is rendered
    for HQ Staff only, and [canUpdateStatus] refuses HQ Staff on every
    status.  A record just created is Pending, so of all roles only 'Admin'
    is offered the update of it. *)
Theorem created_record_update_rights (u : User.t) (f : NewTransferForm.t)
  (env : NewTransfer.Env) (db db' : Store.DB) (tid : string) :
  NewTransferPage.formRendered (Some u) = true ->
  NewTransfer.handleSubmit (Some u) f env db = (NewTransfer.Redirected tid, db') ->
  (forall s, Status.canUpdateStatus (User.role u) s = false) /\
  exists r,
    Store.repairTransfers db' = Store.repairTransfers db ++ [r] /\
    forall role, Status.canUpdateStatus role (RepairTransfer.status r) = true
                 <-> role = "Admin".
Proof.
  intros Hform H. simpl in Hform. apply String.eqb_eq in Hform.
  split; [intro s; rewrite Hform; reflexivity|].
  apply handleSubmit_redirected in H. destruct H as [_ ->].
  eexists. split; [reflexivity|]. simpl. intro role.
  unfold Status.canUpdateStatus.
  destruct (String.eqb_spec role "HQ Staff") as [->|Hh]; [split; discriminate|].
  destruct (String.eqb_spec role "Technician") as [->|Ht]; [split; discriminate|].
  destruct (String.eqb_spec role "Admin") as [->|Ha]; split; intro H;
    try reflexivity; try discriminate H; contradiction.
Qed.

Lemma created_record_update_rights_witness :
  Status.canUpdateStatus (User.role hq_staff) "Received" = false /\
  exists r,
    Store.repairTransfers
      (snd (NewTransfer.handleSubmit (Some hq_staff) good_form submit_env Store.empty))
    = [r] /\
    (Status.canUpdateStatus "Technician" (RepairTransfer.status r) = true
     <-> "Technician" = "Admin").
Proof.
  destruct (@created_record_update_rights hq_staff good_form submit_env Store.empty
              (snd (NewTransfer.handleSubmit (Some hq_staff) good_form
                      submit_env Store.empty))
              (NewTransfer.transferId submit_env))
    as (Hno & r & Hr & Hrights).
  - reflexivity.
  - vm_compute. reflexivity.
  - split; [apply Hno|]. exists r. split; [exact Hr|apply Hrights].
Defined.

Lemma find_snoc {A} (p : A -> bool) (l : list A) (x : A) :
  List.find p (l ++ [x])
  = match List.find p l with
    | Some y => Some y
    | None => if p x then Some x else None
    end.
Proof.
  induction l as [|y ys IH]; simpl; [reflexivity|].
  destruct (p y); [reflexivity|exact IH].
Qed.

Lemma find_fresh (tid : string) (db : Store.DB) :
  ~ In tid (ids db) -> Store.find tid db = None.
Proof.
  unfold ids, Store.find. induction (Store.repairTransfers db) as [|r rs IH]; simpl;
    intro H; [reflexivity|].
  destruct (String.eqb_spec (RepairTransfer.id r) tid) as [E|E].
  - exfalso. apply H. left. exact E.
  - apply IH. intro Hin. apply H. right. exact Hin.
Qed.

Lemma loadTransferData_user (tid : string) (u : User.t)
  (env : TransferDetail.LoadEnv) (db : Store.DB) (pg : TransferDetail.Page) :
  TransferDetail.user (TransferDetail.loadTransferData tid u env db pg)
  = TransferDetail.user pg.
Proof.
  unfold TransferDetail.loadTransferData.
  destruct (TransferDetail.transfers_available env); [|reflexivity].
  cbn [negb].
  destruct (Store.list_transfers (Store.WhereId tid) None None db) as [|r rs];
    [reflexivity|].
  destruct (String.eqb (User.role u) "HQ Staff"
            && negb (String.eqb (RepairTransfer.branch_from r) (User.branch u)));
    [reflexivity|].
  destruct (String.eqb (User.role u) "Technician"
            && negb (String.eqb (RepairTransfer.branch_to r) (User.branch u)));
    [reflexivity|].
  destruct (TransferDetail.logs_available env); reflexivity.
Qed.

(** X11.  Create, then follow the redirection: when the new id was not in
    the store and the store answers, the detail page opened by the HQ Staff
    user who created the record shows that record, Pending, with the data of
    the form, and does not offer the update. *)
Theorem created_record_opens (u : User.t) (f : NewTransferForm.t)
  (env : NewTransfer.Env) (db db' : Store.DB) (tid : string)
  (lenv : TransferDetail.LoadEnv) :
  NewTransferPage.formRendered (Some u) = true ->
  NewTransfer.handleSubmit (Some u) f env db = (NewTransfer.Redirected tid, db') ->
  ~ In tid (ids db) ->
  TransferDetail.transfers_available lenv = true ->
  let pg := TransferDetail.onAuthStateChanged tid (Some u) lenv db' TransferDetail.initial in
  exists r,
    TransferDetail.transfer pg = Some r /\
    RepairTransfer.id r = tid /\
    RepairTransfer.status r = "Pending" /\
    RepairTransfer.customer_name r = NewTransferForm.customer_name f /\
    RepairTransfer.imei r = NewTransferForm.imei f /\
    RepairTransfer.branch_from r = User.branch u /\
    TransferDetail.canUpdate pg = false.
Proof.
  intros Hform H Hfresh Ha. simpl in Hform. apply String.eqb_eq in Hform.
  apply handleSubmit_redirected in H. destruct H as [-> ->].
  set (db1 := Store.create_log _ _ _).
  set (row := NewTransfer.transferRow u f env).
  assert (Hfind : exists r, Store.find (NewTransfer.transferId env) db1 = Some r /\
                    RepairTransfer.id r = NewTransfer.transferId env /\
                    RepairTransfer.status r = "Pending" /\
                    RepairTransfer.customer_name r = NewTransferForm.customer_name f /\
                    RepairTransfer.imei r = NewTransferForm.imei f /\
                    RepairTransfer.branch_from r = User.branch u).
  { unfold db1. rewrite find_create_log. unfold Store.find, Store.create_transfer.
    simpl. rewrite find_snoc.
    pose proof (find_fresh _ _ Hfresh) as Hnone. unfold Store.find in Hnone.
    rewrite Hnone. simpl. rewrite String.eqb_refl.
    eexists. split; [reflexivity|]. simpl. repeat split. }
  destruct Hfind as (r & Hfind & Hid & Hst & Hcn & Him & Hbf).
  assert (Hscope : inScopeb u r = true).
  { unfold inScopeb. rewrite Hform, Hbf. simpl. rewrite String.eqb_refl. reflexivity. }
  cbv zeta. unfold TransferDetail.onAuthStateChanged.
  exists r.
  assert (Ht : TransferDetail.transfer
                 (TransferDetail.loadTransferData (NewTransfer.transferId env) u lenv db1
                    (TransferDetail.setUser u TransferDetail.initial)) = Some r).
  { rewrite loadTransferData_transfer by exact Ha. rewrite Hfind, Hscope. reflexivity. }
  split; [exact Ht|]. repeat (split; [assumption|]).
  unfold TransferDetail.canUpdate. rewrite loadTransferData_user, Ht. simpl.
  rewrite Hform. reflexivity.
Qed.

Lemma created_record_opens_witness :
  exists r,
    TransferDetail.transfer
      (TransferDetail.onAuthStateChanged (NewTransfer.transferId submit_env) (Some hq_staff)
         always_available
         (snd (NewTransfer.handleSubmit (Some hq_staff) good_form submit_env Store.empty))
         TransferDetail.initial)
    = Some r /\
    RepairTransfer.status r = "Pending" /\
    RepairTransfer.customer_name r = "Carol".
Proof.
  destruct (@created_record_opens hq_staff good_form submit_env Store.empty
              (snd (NewTransfer.handleSubmit (Some hq_staff) good_form
                      submit_env Store.empty))
              (NewTransfer.transferId submit_env) always_available)
    as (r & Ht & _ & Hst & Hcn & _).
  - reflexivity.
  - vm_compute. reflexivity.
  - simpl. intros [].
  - reflexivity.
  - exists r. split; [exact Ht|]. split; [exact Hst|exact Hcn].
Defined.

(** ** TransferDetail: what an update writes, and what it leaves alone *)

(** The four ways a call of [handleStatusUpdate] can end. *)
Lemma handleStatusUpdate_cases (tid : string) (env : TransferDetail.Env)
  (pg : TransferDetail.Page) (db : Store.DB) :
  let res := TransferDetail.handleStatusUpdate tid env pg db in
  ((TransferDetail.user pg = None \/ TransferDetail.transfer pg = None) /\
   res = (TransferDetail.NotReady, pg, db)) \/
  exists u t,
    TransferDetail.user pg = Some u /\ TransferDetail.transfer pg = Some t /\
    let d := TransferDetail.updateData u t (TransferDetail.updateForm pg) env in
    let db1 := Store.update_transfer tid d db in
    let db2 := Store.create_log (TransferDetail.log_stamp env)
                 (TransferDetail.logRow tid u t (TransferDetail.updateForm pg) env) db1 in
    (TransferDetail.update_available env = false /\
     res = (TransferDetail.Alerted, pg, db)) \/
    (TransferDetail.update_available env = true /\
     TransferDetail.log_available env = false /\
     res = (TransferDetail.Alerted, pg, db1)) \/
    (TransferDetail.update_available env = true /\
     TransferDetail.log_available env = true /\
     res = (TransferDetail.Updated,
            TransferDetail.setUpdateForm TransferDetail.clearRemarks
              (TransferDetail.setShowUpdateForm false
                 (TransferDetail.loadTransferData tid u (TransferDetail.reload env) db2 pg)),
            db2)).
Proof.
  unfold TransferDetail.handleStatusUpdate, TransferDetail.writes,
    Store.bind, Store.request.
  destruct (TransferDetail.user pg) as [u|];
    [|left; split; [left; reflexivity|reflexivity]].
  destruct (TransferDetail.transfer pg) as [t|];
    [|left; split; [right; reflexivity|reflexivity]].
  right. exists u, t. split; [reflexivity|]. split; [reflexivity|]. cbv zeta.
  destruct (TransferDetail.update_available env); simpl;
    [|left; split; reflexivity].
  destruct (TransferDetail.log_available env); simpl.
  - right. right. repeat split.
  - right. left. repeat split.
Qed.

(** The stored record after an update that ran to its end. *)
Lemma handleStatusUpdate_stored_row
  (tid : string) (env : TransferDetail.Env) (pg pg' : TransferDetail.Page)
  (db db' : Store.DB) (u : User.t) (t r : RepairTransfer.t) :
  TransferDetail.user pg = Some u ->
  TransferDetail.transfer pg = Some t ->
  Store.find tid db = Some r ->
  TransferDetail.handleStatusUpdate tid env pg db = (TransferDetail.Updated, pg', db') ->
  Store.find tid db'
  = Some (Store.merge r (TransferDetail.updateData u t (TransferDetail.updateForm pg) env)).
Proof.
  intros Hu Ht Hr Hrun.
  rewrite (handleStatusUpdate_updated _ _ _ _ Hu Ht Hrun).
  destruct (updateData_creation_fields u t (TransferDetail.updateForm pg) env) as [Hid _].
  rewrite find_create_log, find_update_transfer by exact Hid. rewrite Hr. reflexivity.
Qed.

(** X12.  An update that runs to its end writes the status chosen in the
    form, whatever it is (no status and no order of statuses is checked),
    and stamps the record with the acting user's name and the time of the
    call. *)
Theorem handleStatusUpdate_sets_status
  (tid : string) (env : TransferDetail.Env) (pg pg' : TransferDetail.Page)
  (db db' : Store.DB) (u : User.t) (t r : RepairTransfer.t) :
  TransferDetail.user pg = Some u ->
  TransferDetail.transfer pg = Some t ->
  Store.find tid db = Some r ->
  TransferDetail.handleStatusUpdate tid env pg db = (TransferDetail.Updated, pg', db') ->
  exists r',
    Store.find tid db' = Some r' /\
    RepairTransfer.status r' = StatusUpdateForm.status (TransferDetail.updateForm pg) /\
    RepairTransfer.updated_by r' = User.name u /\
    RepairTransfer.updated_at r' = TransferDetail.updated_at_iso env.
Proof.
  intros Hu Ht Hr Hrun.
  rewrite (handleStatusUpdate_updated _ _ _ _ Hu Ht Hrun).
  destruct (updateData_creation_fields u t (TransferDetail.updateForm pg) env) as [Hid _].
  destruct (updateData_common_fields u t (TransferDetail.updateForm pg) env)
    as (Hs & _ & Hby & Hat).
  exists (Store.merge r (TransferDetail.updateData u t (TransferDetail.updateForm pg) env)).
  rewrite find_create_log, find_update_transfer by exact Hid. rewrite Hr.
  split; [reflexivity|]. simpl. rewrite Hs, Hby, Hat. repeat split.
Qed.

Lemma handleStatusUpdate_sets_status_witness :
  exists r',
    Store.find "transfer_1709280000000_4fzyo82mv"
      (snd (TransferDetail.handleStatusUpdate "transfer_1709280000000_4fzyo82mv" update_env
              (TransferDetail.changeStatus "Pending" noted_page) noted_db))
    = Some r' /\
    RepairTransfer.status r' = "Pending" /\
    RepairTransfer.updated_by r' = "Root".
Proof.
  pose (pg := TransferDetail.changeStatus "Pending" noted_page).
  pose (res := TransferDetail.handleStatusUpdate "transfer_1709280000000_4fzyo82mv"
                 update_env pg noted_db).
  destruct (@handleStatusUpdate_sets_status
              "transfer_1709280000000_4fzyo82mv" update_env pg (snd (fst res))
              noted_db (snd res) admin noted_row noted_row)
    as (r' & Hfind & Hst & Hby & _).
  - reflexivity.
  - reflexivity.
  - reflexivity.
  - vm_compute. reflexivity.
  - exists r'. split; [exact Hfind|]. split; [exact Hst|exact Hby].
Defined.

(** The two fields [updateData] carries for 'Done', guarded by the date. *)
Lemma updateData_done_fields (u : User.t) (t : RepairTransfer.t)
  (form : StatusUpdateForm.t) (env : TransferDetail.Env) :
  StatusUpdateForm.status form = "Done" ->
  let d := TransferDetail.updateData u t form env in
  if JS.truthyO (StatusUpdateForm.date_repair_done form)
  then PartialTransfer.date_repair_done d = StatusUpdateForm.date_repair_done form /\
       PartialTransfer.repair_cost d = StatusUpdateForm.repair_cost form
  else PartialTransfer.date_repair_done d = None /\
       PartialTransfer.repair_cost d = None.
Proof.
  intro Hst. unfold TransferDetail.updateData. rewrite Hst. simpl.
  destruct (StatusUpdateForm.date_repair_done form) as [done|]; simpl.
  - destruct (JS.truthy done); simpl; [|split; reflexivity].
    destruct (StatusUpdateForm.repair_cost form); split; reflexivity.
  - split; reflexivity.
Qed.

(** X13.  An update to 'Done' that runs to its end stores the repair date
    when a non-empty one is supplied, and with it the repair cost when there
    is one (the stored cost is kept otherwise); without a repair date it
    stores neither, not even a cost that was supplied. *)
Theorem done_update_sets_date_and_cost
  (tid : string) (env : TransferDetail.Env) (pg pg' : TransferDetail.Page)
  (db db' : Store.DB) (u : User.t) (t r : RepairTransfer.t) :
  TransferDetail.user pg = Some u ->
  TransferDetail.transfer pg = Some t ->
  Store.find tid db = Some r ->
  StatusUpdateForm.status (TransferDetail.updateForm pg) = "Done" ->
  TransferDetail.handleStatusUpdate tid env pg db = (TransferDetail.Updated, pg', db') ->
  exists r',
    Store.find tid db' = Some r' /\
    (forall done,
        StatusUpdateForm.date_repair_done (TransferDetail.updateForm pg) = Some done ->
        done <> EmptyString ->
        RepairTransfer.date_repair_done r' = Some done /\
        RepairTransfer.repair_cost r'
        = match StatusUpdateForm.repair_cost (TransferDetail.updateForm pg) with
          | Some cost => Some cost
          | None => RepairTransfer.repair_cost r
          end) /\
    (JS.truthyO (StatusUpdateForm.date_repair_done (TransferDetail.updateForm pg)) = false ->
     RepairTransfer.date_repair_done r' = RepairTransfer.date_repair_done r /\
     RepairTransfer.repair_cost r' = RepairTransfer.repair_cost r) /\
    RepairTransfer.technician_receive_name r' = RepairTransfer.technician_receive_name r /\
    RepairTransfer.date_received_by_tech r' = RepairTransfer.date_received_by_tech r.
Proof.
  intros Hu Ht Hr Hst Hrun.
  rewrite (handleStatusUpdate_updated _ _ _ _ Hu Ht Hrun).
  set (form := TransferDetail.updateForm pg) in *.
  set (d := TransferDetail.updateData u t form env).
  destruct (updateData_creation_fields u t form env) as [Hid _].
  pose proof (updateData_done_fields u t form env Hst) as Hdone.
  fold d in Hid, Hdone. cbv zeta in Hdone.
  assert (Hrec : PartialTransfer.technician_receive_name d = None /\
                 PartialTransfer.date_received_by_tech d = None).
  { unfold d, TransferDetail.updateData. rewrite Hst. simpl.
    destruct (StatusUpdateForm.date_repair_done form) as [done|]; simpl;
      [destruct (JS.truthy done); simpl;
       [destruct (StatusUpdateForm.repair_cost form)|]|]; split; reflexivity. }
  destruct Hrec as [Htn Hdr].
  exists (Store.merge r d).
  rewrite find_create_log, find_update_transfer by exact Hid. rewrite Hr. simpl.
  split; [reflexivity|]. rewrite Htn, Hdr. simpl. split; [|split; [|split; reflexivity]].
  - intros done Hd Hne. rewrite Hd in Hdone. simpl in Hdone.
    apply truthy_true_iff in Hne. rewrite Hne in Hdone.
    destruct Hdone as [H1 H2]. rewrite H1, H2. simpl.
    split; [reflexivity|]. destruct (StatusUpdateForm.repair_cost form); reflexivity.
  - intro Hno. rewrite Hno in Hdone. destruct Hdone as [H1 H2].
    rewrite H1, H2. split; reflexivity.
Qed.

Lemma done_update_sets_date_and_cost_witness :
  exists r',
    Store.find "transfer_1709280000000_4fzyo82mv"
      (snd (TransferDetail.handleStatusUpdate "transfer_1709280000000_4fzyo82mv" update_env
              (TransferDetail.changeStatus "Done" noted_page) noted_db))
    = Some r' /\
    RepairTransfer.date_repair_done r' = None /\
    RepairTransfer.repair_cost r' = None.
Proof.
  pose (pg := TransferDetail.changeStatus "Done" noted_page).
  pose (res := TransferDetail.handleStatusUpdate "transfer_1709280000000_4fzyo82mv"
                 update_env pg noted_db).
  destruct (@done_update_sets_date_and_cost
              "transfer_1709280000000_4fzyo82mv" update_env pg (snd (fst res))
              noted_db (snd res) admin noted_row noted_row)
    as (r' & Hfind & _ & Hno & _).
  - reflexivity.
  - reflexivity.
  - reflexivity.
  - reflexivity.
  - vm_compute. reflexivity.
  - exists r'. split; [exact Hfind|]. apply Hno. reflexivity.
Defined.

(** X14.  An update to a status other than 'Received' and 'Done' that runs
    to its end leaves the four repair fields of the record as they were,
    whatever the form holds in them. *)
Theorem other_update_keeps_repair_fields
  (tid : string) (env : TransferDetail.Env) (pg pg' : TransferDetail.Page)
  (db db' : Store.DB) (u : User.t) (t r : RepairTransfer.t) :
  TransferDetail.user pg = Some u ->
  TransferDetail.transfer pg = Some t ->
  Store.find tid db = Some r ->
  StatusUpdateForm.status (TransferDetail.updateForm pg) <> "Received" ->
  StatusUpdateForm.status (TransferDetail.updateForm pg) <> "Done" ->
  TransferDetail.handleStatusUpdate tid env pg db = (TransferDetail.Updated, pg', db') ->
  exists r', Store.find tid db' = Some r' /\ same_repair_fields r r'.
Proof.
  intros Hu Ht Hr Hnr Hnd Hrun.
  rewrite (handleStatusUpdate_updated _ _ _ _ Hu Ht Hrun).
  destruct (updateData_creation_fields u t (TransferDetail.updateForm pg) env) as [Hid _].
  exists (Store.merge r (TransferDetail.updateData u t (TransferDetail.updateForm pg) env)).
  rewrite find_create_log, find_update_transfer by exact Hid. rewrite Hr.
  split; [reflexivity|].
  unfold same_repair_fields, TransferDetail.updateData.
  rewrite !eqb_false_of_neq by assumption. simpl. repeat split.
Qed.

Lemma other_update_keeps_repair_fields_witness :
  exists r',
    Store.find "transfer_1709280000000_4fzyo82mv"
      (snd (TransferDetail.handleStatusUpdate "transfer_1709280000000_4fzyo82mv" update_env
              (TransferDetail.changeTechnicianName "Eve"
                 (TransferDetail.changeStatus "In Repair" noted_page)) noted_db))
    = Some r' /\
    same_repair_fields noted_row r'.
Proof.
  pose (pg := TransferDetail.changeTechnicianName "Eve"
                (TransferDetail.changeStatus "In Repair" noted_page)).
  pose (res := TransferDetail.handleStatusUpdate "transfer_1709280000000_4fzyo82mv"
                 update_env pg noted_db).
  apply (@other_update_keeps_repair_fields
           "transfer_1709280000000_4fzyo82mv" update_env pg (snd (fst res))
           noted_db (snd res) admin noted_row noted_row).
  - reflexivity.
  - reflexivity.
  - reflexivity.
  - discriminate.
  - discriminate.
  - vm_compute. reflexivity.
Defined.

(** X15.  However it ends, [handleStatusUpdate] adds and removes no record
    and leaves every record with another id exactly as it was. *)
Theorem handleStatusUpdate_other_records
  (tid : string) (env : TransferDetail.Env) (pg : TransferDetail.Page) (db : Store.DB) :
  Forall2 (fun r r' => RepairTransfer.id r <> tid -> r' = r)
    (Store.repairTransfers db)
    (Store.repairTransfers (snd (TransferDetail.handleStatusUpdate tid env pg db))).
Proof.
  assert (Hsame : Forall2 (fun r r' => RepairTransfer.id r <> tid -> r' = r)
                    (Store.repairTransfers db) (Store.repairTransfers db)).
  { induction (Store.repairTransfers db) as [|r rs IH]; constructor;
      [reflexivity|exact IH]. }
  assert (Hupd : forall p,
             Forall2 (fun r r' => RepairTransfer.id r <> tid -> r' = r)
               (Store.repairTransfers db)
               (Store.repairTransfers (Store.update_transfer tid p db))).
  { intro p. unfold Store.update_transfer. simpl. apply Forall2_map_self.
    intros r Hne. rewrite eqb_false_of_neq by exact Hne. reflexivity. }
  destruct (handleStatusUpdate_cases tid env pg db)
    as [[_ E]|(u & t & _ & _ & [[_ E]|[(_ & _ & E)|(_ & _ & E)]])];
    cbv zeta in E; rewrite E; simpl; [exact Hsame|exact Hsame|apply Hupd|apply Hupd].
Qed.

(** X16.  However it ends, [handleStatusUpdate] keeps every log entry, in
    order, and appends at most one. *)
Theorem handleStatusUpdate_log_append_only
  (tid : string) (env : TransferDetail.Env) (pg : TransferDetail.Page) (db : Store.DB) :
  exists ls,
    Store.statusLogs (snd (TransferDetail.handleStatusUpdate tid env pg db))
    = Store.statusLogs db ++ ls /\
    List.length ls <= 1.
Proof.
  destruct (handleStatusUpdate_cases tid env pg db)
    as [[_ E]|(u & t & _ & _ & [[_ E]|[(_ & _ & E)|(_ & _ & E)]])];
    cbv zeta in E; rewrite E; simpl;
    try (exists []; split; [symmetry; apply app_nil_r|simpl; lia]).
  eexists. split; [reflexivity|simpl; lia].
Qed.

(** X17.  When [handleStatusUpdate] ends in the alert, the page is as it was
    (form still open, remarks kept) and no log entry was written.  Either
    the store refused the update and is unchanged, or it took the update and
    then refused the log entry: the record is then changed in the store with
    no entry in its history. *)
Theorem handleStatusUpdate_alerted
  (tid : string) (env : TransferDetail.Env) (pg pg' : TransferDetail.Page)
  (db db' : Store.DB) :
  TransferDetail.handleStatusUpdate tid env pg db = (TransferDetail.Alerted, pg', db') ->
  pg' = pg /\
  Store.statusLogs db' = Store.statusLogs db /\
  ((TransferDetail.update_available env = false /\ db' = db) \/
   (TransferDetail.update_available env = true /\
    TransferDetail.log_available env = false /\
    exists u t,
      TransferDetail.user pg = Some u /\ TransferDetail.transfer pg = Some t /\
      db' = Store.update_transfer tid
              (TransferDetail.updateData u t (TransferDetail.updateForm pg) env) db)).
Proof.
  intro H.
  destruct (handleStatusUpdate_cases tid env pg db)
    as [[_ E]|(u & t & Hu & Ht & [[Ha E]|[(Ha & Hl & E)|(_ & _ & E)]])];
    cbv zeta in E; rewrite E in H; try discriminate H; injection H as <- <-.
  - split; [reflexivity|]. split; [reflexivity|]. left. split; [exact Ha|reflexivity].
  - split; [reflexivity|]. split; [reflexivity|]. right.
    split; [exact Ha|]. split; [exact Hl|]. exists u, t. repeat split; assumption.
Qed.

Lemma handleStatusUpdate_alerted_witness :
  option_map RepairTransfer.status
    (Store.find "transfer_1709280000000_4fzyo82mv"
       (snd (TransferDetail.handleStatusUpdate "transfer_1709280000000_4fzyo82mv"
               update_log_fails_env
               (TransferDetail.changeStatus "Received" admin_page) one_row_db)))
  = Some "Received" /\
  Store.statusLogs
    (snd (TransferDetail.handleStatusUpdate "transfer_1709280000000_4fzyo82mv"
            update_log_fails_env
            (TransferDetail.changeStatus "Received" admin_page) one_row_db))
  = [pending_log].
Proof.
  pose (pg := TransferDetail.changeStatus "Received" admin_page).
  pose (res := TransferDetail.handleStatusUpdate "transfer_1709280000000_4fzyo82mv"
                 update_log_fails_env pg one_row_db).
  destruct (@handleStatusUpdate_alerted "transfer_1709280000000_4fzyo82mv"
              update_log_fails_env pg (snd (fst res)) one_row_db (snd res))
    as (_ & Hlogs & _).
  - vm_compute. reflexivity.
  - split; [vm_compute; reflexivity|exact Hlogs].
Defined.

Lemma loadTransferData_showUpdateForm (tid : string) (u : User.t)
  (env : TransferDetail.LoadEnv) (db : Store.DB) (pg : TransferDetail.Page) :
  TransferDetail.showUpdateForm (TransferDetail.loadTransferData tid u env db pg)
  = TransferDetail.showUpdateForm pg.
Proof.
  unfold TransferDetail.loadTransferData.
  destruct (TransferDetail.transfers_available env); [|reflexivity].
  cbn [negb].
  destruct (Store.list_transfers (Store.WhereId tid) None None db) as [|r rs];
    [reflexivity|].
  destruct (String.eqb (User.role u) "HQ Staff"
            && negb (String.eqb (RepairTransfer.branch_from r) (User.branch u)));
    [reflexivity|].
  destruct (String.eqb (User.role u) "Technician"
            && negb (String.eqb (RepairTransfer.branch_to r) (User.branch u)));
    [reflexivity|].
  destruct (TransferDetail.logs_available env); reflexivity.
Qed.

(** X18.  After an update that ran to its end from a page showing the
    stored record, with the reload answered, the form is closed, its remarks
    are empty, the page shows the record with the status just chosen, and
    the update is offered again exactly when [canUpdateStatus] accepts the
    user's role on that status: a Technician who sets a record to 'Pending'
    is not offered the update of it any more. *)
Theorem handleStatusUpdate_page_after
  (tid : string) (env : TransferDetail.Env) (pg pg' : TransferDetail.Page)
  (db db' : Store.DB) (u : User.t) (t : RepairTransfer.t) :
  TransferDetail.user pg = Some u ->
  TransferDetail.transfer pg = Some t ->
  Store.find tid db = Some t ->
  inScope u t ->
  TransferDetail.transfers_available (TransferDetail.reload env) = true ->
  TransferDetail.handleStatusUpdate tid env pg db = (TransferDetail.Updated, pg', db') ->
  TransferDetail.showUpdateForm pg' = false /\
  StatusUpdateForm.remarks (TransferDetail.updateForm pg') = EmptyString /\
  option_map RepairTransfer.status (TransferDetail.transfer pg')
  = Some (StatusUpdateForm.status (TransferDetail.updateForm pg)) /\
  TransferDetail.canUpdate pg'
  = Status.canUpdateStatus (User.role u)
      (StatusUpdateForm.status (TransferDetail.updateForm pg)).
Proof.
  intros Hu Ht Hfind Hscope Ha Hrun.
  destruct (@handleStatusUpdate_page_shows_stored tid env pg pg' db db' u t
              Hu Ht Hfind Hscope Ha Hrun)
    as [Hshow _].
  pose proof (@handleStatusUpdate_stored_row tid env pg pg' db db' u t t Hu Ht Hfind Hrun)
    as Hfind'.
  destruct (updateData_common_fields u t (TransferDetail.updateForm pg) env) as [Hs _].
  set (r' := Store.merge t _) in Hfind'.
  assert (Hst : RepairTransfer.status r'
                = StatusUpdateForm.status (TransferDetail.updateForm pg))
    by (unfold r'; simpl; rewrite Hs; reflexivity).
  clearbody r'.
  rewrite Hfind' in Hshow.
  destruct (handleStatusUpdate_cases tid env pg db)
    as [[_ E]|(u0 & t0 & Hu0 & Ht0 & [[_ E]|[(_ & _ & E)|(_ & _ & E)]])];
    cbv zeta in E; rewrite E in Hrun; try discriminate Hrun.
  rewrite Hu in Hu0. injection Hu0 as <-.
  injection Hrun as <- _.
  simpl in Hshow |- *.
  split; [reflexivity|]. split; [reflexivity|].
  rewrite Hshow. simpl. split; [rewrite Hst; reflexivity|].
  unfold TransferDetail.canUpdate. simpl.
  rewrite loadTransferData_user, Hu, Hshow, Hst. reflexivity.
Qed.

Lemma handleStatusUpdate_page_after_witness :
  TransferDetail.canUpdate technician_page = true /\
  TransferDetail.canUpdate
    (snd (fst (TransferDetail.handleStatusUpdate "transfer_1709280000000_4fzyo82mv"
                 update_env (TransferDetail.changeStatus "Pending" technician_page)
                 noted_db)))
  = false.
Proof.
  split; [reflexivity|].
  pose (pg := TransferDetail.changeStatus "Pending" technician_page).
  pose (res := TransferDetail.handleStatusUpdate "transfer_1709280000000_4fzyo82mv"
                 update_env pg noted_db).
  destruct (@handleStatusUpdate_page_after "transfer_1709280000000_4fzyo82mv"
              update_env pg (snd (fst res)) noted_db (snd res) technician noted_row)
    as (_ & _ & _ & Hcan).
  - reflexivity.
  - reflexivity.
  - reflexivity.
  - unfold inScope. simpl. split; [discriminate|reflexivity].
  - reflexivity.
  - vm_compute. reflexivity.
  - exact Hcan.
Defined.

(** X19.  When the store answers both reads and the stored record is in
    the user's scope, [loadTransferData] shows that record, shows as history
    exactly the stored log entries of that transfer, and starts the form
    from the record's status, keeping the remarks being typed. *)
Theorem loadTransferData_full (tid : string) (u : User.t)
  (env : TransferDetail.LoadEnv) (db : Store.DB) (pg : TransferDetail.Page)
  (r : RepairTransfer.t) :
  TransferDetail.transfers_available env = true ->
  TransferDetail.logs_available env = true ->
  Store.find tid db = Some r ->
  inScope u r ->
  let pg' := TransferDetail.loadTransferData tid u env db pg in
  TransferDetail.transfer pg' = Some r /\
  (forall l, In l (TransferDetail.statusLogs pg')
             <-> In l (Store.statusLogs db) /\ StatusLog.transfer_id l = tid) /\
  StatusUpdateForm.status (TransferDetail.updateForm pg') = RepairTransfer.status r /\
  StatusUpdateForm.remarks (TransferDetail.updateForm pg')
  = StatusUpdateForm.remarks (TransferDetail.updateForm pg).
Proof.
  intros Ha Hl Hfind Hscope. cbv zeta.
  apply inScopeb_iff in Hscope.
  unfold Store.find in Hfind. rewrite <- find_head_filter in Hfind.
  unfold TransferDetail.loadTransferData, Store.list_transfers.
  rewrite Ha, Hl. simpl.
  destruct (filter (Store.matches (Store.WhereId tid)) (Store.repairTransfers db))
    as [|r0 rs]; [discriminate Hfind|].
  injection Hfind as ->.
  unfold inScopeb in Hscope.
  destruct (String.eqb (User.role u) "HQ Staff");
    destruct (String.eqb (User.role u) "Technician");
    destruct (String.eqb (RepairTransfer.branch_from r) (User.branch u));
    destruct (String.eqb (RepairTransfer.branch_to r) (User.branch u));
    simpl in Hscope; try discriminate Hscope; simpl;
    (split; [reflexivity|]); (split; [|split; reflexivity]);
    intro l; unfold Store.list_logs; rewrite In_sort_desc, filter_In, String.eqb_eq;
    reflexivity.
Qed.

Lemma loadTransferData_full_witness :
  TransferDetail.transfer admin_page = Some pending_row /\
  (forall l, In l (TransferDetail.statusLogs admin_page)
             <-> In l (Store.statusLogs one_row_db) /\
                 StatusLog.transfer_id l = "transfer_1709280000000_4fzyo82mv").
Proof.
  destruct (@loadTransferData_full "transfer_1709280000000_4fzyo82mv" admin
              always_available one_row_db
              (TransferDetail.setUser admin TransferDetail.initial) pending_row)
    as (Ht & Hlogs & _).
  - reflexivity.
  - reflexivity.
  - reflexivity.
  - unfold inScope. simpl. split; discriminate.
  - split; [exact Ht|exact Hlogs].
Defined.

(** ** AllTransfers: the filters *)

Lemma filter_filter {A} (p q : A -> bool) (l : list A) :
  filter p (filter q l) = filter (fun x => q x && p x) l.
Proof.
  induction l as [|x xs IH]; simpl; [reflexivity|].
  destruct (q x); simpl; [destruct (p x)|]; rewrite IH; reflexivity.
Qed.

Lemma filter_all {A} (l : list A) : filter (fun _ => true) l = l.
Proof. induction l as [|x xs IH]; simpl; [|rewrite IH]; reflexivity. Qed.

Lemma filter_when {A} (b : bool) (p : A -> bool) (l : list A) :
  (if b then filter p l else l) = filter (fun x => negb b || p x) l.
Proof. destruct b; simpl; [reflexivity|symmetry; apply filter_all]. Qed.

Lemma filter_length_le {A} (p : A -> bool) (l : list A) :
  List.length (filter p l) <= List.length l.
Proof.
  induction l as [|x xs IH]; simpl; [lia|]. destruct (p x); simpl; lia.
Qed.

(** X20.  [applyFilters] keeps the loaded records in their order and shows
    exactly those that pass every filter that is set (an empty filter lets
    everything through): the search text must occur, whatever the case, in
    the customer name, the phone model or the IMEI; the status must be
    equal; the branch must be the origin or the destination; the creation
    time must parse and lie in the range. *)
Theorem applyFilters_shown (getTime : string -> option Z)
  (transfers : list RepairTransfer.t) (filters : TransferFilters.FilterState) :
  exists keep,
    TransferFilters.applyFilters getTime transfers filters = filter keep transfers /\
    forall r, keep r = true <-> shown getTime filters r.
Proof.
  unfold TransferFilters.applyFilters. cbv zeta.
  rewrite !filter_when, !filter_filter.
  eexists. split; [reflexivity|]. intro r. cbv beta. unfold shown. cbv zeta.
  rewrite ?andb_true_iff, ?orb_true_iff, ?negb_true_iff, ?truthy_false_iff,
    ?String.eqb_eq.
  unfold TransferFilters.date_ge, TransferFilters.date_le.
  assert (Hdec : forall s : string, s = EmptyString \/ s <> EmptyString)
    by (intros [|c s]; [left; reflexivity|right; discriminate]).
  split.
  - intros (Hs & Hst & Hb & Hf & Ht). repeat split.
    + intro Hne. destruct Hs as [Hs|Hs]; [contradiction|]. tauto.
    + intro Hne. destruct Hst as [Hst|Hst]; [contradiction|exact Hst].
    + intro Hne. destruct Hb as [Hb|Hb]; [contradiction|exact Hb].
    + intro Hne. destruct Hf as [Hf|Hf]; [contradiction|].
      destruct (getTime (RepairTransfer.created_at r)) as [x|]; [|discriminate Hf].
      destruct (getTime (TransferFilters.dateFrom filters)) as [y|]; [|discriminate Hf].
      exists x, y. repeat split. apply Z.leb_le. exact Hf.
    + intro Hne. destruct Ht as [Ht|Ht]; [contradiction|].
      destruct (getTime (RepairTransfer.created_at r)) as [x|]; [|discriminate Ht].
      destruct (getTime (TransferFilters.dateTo filters ++ "T23:59:59")%string) as [y|];
        [|discriminate Ht].
      exists x, y. repeat split. apply Z.leb_le. exact Ht.
  - intros (Hs & Hst & Hb & Hf & Ht). repeat split.
    + destruct (Hdec (TransferFilters.search filters)) as [E|E]; [left; exact E|].
      right. specialize (Hs E). tauto.
    + destruct (Hdec (TransferFilters.status filters)) as [E|E]; [left; exact E|].
      right. exact (Hst E).
    + destruct (Hdec (TransferFilters.branch filters)) as [E|E]; [left; exact E|].
      right. exact (Hb E).
    + destruct (Hdec (TransferFilters.dateFrom filters)) as [E|E]; [left; exact E|].
      right. destruct (Hf E) as (x & y & -> & -> & Hle). apply Z.leb_le. exact Hle.
    + destruct (Hdec (TransferFilters.dateTo filters)) as [E|E]; [left; exact E|].
      right. destruct (Ht E) as (x & y & -> & -> & Hle). apply Z.leb_le. exact Hle.
Qed.

(** With the filters cleared everything loaded is shown. *)
Lemma applyFilters_cleared (getTime : string -> option Z)
  (transfers : list RepairTransfer.t) :
  TransferFilters.applyFilters getTime transfers TransferFilters.clearFilters = transfers.
Proof. reflexivity. Qed.

Lemma applyFilters_In (getTime : string -> option Z)
  (transfers : list RepairTransfer.t) (filters : TransferFilters.FilterState)
  (r : RepairTransfer.t) :
  In r (TransferFilters.applyFilters getTime transfers filters) -> In r transfers.
Proof.
  unfold TransferFilters.applyFilters. cbv zeta.
  rewrite !filter_when, !filter_filter. intro H. apply filter_In in H. apply H.
Qed.

(** X21.  What AllTransfers displays, after loading and filtering, is never
    more than what was loaded ("N of M transfers" has N <= M), and every
    displayed record is a stored record in the signed-in user's scope,
    whatever the filters. *)
Theorem displayed_transfers_in_scope (getTime : string -> option Z)
  (u : User.t) (available : bool) (db : Store.DB)
  (filters : TransferFilters.FilterState) :
  let transfers := AllTransfers.loadTransfers u available db [] in
  let filteredTransfers := TransferFilters.applyFilters getTime transfers filters in
  List.length filteredTransfers <= List.length transfers /\
  forall r, In r filteredTransfers -> inScope u r /\ In r (Store.repairTransfers db).
Proof.
  cbv zeta. split.
  - unfold TransferFilters.applyFilters. cbv zeta.
    rewrite !filter_when, !filter_filter. apply filter_length_le.
  - intros r H. apply applyFilters_In in H. apply (loadTransfers_scoped _ _ _ _ H).
Qed.

Lemma lowerChar_idempotent (c : ascii) :
  JSString.lowerChar (JSString.lowerChar c) = JSString.lowerChar c.
Proof. destruct c as [[] [] [] [] [] [] [] []]; reflexivity. Qed.

Lemma toLowerCase_idempotent (s : string) :
  JSString.toLowerCase (JSString.toLowerCase s) = JSString.toLowerCase s.
Proof.
  induction s as [|c s IH]; simpl; [reflexivity|].
  rewrite lowerChar_idempotent, IH. reflexivity.
Qed.

Lemma toLowerCase_truthy (s : string) :
  JS.truthy (JSString.toLowerCase s) = JS.truthy s.
Proof. destruct s; reflexivity. Qed.

(** X22.  The search ignores the case of the text typed: two search texts
    that differ only in case select the same records. *)
Theorem applyFilters_search_case (getTime : string -> option Z)
  (transfers : list RepairTransfer.t) (s1 s2 st br df dt : string) :
  JSString.toLowerCase s1 = JSString.toLowerCase s2 ->
  TransferFilters.applyFilters getTime transfers
    (TransferFilters.mkFilterState s1 st br df dt)
  = TransferFilters.applyFilters getTime transfers
      (TransferFilters.mkFilterState s2 st br df dt).
Proof.
  intro H. unfold TransferFilters.applyFilters. simpl.
  rewrite <- (toLowerCase_truthy s1), <- (toLowerCase_truthy s2), H. reflexivity.
Qed.

Lemma applyFilters_search_case_witness :
  TransferFilters.applyFilters (fun _ => None) [pending_row; muar_row]
    (TransferFilters.mkFilterState "IPHONE" EmptyString EmptyString EmptyString EmptyString)
  = TransferFilters.applyFilters (fun _ => None) [pending_row; muar_row]
      (TransferFilters.mkFilterState "iPhone" EmptyString EmptyString EmptyString
         EmptyString).
Proof. apply applyFilters_search_case. reflexivity. Defined.

(** The search finds the record whose phone model contains the text. *)
Lemma applyFilters_search_example :
  TransferFilters.applyFilters (fun _ => None) [pending_row; muar_row]
    (TransferFilters.mkFilterState "IPHONE" EmptyString EmptyString EmptyString EmptyString)
  = [muar_row].
Proof. reflexivity. Qed.

(** ** Dashboard: the counters *)

Lemma filter_length_cons {A} (p : A -> bool) (x : A) (l : list A) :
  List.length (filter p (x :: l)) = (if p x then 1 else 0) + List.length (filter p l).
Proof. simpl. destruct (p x); reflexivity. Qed.

(** A status is counted in at most one of the three classes, and in exactly
    one when it is one of the five statuses. *)
Lemma status_class (s : string) :
  let c := (if String.eqb s "Pending" then 1 else 0)
           + (if existsb (fun x => String.eqb x s) ["Received"; "In Repair"] then 1 else 0)
           + (if existsb (fun x => String.eqb x s) ["Done"; "Returned"] then 1 else 0) in
  c <= 1 /\ (In s Status.STATUS_ORDER -> c = 1).
Proof.
  cbv zeta. unfold existsb.
  destruct (String.eqb_spec s "Pending") as [->|H1]; [simpl; split; [lia|reflexivity]|].
  destruct (String.eqb_spec "Received" s) as [<-|H2]; [simpl; split; [lia|reflexivity]|].
  destruct (String.eqb_spec "In Repair" s) as [<-|H3]; [simpl; split; [lia|reflexivity]|].
  destruct (String.eqb_spec "Done" s) as [<-|H4]; [simpl; split; [lia|reflexivity]|].
  destruct (String.eqb_spec "Returned" s) as [<-|H5]; [simpl; split; [lia|reflexivity]|].
  simpl. split; [lia|].
  intros [H|[H|[H|[H|[H|[]]]]]]; try contradiction. symmetry in H. contradiction.
Qed.

Lemma counters_partition (ts : list RepairTransfer.t) :
  DashboardStats.pendingCount ts + DashboardStats.inRepairCount ts
  + DashboardStats.completedCount ts <= DashboardStats.totalTransfers ts /\
  (Forall (fun t => In (RepairTransfer.status t) Status.STATUS_ORDER) ts ->
   DashboardStats.pendingCount ts + DashboardStats.inRepairCount ts
   + DashboardStats.completedCount ts = DashboardStats.totalTransfers ts).
Proof.
  unfold DashboardStats.pendingCount, DashboardStats.inRepairCount,
    DashboardStats.completedCount, DashboardStats.totalTransfers.
  induction ts as [|t ts [IHle IHeq]]; [simpl; split; [lia|reflexivity]|].
  rewrite !filter_length_cons.
  destruct (status_class (RepairTransfer.status t)) as [Hle Heq]. cbv zeta in Hle, Heq.
  cbn [List.length]. cbv beta. split.
  - lia.
  - intro Hall. inversion Hall as [|? ? Ht Hts]; subst.
    specialize (IHeq Hts). specialize (Heq Ht). lia.
Qed.

Lemma limited_length {A} (n : nat) (l : list A) :
  List.length (Store.limited (Some n) l) <= n.
Proof. simpl. apply firstn_le_length. Qed.

(** X23.  The Dashboard counts over the ten newest records the user may
    see, never over more: the total is at most 10; Pending, In Repair and
    Completed never add up to more than the total, and add up to it when
    every listed record has one of the five statuses. *)
Theorem dashboard_counters (u : User.t) (db : Store.DB) :
  let transfers := Dashboard.loadDashboardData u true db [] in
  DashboardStats.totalTransfers transfers <= 10 /\
  DashboardStats.pendingCount transfers + DashboardStats.inRepairCount transfers
  + DashboardStats.completedCount transfers <= DashboardStats.totalTransfers transfers /\
  (Forall (fun t => In (RepairTransfer.status t) Status.STATUS_ORDER) transfers ->
   DashboardStats.pendingCount transfers + DashboardStats.inRepairCount transfers
   + DashboardStats.completedCount transfers = DashboardStats.totalTransfers transfers).
Proof.
  cbv zeta. split; [|apply counters_partition].
  unfold Dashboard.loadDashboardData, DashboardStats.totalTransfers, Store.list_transfers.
  destruct (String.eqb (User.role u) "Admin"); [apply limited_length|].
  destruct (String.eqb (User.role u) "HQ Staff"); [apply limited_length|].
  destruct (String.eqb (User.role u) "Technician"); [apply limited_length|].
  simpl. lia.
Qed.

Lemma dashboard_counters_witness :
  DashboardStats.pendingCount (Dashboard.loadDashboardData admin true two_row_db [])
  + DashboardStats.inRepairCount (Dashboard.loadDashboardData admin true two_row_db [])
  + DashboardStats.completedCount (Dashboard.loadDashboardData admin true two_row_db [])
  = DashboardStats.totalTransfers (Dashboard.loadDashboardData admin true two_row_db []).
Proof.
  apply (proj2 (proj2 (dashboard_counters admin two_row_db))).
  vm_compute. repeat constructor; tauto.
Defined.

(** ** App and Navbar: routing by the location hash *)

Lemma prefix_split (p s : string) :
  String.prefix p s = true -> s = (p ++ JSString.drop (String.length p) s)%string.
Proof.
  revert s. induction p as [|a p IH]; intros s H; simpl.
  - destruct s; reflexivity.
  - destruct s as [|b s]; simpl in H; [discriminate H|].
    destruct (Ascii.ascii_dec a b) as [->|]; [|discriminate H].
    simpl. f_equal. apply IH. exact H.
Qed.

Lemma replace_prefix (p r s : string) :
  String.prefix p s = true ->
  JSString.replace p r s = (r ++ JSString.drop (String.length p) s)%string.
Proof. intro H. destruct s; cbn [JSString.replace]; rewrite H; reflexivity. Qed.

(** The only location hashes that lead to a detail page. *)
Lemma route_to_detail_only (location_hash id : string) :
  App.renderPage (App.handleHashChange location_hash) = App.TransferDetailView id ->
  JSString.slice1 location_hash = ("/transfer/" ++ id)%string /\ id <> EmptyString.
Proof.
  unfold App.handleHashChange. cbv zeta.
  set (hash := JSString.slice1 location_hash).
  destruct (String.eqb hash EmptyString || String.eqb hash "/dashboard");
    [discriminate|].
  destruct (String.eqb hash "/new-transfer"); [discriminate|].
  destruct (String.eqb hash "/transfers"); [discriminate|].
  destruct (JSString.startsWith hash "/transfer/") eqn:Hp; [|discriminate].
  unfold JSString.startsWith in Hp.
  rewrite (replace_prefix _ _ _ Hp).
  pose proof (prefix_split _ _ Hp) as Hsplit.
  set (rest := JSString.drop (String.length "/transfer/") hash) in *.
  change (EmptyString ++ rest)%string with rest.
  unfold App.renderPage. simpl.
  destruct rest as [|c rest]; simpl; [discriminate|].
  intro H. injection H as <-. split; [exact Hsplit|discriminate].
Qed.

(** X24.  The router shows the detail page exactly for a location hash that
    reads [#/transfer/<id>] with a non-empty id, and hands that id to the
    page: so the hash set by [navigateToTransferDetail] and by the
    redirection of [handleSubmit] opens the record it names. *)
Theorem route_to_detail (location_hash id : string) :
  App.renderPage (App.handleHashChange location_hash) = App.TransferDetailView id
  <-> JSString.slice1 location_hash = ("/transfer/" ++ id)%string /\ id <> EmptyString.
Proof.
  split; [apply route_to_detail_only|].
  unfold App.handleHashChange. cbv zeta.
  intros [-> Hne]. destruct id as [|c id]; [contradiction|]. reflexivity.
Qed.

Lemma route_to_detail_witness :
  App.renderPage
    (App.handleHashChange (App.navigateToTransferDetail (NewTransfer.transferId submit_env)))
  = App.TransferDetailView "transfer_1709280000000_4fzyo82mv".
Proof.
  apply (proj2 (route_to_detail
                  (App.navigateToTransferDetail (NewTransfer.transferId submit_env))
                  "transfer_1709280000000_4fzyo82mv")).
  split; [reflexivity|discriminate].
Defined.

Lemma isActive_dashboard (currentPath : string) :
  Navbar.isActive currentPath "#/dashboard"
  = String.eqb currentPath "/dashboard" || String.eqb currentPath "/".
Proof. reflexivity. Qed.

Lemma isActive_new_transfer (currentPath : string) :
  Navbar.isActive currentPath "#/new-transfer" = String.prefix "/new-transfer" currentPath.
Proof. reflexivity. Qed.

Lemma isActive_transfers (currentPath : string) :
  Navbar.isActive currentPath "#/transfers" = String.prefix "/transfers" currentPath.
Proof. reflexivity. Qed.

Lemma active_dashboard_not_others (currentPath : string) :
  Navbar.isActive currentPath "#/dashboard" = true ->
  Navbar.isActive currentPath "#/new-transfer" = false /\
  Navbar.isActive currentPath "#/transfers" = false.
Proof.
  rewrite isActive_dashboard, isActive_new_transfer, isActive_transfers.
  rewrite orb_true_iff, !String.eqb_eq. intros [->| ->]; split; reflexivity.
Qed.

Lemma active_new_transfer_not_transfers (currentPath : string) :
  Navbar.isActive currentPath "#/new-transfer" = true ->
  Navbar.isActive currentPath "#/transfers" = false.
Proof.
  rewrite isActive_new_transfer, isActive_transfers. intro H.
  rewrite (prefix_split _ _ H). reflexivity.
Qed.

(** X25.  Whatever the current path, the navigation bar highlights at most
    one of its three items. *)
Theorem navbar_one_active (currentPath a b : string) :
  In a Navbar.navigation -> In b Navbar.navigation ->
  Navbar.isActive currentPath a = true -> Navbar.isActive currentPath b = true ->
  a = b.
Proof.
  simpl. intros [<-|[<-|[<-|[]]]] [<-|[<-|[<-|[]]]] Ha Hb; try reflexivity; exfalso.
  - destruct (active_dashboard_not_others _ Ha) as [H _]. rewrite H in Hb. discriminate.
  - destruct (active_dashboard_not_others _ Ha) as [_ H]. rewrite H in Hb. discriminate.
  - destruct (active_dashboard_not_others _ Hb) as [H _]. rewrite H in Ha. discriminate.
  - rewrite (active_new_transfer_not_transfers _ Ha) in Hb. discriminate.
  - destruct (active_dashboard_not_others _ Hb) as [_ H]. rewrite H in Ha. discriminate.
  - rewrite (active_new_transfer_not_transfers _ Hb) in Ha. discriminate.
Qed.

Lemma navbar_one_active_witness : "#/transfers" = "#/transfers".
Proof.
  apply (@navbar_one_active "/transfers" "#/transfers" "#/transfers").
  - simpl. tauto.
  - simpl. tauto.
  - reflexivity.
  - reflexivity.
Defined.

(** Which location hashes lead to the two list pages. *)
Lemma route_to_lists (location_hash : string) :
  (App.renderPage (App.handleHashChange location_hash) = App.NewTransferView
   -> JSString.slice1 location_hash = "/new-transfer") /\
  (App.renderPage (App.handleHashChange location_hash) = App.AllTransfersView
   -> JSString.slice1 location_hash = "/transfers").
Proof.
  unfold App.handleHashChange. cbv zeta.
  set (hash := JSString.slice1 location_hash).
  destruct (String.eqb hash EmptyString || String.eqb hash "/dashboard");
    [split; discriminate|].
  destruct (String.eqb_spec hash "/new-transfer") as [E|E];
    [split; [intros _; exact E|discriminate]|].
  destruct (String.eqb_spec hash "/transfers") as [E'|E'];
    [split; [discriminate|intros _; exact E']|].
  destruct (JSString.startsWith hash "/transfer/"); [|split; discriminate].
  unfold App.renderPage. simpl.
  destruct (JS.truthy (JSString.replace "/transfer/" EmptyString hash));
    split; discriminate.
Qed.

(** X26.  The navigation bar follows the router: when the router shows
    NewTransfer or AllTransfers the bar highlights that item, and when it
    shows a detail page the bar highlights nothing. *)
Theorem navbar_follows_router (location_hash : string) :
  let currentPath := Navbar.updatePath location_hash in
  let view := App.renderPage (App.handleHashChange location_hash) in
  (view = App.NewTransferView -> Navbar.isActive currentPath "#/new-transfer" = true) /\
  (view = App.AllTransfersView -> Navbar.isActive currentPath "#/transfers" = true) /\
  (forall id, view = App.TransferDetailView id ->
              forall item, In item Navbar.navigation ->
                           Navbar.isActive currentPath item = false).
Proof.
  cbv zeta. unfold Navbar.updatePath.
  destruct (route_to_lists location_hash) as [Hn Ha].
  split; [|split].
  - intro H. rewrite (Hn H). reflexivity.
  - intro H. rewrite (Ha H). reflexivity.
  - intros id H item Hin. apply route_to_detail_only in H. destruct H as [-> _].
    simpl in Hin. destruct Hin as [<-|[<-|[<-|[]]]]; reflexivity.
Qed.

Lemma navbar_follows_router_witness :
  Navbar.isActive (Navbar.updatePath "#/transfers") "#/transfers" = true /\
  Navbar.isActive (Navbar.updatePath "#/transfer/transfer_1709280000000_4fzyo82mv")
    "#/transfers" = false.
Proof.
  split.
  - apply (proj1 (proj2 (navbar_follows_router "#/transfers"))). reflexivity.
  - apply (proj2 (proj2 (navbar_follows_router
                           "#/transfer/transfer_1709280000000_4fzyo82mv"))
             "transfer_1709280000000_4fzyo82mv").
    + reflexivity.
    + simpl. tauto.
Defined.

(** ** The auth module: the current user *)

Lemma list_users_find (email : string) (users : list User.t) :
  CurrentUser.list_users email users
  = match List.find (fun u => String.eqb (User.email u) email) users with
    | Some u => [u]
    | None => []
    end.
Proof.
  unfold CurrentUser.list_users. rewrite <- find_head_filter.
  destruct (filter (fun u => String.eqb (User.email u) email) users); reflexivity.
Qed.

(** X27.  For a signed-in address that the User collection knows,
    [getCurrentUser] answers the first stored user with that address, with
    the role and branch stored there and not the defaults, and writes
    nothing. *)
Theorem getCurrentUser_known (env : CurrentUser.Env) (users : list User.t)
  (authUser : CurrentUser.AuthUser) (u : User.t) :
  CurrentUser.me env = Some (Some authUser) ->
  CurrentUser.list_available env = true ->
  List.find (fun x => String.eqb (User.email x) (CurrentUser.email authUser)) users
  = Some u ->
  CurrentUser.getCurrentUser env users = (Some u, users).
Proof.
  intros Hme Hl Hfind. unfold CurrentUser.getCurrentUser.
  rewrite Hme, Hl, list_users_find, Hfind. reflexivity.
Qed.

Lemma getCurrentUser_known_witness :
  CurrentUser.getCurrentUser known_sign_in [admin; hq_staff; technician]
  = (Some technician, [admin; hq_staff; technician]).
Proof.
  apply (@getCurrentUser_known known_sign_in [admin; hq_staff; technician]
           (CurrentUser.mkAuthUser "u3" "bob@example.com" (Some "Robert")) technician);
    reflexivity.
Defined.

(** X28.  For a signed-in address that the User collection does not know,
    with the store answering, [getCurrentUser] stores one new user and
    answers it: id and address from the identity provider, the display name
    or else the part of the address before the at-sign as name, role 'Admin'
    and branch 'HQ'. *)
Theorem getCurrentUser_first_sign_in (env : CurrentUser.Env) (users : list User.t)
  (authUser : CurrentUser.AuthUser) :
  CurrentUser.me env = Some (Some authUser) ->
  CurrentUser.list_available env = true ->
  CurrentUser.create_available env = true ->
  (forall x, In x users -> User.email x <> CurrentUser.email authUser) ->
  exists u row,
    CurrentUser.getCurrentUser env users = (Some u, users ++ [row]) /\
    same_identity u row /\
    User.id u = CurrentUser.id authUser /\
    User.email u = CurrentUser.email authUser /\
    User.name u
    = JS.orO_else (CurrentUser.displayName authUser)
        (JS.split_head "@"%char (CurrentUser.email authUser)) /\
    User.role u = "Admin" /\
    User.branch u = "HQ".
Proof.
  intros Hme Hl Hc Hnew. unfold CurrentUser.getCurrentUser.
  rewrite Hme, Hl, Hc, list_users_find.
  assert (Hnone : List.find (fun x => String.eqb (User.email x)
                                        (CurrentUser.email authUser)) users = None).
  { induction users as [|x xs IH]; simpl; [reflexivity|].
    rewrite eqb_false_of_neq by (apply Hnew; left; reflexivity).
    apply IH. intros y Hy. apply Hnew. right. exact Hy. }
  rewrite Hnone. simpl.
  eexists. eexists. split; [reflexivity|]. unfold same_identity. simpl. repeat split.
Qed.

Lemma getCurrentUser_first_sign_in_witness :
  exists u row,
    CurrentUser.getCurrentUser first_sign_in [admin; hq_staff; technician]
    = (Some u, [admin; hq_staff; technician; row]) /\
    User.name u = "eve" /\ User.role u = "Admin" /\ User.branch u = "HQ".
Proof.
  destruct (@getCurrentUser_first_sign_in first_sign_in [admin; hq_staff; technician]
              (CurrentUser.mkAuthUser "u9" "eve@example.com" None))
    as (u & row & Hrun & _ & _ & _ & Hname & Hrole & Hbranch).
  - reflexivity.
  - reflexivity.
  - reflexivity.
  - simpl. intros x [<-|[<-|[<-|[]]]]; discriminate.
  - exists u, row. split; [exact Hrun|]. split; [exact Hname|].
    split; [exact Hrole|exact Hbranch].
Defined.

(** The three ways a call of [getCurrentUser] can end. *)
Lemma getCurrentUser_cases (env : CurrentUser.Env) (users : list User.t) :
  CurrentUser.getCurrentUser env users = (None, users) \/
  (exists authUser u,
      CurrentUser.me env = Some (Some authUser) /\
      List.find (fun x => String.eqb (User.email x) (CurrentUser.email authUser)) users
      = Some u /\
      CurrentUser.getCurrentUser env users = (Some u, users)) \/
  (exists authUser,
      CurrentUser.me env = Some (Some authUser) /\
      List.find (fun x => String.eqb (User.email x) (CurrentUser.email authUser)) users
      = None /\
      CurrentUser.getCurrentUser env users
      = (Some (CurrentUser.newUser authUser (CurrentUser.created_iso env)
                 (CurrentUser.updated_iso env)),
         users ++ [CurrentUser.newUser authUser (CurrentUser.stamp env)
                     (CurrentUser.stamp env)])).
Proof.
  unfold CurrentUser.getCurrentUser.
  destruct (CurrentUser.me env) as [[authUser|]|]; [|left; reflexivity|left; reflexivity].
  destruct (CurrentUser.list_available env); simpl; [|left; reflexivity].
  rewrite list_users_find.
  destruct (List.find _ users) as [u|] eqn:Hfind.
  - right. left. exists authUser, u. repeat split. exact Hfind.
  - destruct (CurrentUser.create_available env); simpl; [|left; reflexivity].
    right. right. exists authUser. repeat split. exact Hfind.
Qed.

(** X29.  Signing in again does not create a second user: after a call that
    answered a user, a later call for the same identity, with the store
    answering the look-up, leaves the User collection as it is and answers a
    user with the same id, address, name, role and branch. *)
Theorem getCurrentUser_again (env env' : CurrentUser.Env) (users users' : list User.t)
  (u : User.t) :
  CurrentUser.getCurrentUser env users = (Some u, users') ->
  CurrentUser.me env' = CurrentUser.me env ->
  CurrentUser.list_available env' = true ->
  exists u',
    CurrentUser.getCurrentUser env' users' = (Some u', users') /\
    same_identity u u'.
Proof.
  intros Hrun Hme Hl.
  destruct (getCurrentUser_cases env users)
    as [E|[(a & u0 & Hm & Hfind & E)|(a & Hm & Hfind & E)]];
    rewrite E in Hrun; try discriminate Hrun; injection Hrun as <- <-.
  - exists u0. split; [|unfold same_identity; repeat split].
    unfold CurrentUser.getCurrentUser.
    rewrite Hme, Hm, Hl, list_users_find, Hfind. reflexivity.
  - exists (CurrentUser.newUser a (CurrentUser.stamp env) (CurrentUser.stamp env)).
    split; [|unfold same_identity; simpl; repeat split].
    unfold CurrentUser.getCurrentUser.
    rewrite Hme, Hm, Hl, list_users_find, find_snoc, Hfind. simpl.
    rewrite String.eqb_refl. reflexivity.
Qed.

Lemma getCurrentUser_again_witness :
  exists u',
    CurrentUser.getCurrentUser first_sign_in
      (snd (CurrentUser.getCurrentUser first_sign_in [admin]))
    = (Some u', snd (CurrentUser.getCurrentUser first_sign_in [admin])) /\
    User.role u' = "Admin".
Proof.
  destruct (@getCurrentUser_again first_sign_in first_sign_in [admin]
              (snd (CurrentUser.getCurrentUser first_sign_in [admin]))
              (CurrentUser.newUser (CurrentUser.mkAuthUser "u9" "eve@example.com" None)
                 "2024-03-03T07:00:00.200Z" "2024-03-03T07:00:00.201Z"))
    as (u' & Hrun & _ & _ & _ & Hrole & _).
  - reflexivity.
  - reflexivity.
  - reflexivity.
  - exists u'. split; [exact Hrun|exact Hrole].
Defined.

(** X30.  [getCurrentUser] never changes or removes a stored user: it keeps
    the collection, in order, appends at most one user, and appends nothing
    when it answers [null]. *)
Theorem getCurrentUser_append_only (env : CurrentUser.Env) (users : list User.t) :
  exists rows,
    snd (CurrentUser.getCurrentUser env users) = users ++ rows /\
    List.length rows <= 1 /\
    (fst (CurrentUser.getCurrentUser env users) = None -> rows = []).
Proof.
  destruct (getCurrentUser_cases env users)
    as [E|[(a & u0 & _ & _ & E)|(a & _ & _ & E)]]; rewrite E; simpl.
  - exists []. rewrite app_nil_r. simpl. repeat split; lia.
  - exists []. rewrite app_nil_r. simpl. repeat split; lia.
  - eexists. split; [reflexivity|]. simpl. split; [lia|discriminate].
Qed.

Lemma getCurrentUser_append_only_witness :
  exists rows,
    snd (CurrentUser.getCurrentUser first_sign_in [admin]) = [admin] ++ rows /\
    List.length rows <= 1.
Proof.
  destruct (getCurrentUser_append_only first_sign_in [admin]) as (rows & H1 & H2 & _).
  exists rows. split; assumption.
Defined.
